(** * pyqtdeploy: the Builder and the Project model

    A shallow embedding of [pyqtdeploy/project/project.py] and
    [pyqtdeploy/builder/builder.py].

    - Python strings are [string], the bytes of their UTF-8 encoding; the
      character classes of [str.strip], [str.isdigit] and [int] are those
      of the ASCII characters, so they are exact for text in ASCII, and a
      statement that depends on them says so.  [int] is the one of CPython
      3.11 and later with its default settings.  List-valued attributes
      are [list]s whose order is the insertion order.
    - A Python [dict] keeps insertion order and is an association list
      updated in place ([dict_set]).
    - Exceptions are values of [exn]; code that can raise lives in
      [result] and code that also talks to the file system or to a
      subprocess lives in the monad [M], a state monad over the trace of
      operating-system events with the environment's answers given by an
      [OS] record.
    - [os.path] is [posixpath]. *)

From Stdlib Require Import String Ascii List ZArith Lia Bool DecimalString.
From stdpp Require Import base option list strings gmap.
Import ListNotations.
Open Scope string_scope.
Open Scope list_scope.
Set Warnings "-register-all".
Set Default Proof Using "Type".

(* ================================================================== *)
(** * Part I: definitions *)
(* ================================================================== *)

(** ** Python strings *)

Module Py.

(** [s.startswith(p)] *)
Definition startswith (s p : string) : bool := String.prefix p s.

(** [s.endswith(suf)] *)
Fixpoint endswith (s suf : string) : bool :=
if String.eqb s suf then true
else match s with
     | EmptyString => false
     | String _ s' => endswith s' suf
     end.

(** [s[:-n]] for [n <= len(s)] *)
Definition drop_last (n : nat) (s : string) : string :=
substring 0 (String.length s - n) s.

(** [(s[:i], s[i:])] with [i = s.rfind(sep) + 1], when [sep] occurs in [s]. *)
Fixpoint rfind_split (sep : ascii) (s : string) : option (string * string) :=
match s with
| EmptyString => None
| String c s' =>
    match rfind_split sep s' with
    | Some (h, t) => Some (String c h, t)
    | None => if Ascii.eqb c sep then Some (String c EmptyString, s') else None
    end
end.

(** [(s[:i], s[i:])] with [i = s.rfind(sep) + 1]; [rfind] is [-1] when
  [sep] does not occur, and then [i = 0]. *)
Definition split_after_last (sep : ascii) (s : string) : string * string :=
match rfind_split sep s with
| Some p => p
| None => (EmptyString, s)
end.

(** [s.split(sep)[-1]] *)
Definition last_component (sep : ascii) (s : string) : string :=
snd (split_after_last sep s).

(** [s.rstrip(c)] for a one-character [c] *)
Fixpoint rstrip_char (c : ascii) (s : string) : string :=
match s with
| EmptyString => EmptyString
| String a s' =>
    match rstrip_char c s' with
    | EmptyString => if Ascii.eqb a c then EmptyString else String a EmptyString
    | r => String a r
    end
end.

(** [c.isspace()] for an ASCII character: the characters from tab to
  carriage return, the separators 0x1c to 0x1f and the space. *)
Definition is_space (a : ascii) : bool :=
let n := nat_of_ascii a in
(n =? 32)%nat || ((9 <=? n)%nat && (n <=? 13)%nat)
|| ((28 <=? n)%nat && (n <=? 31)%nat).

Fixpoint lstrip (s : string) : string :=
match s with
| EmptyString => EmptyString
| String a s' => if is_space a then lstrip s' else s
end.

Fixpoint rstrip (s : string) : string :=
match s with
| EmptyString => EmptyString
| String a s' =>
    match rstrip s' with
    | EmptyString => if is_space a then EmptyString else String a EmptyString
    | r => String a r
    end
end.

(** [s.strip()] *)
Definition strip (s : string) : string := rstrip (lstrip s).

(** [sep.join(l)] *)
Definition str_join (sep : string) (l : list string) : string :=
String.concat sep l.

(** [c.isdigit()] for an ASCII character *)
Definition is_digit (a : ascii) : bool :=
let n := nat_of_ascii a in (48 <=? n)%nat && (n <=? 57)%nat.

(** The value of a run of decimal digits in which single underscores may
  stand between two digits. *)
Fixpoint digits_value (acc : Z) (s : string) : option Z :=
match s with
| EmptyString => Some acc
| String a s' =>
    if is_digit a
    then digits_value (10 * acc + Z.of_nat (nat_of_ascii a - 48)) s'
    else if Ascii.eqb a "_" then
      match s' with
      | String b _ => if is_digit b then digits_value acc s' else None
      | EmptyString => None
      end
    else None
end.

Fixpoint count_digits (s : string) : nat :=
match s with
| EmptyString => 0
| String a s' => (if is_digit a then 1 else 0) + count_digits s'
end.

(** [sys.get_int_max_str_digits()], by default *)
Definition max_str_digits : nat := 4300.

(** The digits of [int(s)] after the sign: they start with a digit, and
  there are at most [max_str_digits] of them. *)
Definition numeral (s : string) : option Z :=
match s with
| EmptyString => None
| String a _ =>
    if is_digit a && (count_digits s <=? max_str_digits)%nat
    then digits_value 0 s else None
end.

(** [int(s)] for a string: surrounding white space, an optional sign and
  the digits; [None] stands for [ValueError]. *)
Definition int_of_str (s : string) : option Z :=
match strip s with
| EmptyString => None
| String a r =>
    if Ascii.eqb a "-" then option_map Z.opp (numeral r)
    else if Ascii.eqb a "+" then numeral r
    else numeral (String a r)
end.

(** [str(int(b))] for a [bool] *)
Definition str_of_bool_int (b : bool) : string := if b then "1" else "0".

End Py.

(** ** [os.path] (posixpath) *)

Module OsPath.

Definition sep : ascii := "/"%char.

(** [os.path.isabs] *)
Definition isabs (p : string) : bool := Py.startswith p "/".

(** One step of the loop of [os.path.join]. *)
Definition join2 (path b : string) : string :=
if Py.startswith b "/" then b
else if String.eqb path "" || Py.endswith path "/" then path +:+ b
else path +:+ "/" +:+ b.

(** [os.path.join] of [a] and the elements of [p] *)
Definition join (a : string) (p : list string) : string :=
fold_left join2 p a.

(** The head of [os.path.split]: trailing slashes are stripped unless the
  head consists of slashes only. *)
Definition strip_head (head : string) : string :=
match Py.rstrip_char sep head with
| EmptyString => head
| h => h
end.

(** [os.path.split] *)
Definition split (p : string) : string * string :=
let (head, tail) := Py.split_after_last sep p in
(strip_head head, tail).

(** [os.path.basename] *)
Definition basename (p : string) : string := snd (Py.split_after_last sep p).

(** [os.path.dirname] *)
Definition dirname (p : string) : string := fst (split p).

Fixpoint all_dots (s : string) : bool :=
match s with
| EmptyString => true
| String a s' => Ascii.eqb a "." && all_dots s'
end.

(** [os.path.splitext]: the extension starts at the last dot of the last
  path component, unless only dots precede it there. *)
Definition splitext (p : string) : string * string :=
let (head, base) := Py.split_after_last sep p in
match Py.rfind_split "." base with
| Some (root_dot, ext) =>
    let root := Py.drop_last 1 root_dot in
    if all_dots root then (p, "") else (head +:+ root, "." +:+ ext)
| None => (p, "")
end.

End OsPath.

(** ** Exceptions and results *)

Inductive exn : Type :=
| UserException (summary detail : string)
| OSError (text : string)
| AttributeError (text : string)
| TypeError (text : string)
| ValueError (text : string)
| UnicodeDecodeError (text : string)
| RecursionError (text : string).

Inductive result (A : Type) : Type :=
| Ok (a : A)
| Raise (e : exn).
Arguments Ok {A} a.
Arguments Raise {A} e.

#[global] Instance result_ret : MRet result := fun A a => Ok a.
#[global] Instance result_bind : MBind result := fun A B f r =>
  match r with
  | Ok a => f a
  | Raise e => Raise e
  end.

Definition is_user_exception (e : exn) : bool :=
  match e with
  | UserException _ _ => true
  | _ => false
  end.

(** ** The project model ([project/project.py]) *)

(** [QrcFile] and its subclass [QrcDirectory]. *)
Inductive QrcContent : Type :=
| QrcFile (name : string) (included : bool)
| QrcDirectory (name : string) (included : bool) (contents : list QrcContent).

Definition content_name (c : QrcContent) : string :=
  match c with
  | QrcFile n _ | QrcDirectory n _ _ => n
  end.

Definition content_included (c : QrcContent) : bool :=
  match c with
  | QrcFile _ i | QrcDirectory _ i _ => i
  end.

(** [isinstance(content, QrcDirectory)] *)
Definition is_QrcDirectory (c : QrcContent) : bool :=
  match c with
  | QrcDirectory _ _ _ => true
  | QrcFile _ _ => false
  end.

(** [QrcFile.copy] and [QrcDirectory.copy], on values. *)
Fixpoint content_copy (c : QrcContent) : QrcContent :=
  match c with
  | QrcFile n i => QrcFile n i
  | QrcDirectory n i cs => QrcDirectory n i (map content_copy cs)
  end.

Module QrcPackage.
Record t : Type := mk {
  name : string;
  contents : list QrcContent;
  exclusions : list string
}.

(** [QrcPackage.__init__] *)
Definition init : t :=
  {| name := ""; contents := [];
     exclusions := ["*.pyc"; "*.pyo"; "__pycache__"; "*-info"] |}.

(** [QrcPackage.copy], on values. *)
Definition copy (p : t) : t :=
  {| name := name p;
     contents := map content_copy (contents p);
     exclusions := exclusions p |}.

Definition with_name (n : string) (p : t) : t :=
  {| name := n; contents := contents p; exclusions := exclusions p |}.

Definition with_contents (cs : list QrcContent) (p : t) : t :=
  {| name := name p; contents := cs; exclusions := exclusions p |}.
End QrcPackage.

Module StdlibExtensionModule.
Record t : Type := mk {
  name : string;
  defines : string;
  includepath : string;
  libs : string
}.
End StdlibExtensionModule.

Module ExtensionModule.
Record t : Type := mk {
  name : string;
  path : string
}.
End ExtensionModule.

Module Project.
(** The attributes set by [Project.__init__]; an instance has no others. *)
Record t : Type := mk {
  _modified : bool;
  _name : string;
  application_name : string;
  application_is_pyqt5 : bool;
  application_package : QrcPackage.t;
  application_script : string;
  application_entry_point : string;
  build_dir : string;
  extension_modules : list ExtensionModule.t;
  pyqt_modules : list string;
  python_host_interpreter : string;
  python_source_dir : string;
  python_target_include_dir : string;
  python_target_library : string;
  python_target_stdlib_dir : string;
  qmake : string;
  packages : list QrcPackage.t;
  stdlib_package : QrcPackage.t;
  stdlib_extension_modules : list StdlibExtensionModule.t;
  sys_path : string
}.

(** The class attribute [Project.version]. *)
Definition version : Z := 3.

(** [Project.__init__(name)], with [abs_name] the value of
    [os.path.abspath(name) if name != '' else ''] *)
Definition init (abs_name : string) : t :=
  {| _modified := false;
     _name := abs_name;
     application_name := "";
     application_is_pyqt5 := true;
     application_package := QrcPackage.init;
     application_script := "";
     application_entry_point := "";
     build_dir := "build";
     extension_modules := [];
     pyqt_modules := [];
     python_host_interpreter := "";
     python_source_dir := "";
     python_target_include_dir := "";
     python_target_library := "";
     python_target_stdlib_dir := "";
     qmake := "";
     packages := [QrcPackage.init];
     stdlib_package := QrcPackage.init;
     stdlib_extension_modules := [];
     sys_path := "" |}.

(** Reading [project.site_packages_package].  [Project.__init__] sets no
    such attribute and the class defines no such property (the
    site-packages package became the plain list [packages]), so the
    attribute lookup of Python raises. *)
Definition site_packages_package (p : t) : result QrcPackage.t :=
  Raise (AttributeError
           "'Project' object has no attribute 'site_packages_package'").
End Project.

(** ** The environment and its effects *)

(** What the builder asks of the operating system, in order. *)
Inductive event : Type :=
| Makedirs (dir : string)
| Open (path : string)
| Write (path data : string)
| Close (path : string)
| QFileRemove (path : string)
| QFileCopy (src dst : string)
| QFileRead (path : string)
| CheckOutput (args : list string)
| CopyFile (src dst : string)
| Remove (path : string)
| Print (message : string).

Definition trace : Type := list event.

(** How [subprocess.check_output(args, stderr=STDOUT,
    universal_newlines=True)] ends.  The child exits with a return code and
    its captured output, decoded as text; or an argument cannot be passed
    to it ([ValueError], for a NUL character); or it cannot be started
    ([OSError]); or its captured output cannot be decoded as text
    ([UnicodeDecodeError], raised before the return code is looked at). *)
Inductive proc_outcome : Type :=
| Exited (returncode : Z) (output : string)
| BadArgument (text : string)
| NotStarted (text : string)
| Undecodable (text : string).

(** A directory tree on disk, as [os.listdir], [os.path.isfile] and
    [os.path.isdir] show it; a listing of [None] is a directory that
    [os.listdir] cannot read. *)
Inductive FsEntry : Type :=
| FsFile (name : string)
| FsDir (name : string) (listing : option (list FsEntry))
| FsOther (name : string).

(** The answers of the environment.  An answer may depend on everything
    done so far; [Some text] and [inl text] are failures with the text of
    the error.  [getcwd_error] is the error of [os.getcwd] when the working
    directory is gone; [recursion_ok n] says whether the recursion limit of
    the interpreter lets [Project._load_mfs_contents] be nested [n] deep. *)
Record OS : Type := {
  expandvars : string -> string;
  relpath : string -> string -> string;
  abspath : string -> string;
  getcwd_error : option string;
  recursion_ok : nat -> bool;
  gettempdir : string;
  lib_filename : string -> string;
  hexversion : string;
  listdir : string -> option (list FsEntry);
  makedirs : trace -> string -> option string;
  open_wt : trace -> string -> option string;
  qfile_copy : trace -> string -> string -> bool;
  qfile_read : trace -> string -> string + string;
  check_output : trace -> list string -> proc_outcome;
  copyfile : trace -> string -> string -> option string;
  remove : trace -> string -> option string
}.

(** Computations that append to the trace and may raise. *)
Definition M (A : Type) : Type := trace -> result A * trace.

#[global] Instance M_ret : MRet M := fun A a tr => (Ok a, tr).
#[global] Instance M_bind : MBind M := fun A B f m tr =>
  match m tr with
  | (Ok a, tr') => f a tr'
  | (Raise e, tr') => (Raise e, tr')
  end.

Definition raise {A : Type} (e : exn) : M A := fun tr => (Raise e, tr).
Definition lift {A : Type} (r : result A) : M A := fun tr => (r, tr).
Definition emit (e : event) : M unit := fun tr => (Ok tt, tr ++ [e]).
Definition ask {A : Type} (q : trace -> A) : M A := fun tr => (Ok (q tr), tr).

(** [for x in l: body(x)] *)
Fixpoint for_each {A : Type} (body : A -> M unit) (l : list A) : M unit :=
  match l with
  | [] => mret tt
  | x :: l' => body x ;; for_each body l'
  end.

(** [f.write(data)] and [f.close()] on a file opened for writing; the file
    object is named by its path. *)
Definition f_write (f data : string) : M unit := emit (Write f data).
Definition f_close (f : string) : M unit := emit (Close f).

Definition nl : string := String (ascii_of_nat 10) EmptyString.
Definition dq : string := String (ascii_of_nat 34) EmptyString.

(** ** Python dictionaries *)

Definition dict (V : Type) : Type := list (string * V).

(** [d.get(k)] *)
Fixpoint dict_get {V : Type} (d : dict V) (k : string) : option V :=
  match d with
  | [] => None
  | (k', v) :: d' => if String.eqb k' k then Some v else dict_get d' k
  end.

(** [d[k] = v] *)
Fixpoint dict_set {V : Type} (k : string) (v : V) (d : dict V) : dict V :=
  match d with
  | [] => [(k, v)]
  | (k', v') :: d' =>
      if String.eqb k' k then (k', v) :: d' else (k', v') :: dict_set k v d'
  end.

Definition dict_keys {V : Type} (d : dict V) : list string := map fst d.
Definition dict_values {V : Type} (d : dict V) : list V := map snd d.

(** [x in l] for a list of strings *)
Definition str_in (x : string) (l : list string) : bool :=
  existsb (String.eqb x) l.

(** [if x not in l: l.append(x)] *)
Definition append_new (l : list string) (x : string) : list string :=
  if str_in x l then l else l ++ [x].

(** [os.path.abspath(filename)]: a name that is not absolute is joined to
    the working directory, which [os.getcwd] has to give. *)
Definition os_path_abspath (os : OS) (filename : string) : result string :=
  if OsPath.isabs filename then Ok (abspath os filename)
  else match getcwd_error os with
       | Some text => Raise (OSError text)
       | None => Ok (abspath os filename)
       end.

(** ** Paths of a project ([Project.relative_path], [Project.absolute_path]) *)

Definition relative_path (os : OS) (p : Project.t) (filename : string) : string :=
  let filename := Py.strip filename in
  if OsPath.isabs filename then
    if negb (String.eqb (Project._name p) "") then
      let project_dir := OsPath.dirname (Project._name p) in
      if Py.startswith filename project_dir
      then relpath os filename project_dir
      else filename
    else filename
  else filename.

Definition absolute_path (os : OS) (p : Project.t) (filename : string) : string :=
  let filename := expandvars os (Py.strip filename) in
  if negb (OsPath.isabs filename)
  then OsPath.join (OsPath.dirname (Project._name p)) [filename]
  else filename.

(** ** The builder ([builder/builder.py]) *)

Module _QtMetaData.
Record t : Type := mk {
  qt : option (list string);
  config : option (list string)
}.
(** [_QtMetaData()] *)
Definition default : t := mk None None.
Definition of_qt (l : list string) : t := mk (Some l) None.
Definition of_config (l : list string) : t := mk None (Some l).
End _QtMetaData.

Definition _pyqt5_module_map : dict _QtMetaData.t :=
  [ ("QAxContainer", _QtMetaData.of_qt ["axcontainer"]);
    ("QtBluetooth", _QtMetaData.of_qt ["bluetooth"]);
    ("QtCore", _QtMetaData.of_qt ["-gui"]);
    ("QtDBus", _QtMetaData.of_qt ["dbus"; "-gui"]);
    ("QtDesigner", _QtMetaData.of_qt ["designer"]);
    ("QtHelp", _QtMetaData.of_qt ["help"]);
    ("QtMacExtras", _QtMetaData.of_qt ["macextras"]);
    ("QtMultimedia", _QtMetaData.of_qt ["multimedia"]);
    ("QtMultimediaWidgets", _QtMetaData.of_qt ["multimediawidgets"; "multimedia"]);
    ("QtNetwork", _QtMetaData.of_qt ["network"; "-gui"]);
    ("QtOpenGL", _QtMetaData.of_qt ["opengl"]);
    ("QtPositioning", _QtMetaData.of_qt ["positioning"]);
    ("QtPrintSupport", _QtMetaData.of_qt ["printsupport"]);
    ("QtQml", _QtMetaData.of_qt ["qml"]);
    ("QtQuick", _QtMetaData.of_qt ["quick"]);
    ("QtSensors", _QtMetaData.of_qt ["sensors"]);
    ("QtSerialPort", _QtMetaData.of_qt ["serialport"]);
    ("QtSql", _QtMetaData.of_qt ["sql"; "widgets"]);
    ("QtSvg", _QtMetaData.of_qt ["svg"]);
    ("QtTest", _QtMetaData.of_qt ["testlib"; "widgets"]);
    ("QtWebKit", _QtMetaData.of_qt ["webkit"; "network"]);
    ("QtWebKitWidgets", _QtMetaData.of_qt ["webkitwidgets"]);
    ("QtWidgets", _QtMetaData.of_qt ["widgets"]);
    ("QtWinExtras", _QtMetaData.of_qt ["winextras"; "widgets"]);
    ("QtX11Extras", _QtMetaData.of_qt ["x11extras"]);
    ("QtXmlPatterns", _QtMetaData.of_qt ["xmlpatterns"; "-gui"; "network"]);
    ("QtChart", _QtMetaData.of_config ["qtcommercialchart"]);
    ("QtDataVisualization", _QtMetaData.of_qt ["datavisualization"]);
    ("Qsci", _QtMetaData.of_config ["qscintilla2"]) ].

Definition _pyqt4_module_map : dict _QtMetaData.t :=
  [ ("QAxContainer", _QtMetaData.of_config ["qaxcontainer"]);
    ("QtCore", _QtMetaData.of_qt ["-gui"]);
    ("QtDBus", _QtMetaData.of_qt ["dbus"; "-gui"]);
    ("QtDeclarative", _QtMetaData.of_qt ["declarative"; "network"]);
    ("QtDesigner", _QtMetaData.of_config ["designer"]);
    ("QtHelp", _QtMetaData.of_config ["help"]);
    ("QtMultimedia", _QtMetaData.of_qt ["multimedia"]);
    ("QtNetwork", _QtMetaData.of_qt ["network"; "-gui"]);
    ("QtOpenGL", _QtMetaData.of_qt ["opengl"]);
    ("QtScript", _QtMetaData.of_qt ["script"; "-gui"]);
    ("QtScriptTools", _QtMetaData.of_qt ["scripttools"; "script"]);
    ("QtSql", _QtMetaData.of_qt ["sql"]);
    ("QtSvg", _QtMetaData.of_qt ["svg"]);
    ("QtTest", _QtMetaData.of_qt ["testlib"]);
    ("QtWebKit", _QtMetaData.of_qt ["webkit"; "network"]);
    ("QtXml", _QtMetaData.of_qt ["xml"; "-gui"]);
    ("QtXmlPatterns", _QtMetaData.of_qt ["xmlpatterns"; "-gui"; "network"]);
    ("phonon", _QtMetaData.of_qt ["phonon"]);
    ("QtChart", _QtMetaData.of_config ["qtcommercialchart"]);
    ("Qsci", _QtMetaData.of_config ["qscintilla2"]) ].

Module Builder.
Record t : Type := mk {
  _project : Project.t;
  _verbose : bool
}.
End Builder.

(** [Builder._log] *)
Definition _log (b : Builder.t) (message : string) : M unit :=
  if Builder._verbose b then emit (Print message) else mret tt.

(** [Builder._create_directory] *)
Definition _create_directory (os : OS) (dir_name : string) : M unit :=
  r ← ask (fun tr => makedirs os tr dir_name);
  emit (Makedirs dir_name);;
  match r with
  | None => mret tt
  | Some e =>
      raise (UserException
               ("Unable to create the '" +:+ dir_name +:+ "' directory.") e)
  end.

(** [Builder._create_file]; the file object is named by its path. *)
Definition _create_file (os : OS) (build_dir filename : string) : M string :=
  let pathname := OsPath.join build_dir [filename] in
  r ← ask (fun tr => open_wt os tr pathname);
  emit (Open pathname);;
  match r with
  | None => mret pathname
  | Some e =>
      raise (UserException ("Unable to create file " +:+ pathname +:+ ".") e)
  end.

(** [Builder._lib_filename] *)
Definition _lib_filename (os : OS) (filename : string) : string :=
  lib_filename os filename.

(** [Builder._copy_lib_file] *)
Definition _copy_lib_file (os : OS) (filename : string)
    (dirname : option string) : M string :=
  let dirname := match dirname with
                 | None => gettempdir os
                 | Some d => d
                 end in
  let d_filename := OsPath.join dirname [filename] in
  let s_filename := _lib_filename os filename in
  emit (QFileRemove d_filename);;
  ok ← ask (fun tr => qfile_copy os tr s_filename d_filename);
  emit (QFileCopy s_filename d_filename);;
  if negb ok
  then raise (UserException ("Unable to copy file " +:+ filename +:+ ".") "")
  else mret d_filename.

(** The command line that [Builder._freeze] runs. *)
Definition freeze_args (b : Builder.t) (output py_filename freeze : string)
    (main as_data : bool) : list string :=
  let args := [Project.python_host_interpreter (Builder._project b); freeze] in
  let args := if main then args ++ ["--main"] else args in
  let args := args ++ [if as_data then "--as-data" else "--as-c"] in
  let args := args ++ [output] in
  args ++ [py_filename].

(** [Builder._freeze]: [subprocess.check_output] raises
    [CalledProcessError] exactly when the child has exited, its output was
    decoded and the return code is not zero; only that exception is
    caught. *)
Definition _freeze (os : OS) (b : Builder.t) (output py_filename freeze : string)
    (main as_data : bool) : M unit :=
  let args := freeze_args b output py_filename freeze main as_data in
  _log b ("Running '" +:+ Py.str_join " " args +:+ "'");;
  r ← ask (fun tr => check_output os tr args);
  emit (CheckOutput args);;
  match r with
  | Exited 0 _ => mret tt
  | Exited _ output =>
      _log b output;;
      raise (UserException ("Unable to freeze " +:+ py_filename +:+ ".") output)
  | BadArgument text => raise (ValueError text)
  | NotStarted text => raise (OSError text)
  | Undecodable text => raise (UnicodeDecodeError text)
  end.

(** [Builder.resources]: each [for ... if content.included ... break] loop
    asks whether some entry is included. *)
Definition resources (b : Builder.t) : result (list string) :=
  let project := Builder._project b in
  let resources := [] in
  let resources :=
    if existsb content_included
         (QrcPackage.contents (Project.application_package project))
    then resources ++ [""] else resources in
  let resources := resources ++ ["stdlib"] in
  if negb (length (Project.pyqt_modules project) =? 0)%nat
  then Ok (resources ++ ["site-packages"])
  else
    site_packages_package ← Project.site_packages_package project;
    Ok (if existsb content_included (QrcPackage.contents site_packages_package)
        then resources ++ ["site-packages"] else resources).

(** [os.path.join] applied to the elements of [dir_stack] *)
Definition join_star (dir_stack : list string) : result string :=
  match dir_stack with
  | [] => Raise (TypeError "join() missing 1 required positional argument: 'a'")
  | a :: p => Ok (OsPath.join a p)
  end.

(** What a call of [_write_package_contents] works out before its loop:
    [dir_tail], the rebound [dir_stack], [dst_dir] and [prefix]. *)
Record dir_context : Type := {
  dir_tail : string;
  dir_stack : list string;
  dst_dir : string;
  prefix : list string
}.

(** The statements of [_write_package_contents] before the loop. *)
Definition enter_directory (os : OS) (dst_root_dir : string)
    (dir_stack : list string) : M dir_context :=
  dir_tail ← lift (join_star dir_stack);
  ds ← (if String.eqb dir_tail ""
        then mret ([], dst_root_dir)
        else
          let dir_stack := if String.eqb dir_tail "." then [] else dir_stack in
          let dst_dir := OsPath.join dst_root_dir [dir_tail] in
          _create_directory os dst_dir;;
          mret (dir_stack, dst_dir));
  let prefix := OsPath.basename dst_root_dir in
  let prefix := if negb (String.eqb prefix "resources") then [prefix] else [] in
  mret {| dir_tail := dir_tail; dir_stack := fst ds; dst_dir := snd ds;
          prefix := prefix |}.

(** The name under which a file is written, and whether it is frozen. *)
Definition dst_file_of (src_file : string) : string * bool :=
  if Py.endswith src_file ".py" then (Py.drop_last 3 src_file +:+ ".pyf", true)
  else if Py.endswith src_file ".pyw" then (Py.drop_last 4 src_file +:+ ".pyf", true)
  else (src_file, false).

(** The logical path of a [<file>] entry. *)
Definition file_path_of (c : dir_context) (dst_file : string) : list string :=
  let file_path := prefix c in
  let file_path :=
    if negb (String.eqb (dir_tail c) "") then file_path ++ dir_stack c
    else file_path in
  file_path ++ [dst_file].

(** The text of a [<file>] entry of the manifest. *)
Definition file_entry (file_path : list string) : string :=
  "        <file>" +:+ Py.str_join "/" file_path +:+ "</file>" +:+ nl.

(** The [else] branch of the loop of [_write_package_contents]: one file. *)
Definition write_file (os : OS) (b : Builder.t) (src_root_dir freeze f : string)
    (c : dir_context) (src_file : string) : M unit :=
  let src_path := OsPath.join src_root_dir [dir_tail c; src_file] in
  let '(dst_file, freeze_file) := dst_file_of src_file in
  let dst_path := OsPath.join (dst_dir c) [dst_file] in
  f_write f (file_entry (file_path_of c dst_file));;
  if freeze_file
  then _freeze os b dst_path src_path freeze false true
  else
    r ← ask (fun tr => copyfile os tr src_path dst_path);
    emit (CopyFile src_path dst_path);;
    match r with
    | None => mret tt
    | Some e => raise (OSError e)
    end.

(** The body of the loop of [_write_package_contents] for one entry; for a
    directory the recursive call on [content.contents], with the name of
    the directory pushed on [dir_stack], is unfolded in place. *)
Fixpoint write_content (os : OS) (b : Builder.t)
    (dst_root_dir src_root_dir freeze f : string)
    (c : dir_context) (content : QrcContent) : M unit :=
  if negb (content_included content) then mret tt
  else
    match content with
    | QrcDirectory name _ contents =>
        c' ← enter_directory os dst_root_dir (dir_stack c ++ [name]);
        (fix loop (l : list QrcContent) : M unit :=
           match l with
           | [] => mret tt
           | x :: l' =>
               write_content os b dst_root_dir src_root_dir freeze f c' x;;
               loop l'
           end) contents
    | QrcFile name _ => write_file os b src_root_dir freeze f c name
    end.

(** [Builder._write_package_contents] *)
Definition _write_package_contents (os : OS) (b : Builder.t)
    (contents : list QrcContent) (dst_root_dir src_root_dir : string)
    (dir_stack : list string) (freeze f : string) : M unit :=
  c ← enter_directory os dst_root_dir dir_stack;
  for_each (write_content os b dst_root_dir src_root_dir freeze f c) contents.

(** [Builder._write_resource] *)
Definition _write_resource (os : OS) (b : Builder.t)
    (resources_dir resource : string) (package : QrcPackage.t)
    (src freeze : string) : M unit :=
  d ← (if String.eqb resource ""
       then mret ("pyqtdeploy.qrc", resources_dir)
       else
         let dst_root_dir := OsPath.join resources_dir [resource] in
         _create_directory os dst_root_dir;;
         mret (resource +:+ ".qrc", dst_root_dir));
  let '(qrc_file, dst_root_dir) := d in
  f ← _create_file os resources_dir qrc_file;
  f_write f ("<!DOCTYPE RCC>" +:+ nl +:+
             "<RCC version=" +:+ dq +:+ "1.0" +:+ dq +:+ ">" +:+ nl +:+
             "    <qresource>" +:+ nl);;
  let '(src_root_dir, src_root) := OsPath.split src in
  _write_package_contents os b (QrcPackage.contents package) dst_root_dir
    src_root_dir [src_root] freeze f;;
  f_write f ("    </qresource>" +:+ nl +:+ "</RCC>" +:+ nl);;
  f_close f.

(** [Builder._write_inittab] *)
Definition _write_inittab (f : string) (extension_names : list string)
    (inittab : string) (py3 : bool) : M unit :=
  let init_type := if py3 then "PyObject *" else "void " in
  let init_prefix := if py3 then "PyInit_" else "init" in
  for_each (fun ext =>
      let base_ext := Py.last_component "." ext in
      f_write f ("    extern " +:+ init_type +:+ init_prefix +:+ base_ext
                 +:+ "(void);" +:+ nl))
    extension_names;;
  f_write f (nl +:+ "    static struct _inittab " +:+ inittab +:+ "[] = {" +:+ nl);;
  for_each (fun ext =>
      let base_ext := Py.last_component "." ext in
      f_write f ("        {" +:+ dq +:+ ext +:+ dq +:+ ", " +:+ init_prefix
                 +:+ base_ext +:+ "}," +:+ nl))
    extension_names;;
  f_write f ("        {NULL, NULL}" +:+ nl +:+ "    };" +:+ nl).

(** [Builder._write_main_call] *)
Definition _write_main_call (f app_name inittab : string) (py3 : bool) : M unit :=
  let name_type := if py3 then "wchar_t" else "char" in
  let name_prefix := if py3 then "L" else "" in
  f_write f
    ("    extern int pyqtdeploy_main(int argc, char **argv, " +:+ name_type
     +:+ " *py_main," +:+ nl
     +:+ "            struct _inittab *extension_modules);" +:+ nl +:+ nl
     +:+ "    return pyqtdeploy_main(argc, argv, " +:+ name_prefix +:+ dq
     +:+ app_name +:+ dq +:+ ", " +:+ inittab +:+ ");" +:+ nl).

(** [Builder._write_main_c] *)
Definition _write_main_c (os : OS) (build_dir app_name : string)
    (extension_names : list string) : M unit :=
  f ← _create_file os build_dir "main.c";
  f_write f ("#include <wchar.h>" +:+ nl +:+ "#include <Python.h>" +:+ nl +:+ nl
             +:+ "int main(int argc, char **argv)" +:+ nl +:+ "{" +:+ nl);;
  inittab ← (if (0 <? length extension_names)%nat
             then
               let inittab := "extension_modules" in
               f_write f ("#if PY_MAJOR_VERSION >= 3" +:+ nl);;
               _write_inittab f extension_names inittab true;;
               f_write f ("#else" +:+ nl);;
               _write_inittab f extension_names inittab false;;
               f_write f ("#endif" +:+ nl +:+ nl);;
               mret inittab
             else mret "NULL");
  f_write f ("#if PY_MAJOR_VERSION >= 3" +:+ nl);;
  _write_main_call f app_name inittab true;;
  f_write f ("#else" +:+ nl);;
  _write_main_call f app_name inittab false;;
  f_write f ("#endif" +:+ nl +:+ "}" +:+ nl);;
  f_close f.

(** *** The parts of the [.pro] file *)

(** The module map that [_write_qmake] selects. *)
Definition module_map (project : Project.t) : dict _QtMetaData.t :=
  if Project.application_is_pyqt5 project
  then _pyqt5_module_map else _pyqt4_module_map.

(** [module_map.get(pyqt_m, self._QtMetaData())] *)
Definition metadata_of (map : dict _QtMetaData.t) (pyqt_m : string)
    : _QtMetaData.t :=
  match dict_get map pyqt_m with
  | Some md => md
  | None => _QtMetaData.default
  end.

(** The loop over [metadata.qt]: the state is [(needs_gui, qmake_qt)]. *)
Definition qt_step (st : bool * list string) (qt : string)
    : bool * list string :=
  let '(needs_gui, qmake_qt) := st in
  if String.eqb qt "-gui" then (false, qmake_qt)
  else (needs_gui, append_new qmake_qt qt).

(** The body of the loop over [project.pyqt_modules]: the state is
    [(no_gui, qmake_qt, qmake_config)]. *)
Definition module_step (map : dict _QtMetaData.t)
    (st : bool * list string * list string) (pyqt_m : string)
    : bool * list string * list string :=
  let '(no_gui, qmake_qt, qmake_config) := st in
  let needs_gui := true in
  let metadata := metadata_of map pyqt_m in
  let '(needs_gui, qmake_qt) :=
    match _QtMetaData.qt metadata with
    | Some qts => fold_left qt_step qts (needs_gui, qmake_qt)
    | None => (needs_gui, qmake_qt)
    end in
  let qmake_config :=
    match _QtMetaData.config metadata with
    | Some configs => fold_left append_new configs qmake_config
    | None => qmake_config
    end in
  let no_gui := if needs_gui then false else no_gui in
  (no_gui, qmake_qt, qmake_config).

(** [no_gui], [qmake_qt] and [qmake_config] after the loop. *)
Definition qt_config (project : Project.t) : bool * list string * list string :=
  fold_left (module_step (module_map project)) (Project.pyqt_modules project)
    (true, [], []).

(** What is written to configure the QT and CONFIG values. *)
Definition qmake_qt_lines (project : Project.t) : list string :=
  let '(no_gui, qmake_qt, qmake_config) := qt_config project in
  (if no_gui then ["QT -= gui" +:+ nl] else [])
  ++ (if negb (length qmake_qt =? 0)%nat
      then ["QT += " +:+ Py.str_join " " qmake_qt +:+ nl] else [])
  ++ (if negb (length qmake_config =? 0)%nat
      then ["CONFIG += " +:+ Py.str_join " " qmake_config +:+ nl] else []).

(** [for x in l: if test(x): d[key(x)] = val(x)], one step *)
Definition set_if {A : Type} (test : A -> bool) (key val : A -> string)
    (d : dict string) (x : A) : dict string :=
  if test x then dict_set (key x) (val x) d else d.

(** The value of [sitepackages] in [_write_qmake]. *)
Definition sitepackages_of (os : OS) (project : Project.t) : string :=
  absolute_path os project (Project.python_target_stdlib_dir project)
  +:+ "/site-packages".

(** The dictionary [extensions] of [_write_qmake]. *)
Definition extensions_of (os : OS) (project : Project.t) : dict string :=
  let extensions :=
    fold_left
      (set_if (fun extension_module =>
                 negb (String.eqb (ExtensionModule.name extension_module) ""))
         ExtensionModule.name ExtensionModule.path)
      (Project.extension_modules project) [] in
  if (0 <? length (Project.pyqt_modules project))%nat then
    let sitepackages := sitepackages_of os project in
    let pyqt_version :=
      if Project.application_is_pyqt5 project then "PyQt5" else "PyQt4" in
    let extensions :=
      fold_left
        (set_if (fun pyqt => negb (String.eqb pyqt "uic"))
           (fun pyqt => pyqt_version +:+ "." +:+ pyqt)
           (fun _ => sitepackages +:+ "/" +:+ pyqt_version))
        (Project.pyqt_modules project) extensions in
    dict_set "sip" sitepackages extensions
  else extensions.

(** The list of unique module directories. *)
Definition mod_dirs_of (extensions : dict string) : list string :=
  fold_left append_new (dict_values extensions) [].

Definition mod_dir_flags_of (extensions : dict string) : list string :=
  map (fun md => "-L" +:+ md) (mod_dirs_of extensions).

Definition mod_flags_of (extensions : dict string) : list string :=
  map (fun m => "-l" +:+ Py.last_component "." m) (dict_keys extensions).

(** What is written to link against the extension modules. *)
Definition qmake_libs_lines (extensions : dict string) : list string :=
  if (0 <? length extensions)%nat
  then [nl;
        "LIBS += " +:+ Py.str_join " " (mod_dir_flags_of extensions) +:+ " "
        +:+ Py.str_join " " (mod_flags_of extensions) +:+ nl]
  else [].

(** What is written to configure the target Python interpreter. *)
Definition qmake_python_lines (project : Project.t) : list string :=
  (if negb (String.eqb (Project.python_target_include_dir project) "")
   then ["INCLUDEPATH += " +:+ Project.python_target_include_dir project +:+ nl]
   else [])
  ++ (if negb (String.eqb (Project.python_target_library project) "")
      then
        let lib_dir := OsPath.dirname (Project.python_target_library project) in
        let lib :=
          fst (OsPath.splitext
                 (OsPath.basename (Project.python_target_library project))) in
        let lib := if Py.startswith lib "lib"
                   then substring 3 (String.length lib - 3) lib else lib in
        ["LIBS += -L" +:+ lib_dir +:+ " -l" +:+ lib +:+ nl]
      else []).

(** What is written to specify the resource files. *)
Definition qmake_resources_lines (resources : list string) : list string :=
  if negb (length resources =? 0)%nat
  then [nl; "RESOURCES ="]
       ++ map (fun resource =>
                 let resource :=
                   if String.eqb resource "" then "pyqtdeploy" else resource in
                 " \" +:+ nl +:+ "    resources/" +:+ resource +:+ ".qrc")
            resources
       ++ [nl]
  else [].

(** The text of [__bootstrap__.py]. *)
Definition bootstrap_sys_path (resources : list string) : list string :=
  map (fun resource => "':/" +:+ resource +:+ "'") resources.

Definition bootstrap_script (resources : list string) : string :=
  "import sys" +:+ nl +:+ "import pyqtdeploy" +:+ nl +:+ nl
  +:+ "sys.path = [" +:+ Py.str_join ", " (bootstrap_sys_path resources)
  +:+ "]" +:+ nl
  +:+ "sys.path_hooks = [pyqtdeploy.qrcimporter]" +:+ nl.

(** [Builder._write_qmake] *)
Definition _write_qmake (os : OS) (b : Builder.t) (build_dir freeze : string)
    : M unit :=
  let project := Builder._project b in
  let app_name := OsPath.basename (Project.application_script project) in
  let app_name := fst (OsPath.splitext app_name) in
  f ← _create_file os build_dir (app_name +:+ ".pro");
  f_write f ("TEMPLATE = app" +:+ nl);;
  f_write f ("CONFIG += release warn_on" +:+ nl);;
  (* Configure the QT value. *)
  f_write f nl;;
  for_each (f_write f) (qmake_qt_lines project);;
  (* Determine the extension modules and link against them. *)
  let extensions := extensions_of os project in
  for_each (f_write f) (qmake_libs_lines extensions);;
  (* Configure the target Python interpreter. *)
  f_write f nl;;
  for_each (f_write f) (qmake_python_lines project);;
  (* Add the platform specific stuff. *)
  let platforms_f := _lib_filename os "platforms.pro" in
  r ← ask (fun tr => qfile_read os tr platforms_f);
  emit (QFileRead platforms_f);;
  platforms ← match r with
              | inr data => mret data
              | inl error_string =>
                  raise (UserException
                           ("Unable to open file " +:+ platforms_f +:+ ".")
                           error_string)
              end;
  f_write f nl;;
  f_write f platforms;;
  (* Specify any resource files. *)
  resources ← lift (resources b);
  for_each (f_write f) (qmake_resources_lines resources);;
  (* Specify the source and header files. *)
  f_write f nl;;
  f_write f ("SOURCES = main.c pyqtdeploy_main.c pyqtdeploy_module.cpp" +:+ nl);;
  _write_main_c os build_dir app_name (dict_keys extensions);;
  _copy_lib_file os "pyqtdeploy_main.c" (Some build_dir);;
  _copy_lib_file os "pyqtdeploy_module.cpp" (Some build_dir);;
  f_write f ("HEADERS = frozen_bootstrap.h frozen_main.h pyqtdeploy_version.h"
             +:+ nl);;
  bootstrap_f ← _create_file os build_dir "__bootstrap__.py";
  f_write bootstrap_f (bootstrap_script resources);;
  f_close bootstrap_f;;
  _freeze os b (OsPath.join build_dir ["frozen_bootstrap.h"])
    (OsPath.join build_dir ["__bootstrap__.py"]) freeze false false;;
  _freeze os b (OsPath.join build_dir ["frozen_main.h"])
    (absolute_path os project (Project.application_script project)) freeze
    true false;;
  version_f ← _create_file os build_dir "pyqtdeploy_version.h";
  f_write version_f ("#define PYQTDEPLOY_HEXVERSION " +:+ hexversion os +:+ nl);;
  f_close version_f;;
  (* All done. *)
  f_close f.

(** [mapM] in [result], concatenating what each element gives. *)
Fixpoint concat_results {A B : Type} (f : A -> result (list B)) (l : list A)
    : result (list B) :=
  match l with
  | [] => Ok []
  | x :: l' => a ← f x; r ← concat_results f l'; Ok (a ++ r)
  end.

(** The body of the loop of [_add_uic_dir] for one [content] of the listing
    of the directory [os.path.join(pyqt_dir, path)]: what is appended to
    [dir_pkg.contents].  For a directory the recursive call is unfolded in
    place. *)
Fixpoint uic_content (pyqt_dir : string) (path : list string) (content : FsEntry)
    : result (list QrcContent) :=
  match content with
  | FsFile name =>
      if str_in name ["port_v2"; "__pycache__"] then Ok []
      else Ok [QrcFile name true]
  | FsDir name listing =>
      if str_in name ["port_v2"; "__pycache__"] then Ok []
      else
        match listing with
        | None => Raise (OSError (OsPath.join pyqt_dir (path ++ [name])))
        | Some entries =>
            contents ←
              (fix loop (l : list FsEntry) : result (list QrcContent) :=
                 match l with
                 | [] => Ok []
                 | x :: l' =>
                     a ← uic_content pyqt_dir (path ++ [name]) x;
                     r ← loop l';
                     Ok (a ++ r)
                 end) entries;
            Ok [QrcDirectory name true contents]
        end
  | FsOther _ => Ok []
  end.

(** [Builder._add_uic_dir], on values: the directory that is appended to
    [package.contents].  [listing] is what [os.listdir] and the file tests
    show at [os.path.join(pyqt_dir, dir_stack..., dirname)]. *)
Definition _add_uic_dir (pyqt_dir dirname : string) (dir_stack : list string)
    (listing : option (list FsEntry)) : result QrcContent :=
  let dirpath := dir_stack ++ [dirname] in
  match listing with
  | None => Raise (OSError (OsPath.join pyqt_dir dirpath))
  | Some entries =>
      contents ← concat_results (uic_content pyqt_dir dirpath) entries;
      Ok (QrcDirectory dirname true contents)
  end.

(** The [else] branch of the loop of [build] after the attribute
    [site_packages_package] is read: the copy of the package, with the
    PyQt package added when PyQt modules are requested. *)
Definition with_pyqt_package (os : OS) (project : Project.t)
    (package : QrcPackage.t) : result QrcPackage.t :=
  let site_packages_package := QrcPackage.copy package in
  let pyqt_dir :=
    if Project.application_is_pyqt5 project then "PyQt5" else "PyQt4" in
  if negb (length (Project.pyqt_modules project) =? 0)%nat then
    let pyqt_pkg_init := QrcFile "__init__.py" true in
    uic ← (if str_in "uic" (Project.pyqt_modules project)
           then
             let dir :=
               OsPath.join (Project.python_target_stdlib_dir project)
                 ["site-packages"; pyqt_dir] in
             d ← _add_uic_dir dir "uic" []
                   (listdir os (OsPath.join dir ["uic"]));
             Ok [d]
           else Ok []);
    let pyqt_pkg_dir := QrcDirectory pyqt_dir true ([pyqt_pkg_init] ++ uic) in
    Ok (QrcPackage.with_contents
          (QrcPackage.contents site_packages_package ++ [pyqt_pkg_dir])
          site_packages_package)
  else Ok site_packages_package.

(** The [else] branch of the loop of [build]: the package that is written
    as the site-packages resource. *)
Definition site_packages_to_write (os : OS) (project : Project.t)
    : result QrcPackage.t :=
  package ← Project.site_packages_package project;
  with_pyqt_package os project package.

(** [Builder.build] *)
Definition build (os : OS) (b : Builder.t) (build_dir : string) : M unit :=
  let project := Builder._project b in
  _create_directory os build_dir;;
  freeze ← _copy_lib_file os "freeze.py" None;
  _write_qmake os b build_dir freeze;;
  let resources_dir := OsPath.join build_dir ["resources"] in
  _create_directory os resources_dir;;
  rs ← lift (resources b);
  for_each (fun resource =>
      if String.eqb resource "" then
        let package := Project.application_package project in
        _write_resource os b resources_dir resource package
          (absolute_path os project (QrcPackage.name package)) freeze
      else if String.eqb resource "stdlib" then
        _write_resource os b resources_dir resource
          (Project.stdlib_package project)
          (OsPath.join (Project.python_target_stdlib_dir project) [""]) freeze
      else
        site_packages_package ← lift (site_packages_to_write os project);
        _write_resource os b resources_dir resource site_packages_package
          (OsPath.join (Project.python_target_stdlib_dir project)
             ["site-packages"; ""]) freeze)
    rs;;
  r ← ask (fun tr => remove os tr freeze);
  emit (Remove freeze);;
  match r with
  | None => mret tt
  | Some e => raise (OSError e)
  end.

(** ** The project file ([Project.load], [Project.save], [Project.save_as]) *)

(** An element of [xml.etree.ElementTree]: tag, attributes, sub-elements. *)
Inductive Element : Type :=
| Elem (tag : string) (attrib : dict string) (children : list Element).

Definition el_tag (e : Element) : string :=
  match e with Elem t _ _ => t end.
Definition el_attrib (e : Element) : dict string :=
  match e with Elem _ a _ => a end.
Definition el_children (e : Element) : list Element :=
  match e with Elem _ _ c => c end.

(** [element.get(name)] and [element.get(name, default)] *)
Definition el_get (e : Element) (name : string) : option string :=
  dict_get (el_attrib e) name.
Definition el_get_default (e : Element) (name default : string) : string :=
  match el_get e name with
  | Some v => v
  | None => default
  end.

(** [element.iterfind(tag)] and [element.find(tag)] for a plain tag *)
Definition el_iterfind (e : Element) (tag : string) : list Element :=
  List.filter (fun c => String.eqb (el_tag c) tag) (el_children e).
Definition el_find (e : Element) (tag : string) : option Element :=
  head (el_iterfind e tag).

(** [SubElement(container, ...)] appends to the children of [container]. *)
Definition SubElement (container : Element) (child : Element) : Element :=
  match container with
  | Elem t a c => Elem t a (c ++ [child])
  end.

(** [str(n)] for an integer *)
Definition str_of_Z (n : Z) : string :=
  NilZero.string_of_int (Z.to_int n).

(** [Project._save_mfs_contents]: the sub-elements added to the container;
    for a directory the recursive call is unfolded in place. *)
Fixpoint save_content (content : QrcContent) : Element :=
  let isdir := is_QrcDirectory content in
  let subcontainer :=
    Elem "PackageContent"
      [("name", content_name content);
       ("included", Py.str_of_bool_int (content_included content));
       ("isdirectory", Py.str_of_bool_int isdir)] [] in
  match content with
  | QrcDirectory _ _ contents =>
      fold_left (fun container c => SubElement container (save_content c))
        contents subcontainer
  | QrcFile _ _ => subcontainer
  end.

Definition _save_mfs_contents (container : Element)
    (contents : list QrcContent) : Element :=
  fold_left (fun container c => SubElement container (save_content c))
    contents container.

(** [Project._save_package] *)
Definition _save_package (container : Element) (package : QrcPackage.t)
    : Element :=
  let package_element :=
    Elem "Package" [("name", QrcPackage.name package)] [] in
  let package_element :=
    _save_mfs_contents package_element (QrcPackage.contents package) in
  let package_element :=
    fold_left (fun pe exclude =>
                 SubElement pe (Elem "Exclude" [("name", exclude)] []))
      (QrcPackage.exclusions package) package_element in
  SubElement container package_element.

(** The element tree that [Project._save_project] writes. *)
Definition save_root (self : Project.t) : Element :=
  let root := Elem "Project" [("version", str_of_Z Project.version)] [] in
  let application :=
    Elem "Application"
      [("entrypoint", Project.application_entry_point self);
       ("ispyqt5", Py.str_of_bool_int (Project.application_is_pyqt5 self));
       ("name", Project.application_name self);
       ("script", Project.application_script self);
       ("syspath", Project.sys_path self)] [] in
  let application := _save_package application (Project.application_package self) in
  let application :=
    fold_left (fun app pyqt_module =>
                 SubElement app (Elem "PyQtModule" [("name", pyqt_module)] []))
      (Project.pyqt_modules self) application in
  let site_packages :=
    fold_left _save_package (Project.packages self) (Elem "SitePackages" [] []) in
  let stdlib := _save_package (Elem "Stdlib" [] []) (Project.stdlib_package self) in
  let stdlib :=
    fold_left (fun sl m =>
        SubElement sl
          (Elem "StdlibExtensionModule"
             [("name", StdlibExtensionModule.name m);
              ("defines", StdlibExtensionModule.defines m);
              ("includepath", StdlibExtensionModule.includepath m);
              ("libs", StdlibExtensionModule.libs m)] []))
      (Project.stdlib_extension_modules self) stdlib in
  let application := SubElement application site_packages in
  let application := SubElement application stdlib in
  let application :=
    fold_left (fun app m =>
        SubElement app
          (Elem "ExtensionModule"
             [("name", ExtensionModule.name m);
              ("path", ExtensionModule.path m)] []))
      (Project.extension_modules self) application in
  let python :=
    Elem "Python"
      [("hostinterpreter", Project.python_host_interpreter self);
       ("sourcedir", Project.python_source_dir self);
       ("targetincludedir", Project.python_target_include_dir self);
       ("targetlibrary", Project.python_target_library self);
       ("targetstdlibdir", Project.python_target_stdlib_dir self)] [] in
  let others :=
    Elem "Others"
      [("builddir", Project.build_dir self);
       ("qmake", Project.qmake self)] [] in
  SubElement (SubElement (SubElement root application) python) others.

(** [Project._assert] *)
Definition _assert (ok : bool) (detail : string) : result unit :=
  if ok then Ok tt
  else Raise (UserException "The project file is invalid." detail).

(** [Project._get_bool] *)
Definition _get_bool (element : Element) (name context : string) : result bool :=
  let value :=
    match el_get element name with
    | Some s => Py.int_of_str s
    | None => None
    end in
  _assert (bool_decide (is_Some value))
    ("Missing or invalid boolean value of '" +:+ context +:+ "." +:+ name
     +:+ "'.");;
  Ok (match value with
      | Some n => negb (n =? 0)%Z
      | None => false
      end).

(** Entering a call of [_load_mfs_contents] that is nested [depth] deep. *)
Definition enter_nested (os : OS) (depth : nat) : result unit :=
  if recursion_ok os depth then Ok tt
  else Raise (RecursionError "maximum recursion depth exceeded").

(** The body of the loop of [Project._load_mfs_contents] for one
    [PackageContent] element, in a call that is nested [depth] deep; for a
    directory the recursive call is unfolded in place. *)
Fixpoint load_content (os : OS) (depth : nat) (content_element : Element)
    : result QrcContent :=
  match content_element with
  | Elem _ _ children =>
      isdir ← _get_bool content_element "isdirectory" "Package.PackageContent";
      let name := el_get_default content_element "name" "" in
      _assert (negb (String.eqb name ""))
        "Missing or empty 'Package.PackageContent.name' attribute.";;
      included ← _get_bool content_element "included" "Package.PackageContent";
      if (isdir : bool) then
        enter_nested os (S depth);;
        contents ←
          (fix loop (l : list Element) : result (list QrcContent) :=
             match l with
             | [] => Ok []
             | x :: l' =>
                 if String.eqb (el_tag x) "PackageContent"
                 then c ← load_content os (S depth) x; r ← loop l'; Ok (c :: r)
                 else loop l'
             end) children;
        Ok (QrcDirectory name included contents)
      else Ok (QrcFile name included)
  end.

(** [[f(x) for x in l]] with an [f] that may raise *)
Fixpoint map_result {A B : Type} (f : A -> result B) (l : list A)
    : result (list B) :=
  match l with
  | [] => Ok []
  | x :: l' => y ← f x; r ← map_result f l'; Ok (y :: r)
  end.

(** [Project._load_mfs_contents], called for a package *)
Definition _load_mfs_contents (os : OS) (mfs_element : Element)
    : result (list QrcContent) :=
  map_result (load_content os 1) (el_iterfind mfs_element "PackageContent").

(** [Project._load_package] *)
Definition _load_package (os : OS) (package_element : Element)
    : result QrcPackage.t :=
  let name := el_get package_element "name" in
  _assert (bool_decide (is_Some name)) "Missing 'Package.name' attribute.";;
  contents ← _load_mfs_contents os package_element;
  exclusions ←
    map_result (fun exclude_element =>
        let name := el_get_default exclude_element "name" "" in
        _assert (negb (String.eqb name ""))
          "Missing or empty 'Package.Exclude.name' attribute.";;
        Ok name)
      (el_iterfind package_element "Exclude");
  Ok {| QrcPackage.name := default "" name;
        QrcPackage.contents := contents;
        QrcPackage.exclusions := exclusions |}.

(** [element.find(tag)] followed by the assertion that it was found *)
Definition find_required (e : Element) (tag detail : string) : result Element :=
  match el_find e tag with
  | Some c => Ok c
  | None => Raise (UserException "The project file is invalid." detail)
  end.

(** [element.get(name)] followed by the assertion that it is not [None] *)
Definition get_required (e : Element) (name detail : string) : result string :=
  match el_get e name with
  | Some v => Ok v
  | None => Raise (UserException "The project file is invalid." detail)
  end.

(** [Project.load] after [tree.parse]: from the root element to the
    project. *)
Definition load_root (os : OS) (abs_filename : string) (root : Element)
    : result Project.t :=
  _assert (String.eqb (el_tag root) "Project")
    ("Unexpected root tag '" +:+ el_tag root +:+ "', 'Project' expected.");;
  (* Check the project version number. *)
  version ← get_required root "version" "Missing 'version' attribute.";
  version ← match Py.int_of_str version with
            | Some v => Ok v
            | None => Raise (UserException "The project file is invalid."
                               "Invalid 'version'.")
            end;
  (if (Project.version <? version)%Z
   then Raise (UserException
                 ("The project's format is version " +:+ str_of_Z version
                  +:+ " but only version " +:+ str_of_Z Project.version
                  +:+ " is supported.") "")
   else Ok tt);;
  (* The Python specific configuration. *)
  python ← find_required root "Python" "Missing 'Python' tag.";
  let python_host_interpreter := el_get_default python "hostinterpreter" "" in
  let python_source_dir := el_get_default python "sourcedir" "" in
  let python_target_include_dir := el_get_default python "targetincludedir" "" in
  let python_target_library := el_get_default python "targetlibrary" "" in
  let python_target_stdlib_dir := el_get_default python "targetstdlibdir" "" in
  (* The application specific configuration. *)
  application ← find_required root "Application" "Missing 'Application' tag.";
  let application_entry_point := el_get_default application "entrypoint" "" in
  application_is_pyqt5 ← _get_bool application "ispyqt5" "Application";
  let application_name := el_get_default application "name" "" in
  let application_script := el_get_default application "script" "" in
  let sys_path := el_get_default application "syspath" "" in
  app_package ← find_required application "Package"
                  "Missing 'Application.Package' tag.";
  application_package ← _load_package os app_package;
  pyqt_modules ←
    map_result (fun pyqt_m =>
        let name := el_get_default pyqt_m "name" "" in
        _assert (negb (String.eqb name ""))
          "Missing or empty 'PyQtModule.name' attribute.";;
        Ok name)
      (el_iterfind application "PyQtModule");
  site_packages ← find_required application "SitePackages"
                    "Missing 'Application.SitePackages' tag.";
  packages ← map_result (_load_package os)
               (el_iterfind site_packages "Package");
  (* If the first package has a blank name then we have the version 2
     format or earlier. *)
  let project_so_far :=
    {| Project._modified := false;
       Project._name := abs_filename;
       Project.application_name := application_name;
       Project.application_is_pyqt5 := application_is_pyqt5;
       Project.application_package := application_package;
       Project.application_script := application_script;
       Project.application_entry_point := application_entry_point;
       Project.build_dir := "build";
       Project.extension_modules := [];
       Project.pyqt_modules := pyqt_modules;
       Project.python_host_interpreter := python_host_interpreter;
       Project.python_source_dir := python_source_dir;
       Project.python_target_include_dir := python_target_include_dir;
       Project.python_target_library := python_target_library;
       Project.python_target_stdlib_dir := python_target_stdlib_dir;
       Project.qmake := "";
       Project.packages := packages;
       Project.stdlib_package := QrcPackage.init;
       Project.stdlib_extension_modules := [];
       Project.sys_path := sys_path |} in
  let packages :=
    match packages with
    | first :: rest =>
        if String.eqb (QrcPackage.name first) "" then
          if (length (QrcPackage.contents first) =? 0)%nat then rest
          else
            QrcPackage.with_name
              (relative_path os project_so_far
                 (OsPath.join python_target_stdlib_dir ["site-packages"]))
              first :: rest
        else packages
    | [] => packages
    end in
  stdlib ← find_required application "Stdlib" "Missing 'Application.Stdlib' tag.";
  stdlib_package ← find_required stdlib "Package"
                     "Missing 'Application.Stdlib.Package' tag.";
  stdlib_package ← _load_package os stdlib_package;
  stdlib_extension_modules ←
    map_result (fun e =>
        name ← get_required e "name"
                 "Missing 'Application.Stdlib.StdlibExtensionModule.name' attribute.";
        Ok {| StdlibExtensionModule.name := name;
              StdlibExtensionModule.defines := el_get_default e "defines" "";
              StdlibExtensionModule.includepath :=
                el_get_default e "includepath" "";
              StdlibExtensionModule.libs := el_get_default e "libs" "" |})
      (el_iterfind stdlib "StdlibExtensionModule");
  extension_modules ←
    map_result (fun e =>
        name ← get_required e "name"
                 "Missing 'Application.ExtensionModule.name' attribute.";
        path ← get_required e "path"
                 "Missing 'Application.ExtensionModule.path' attribute.";
        Ok {| ExtensionModule.name := name; ExtensionModule.path := path |})
      (el_iterfind application "ExtensionModule");
  (* The other configuration. *)
  let '(build_dir, qmake) :=
    match el_find root "Others" with
    | Some others =>
        (el_get_default others "builddir" "", el_get_default others "qmake" "")
    | None => ("build", "")
    end in
  Ok {| Project._modified := false;
        Project._name := abs_filename;
        Project.application_name := application_name;
        Project.application_is_pyqt5 := application_is_pyqt5;
        Project.application_package := application_package;
        Project.application_script := application_script;
        Project.application_entry_point := application_entry_point;
        Project.build_dir := build_dir;
        Project.extension_modules := extension_modules;
        Project.pyqt_modules := pyqt_modules;
        Project.python_host_interpreter := python_host_interpreter;
        Project.python_source_dir := python_source_dir;
        Project.python_target_include_dir := python_target_include_dir;
        Project.python_target_library := python_target_library;
        Project.python_target_stdlib_dir := python_target_stdlib_dir;
        Project.qmake := qmake;
        Project.packages := packages;
        Project.stdlib_package := stdlib_package;
        Project.stdlib_extension_modules := stdlib_extension_modules;
        Project.sys_path := sys_path |}.

(** The project files on disk: for each path the element tree that
    [tree.parse] reads from it.  A path without a tree is one that
    [tree.parse] cannot read. *)
Abbreviation disk := (gmap string Element).

(** [Project.load] *)
Definition load (os : OS) (d : disk) (filename : string) : result Project.t :=
  abs_filename ← os_path_abspath os filename;
  match d !! abs_filename with
  | None =>
      Raise (UserException "There was an error reading the project file."
               abs_filename)
  | Some root => load_root os abs_filename root
  end.

(** Assignments to [self._modified] and [self._name]; the signals of the
    [modified] and [name] properties are not modelled. *)
Definition set_modified (value : bool) (self : Project.t) : Project.t :=
  Project.mk value (Project._name self)
    (Project.application_name self) (Project.application_is_pyqt5 self)
    (Project.application_package self) (Project.application_script self)
    (Project.application_entry_point self) (Project.build_dir self)
    (Project.extension_modules self) (Project.pyqt_modules self)
    (Project.python_host_interpreter self) (Project.python_source_dir self)
    (Project.python_target_include_dir self)
    (Project.python_target_library self)
    (Project.python_target_stdlib_dir self) (Project.qmake self)
    (Project.packages self) (Project.stdlib_package self)
    (Project.stdlib_extension_modules self) (Project.sys_path self).

Definition set_name (value : string) (self : Project.t) : Project.t :=
  Project.mk (Project._modified self) value
    (Project.application_name self) (Project.application_is_pyqt5 self)
    (Project.application_package self) (Project.application_script self)
    (Project.application_entry_point self) (Project.build_dir self)
    (Project.extension_modules self) (Project.pyqt_modules self)
    (Project.python_host_interpreter self) (Project.python_source_dir self)
    (Project.python_target_include_dir self)
    (Project.python_target_library self)
    (Project.python_target_stdlib_dir self) (Project.qmake self)
    (Project.packages self) (Project.stdlib_package self)
    (Project.stdlib_extension_modules self) (Project.sys_path self).

(** [Project._save_project]: [writable] says with which error, if any,
    [tree.write] fails for a path.  Returns the project (no longer
    modified) and the disk.  The disk holds what [tree.parse] reads back
    from the file written, which is taken to be the tree written: that is
    so when the strings of the tree are text that XML carries unchanged
    (see [xml_plain]), and a statement about a file that was saved from an
    arbitrary project says so. *)
Definition _save_project (writable : string -> option string)
    (self : Project.t) (d : disk) (abs_filename : string)
    : result (Project.t * disk) :=
  let root := save_root self in
  match writable abs_filename with
  | Some e =>
      Raise (UserException "There was an error writing the project file." e)
  | None => Ok (set_modified false self, <[abs_filename := root]> d)
  end.

(** [Project.save] *)
Definition save (writable : string -> option string) (self : Project.t)
    (d : disk) : result (Project.t * disk) :=
  _save_project writable self d (Project._name self).

(** [Project.save_as] *)
Definition save_as (os : OS) (writable : string -> option string)
    (self : Project.t) (d : disk) (filename : string)
    : result (Project.t * disk) :=
  abs_filename ← os_path_abspath os filename;
  r ← _save_project writable self d abs_filename;
  (* Only do this after the project has been successfully saved. *)
  Ok (set_name abs_filename (fst r), snd r).

(** ** Packages as objects: identity, aliasing and [copy] *)

(** An object is named by its address in the store. *)
Abbreviation loc := nat.

(** The objects of the project model.  The attribute [contents] of a
    directory or of a package refers to a list object; a list of patterns
    holds immutable strings and is kept as a value. *)
Inductive obj : Type :=
| OList (items : list loc)
| OFile (name : string) (included : bool)
| ODirectory (name : string) (included : bool) (contents : loc)
| OPackage (name : string) (contents : loc) (exclusions : list string).

(** The store: objects are never freed, a new object gets the next address. *)
Abbreviation heap := (list obj).

(** Computations on the store that may raise. *)
Definition HM (A : Type) : Type := heap -> result A * heap.

#[global] Instance HM_ret : MRet HM := fun A a h => (Ok a, h).
#[global] Instance HM_bind : MBind HM := fun A B f m h =>
  match m h with
  | (Ok a, h') => f a h'
  | (Raise e, h') => (Raise e, h')
  end.

Definition hraise {A : Type} (e : exn) : HM A := fun h => (Raise e, h).
Definition hlift {A : Type} (r : result A) : HM A := fun h => (r, h).

Definition alloc (o : obj) : HM loc := fun h => (Ok (length h), h ++ [o]).

Definition get (l : loc) : HM obj := fun h =>
  match h !! l with
  | Some o => (Ok o, h)
  | None => (Raise (TypeError "no such object"), h)
  end.

Definition set (l : loc) (o : obj) : HM unit := fun h => (Ok tt, <[l := o]> h).

(** [[f(x) for x in l]] on the store *)
Fixpoint hmap {A B : Type} (f : A -> HM B) (l : list A) : HM (list B) :=
  match l with
  | [] => mret []
  | x :: l' => y ← f x; r ← hmap f l'; mret (y :: r)
  end.

(** [QrcFile(name, included)] *)
Definition new_QrcFile (name : string) (included : bool) : HM loc :=
  alloc (OFile name included).

(** [QrcDirectory(name, included)]: [self.contents = []] is a new list. *)
Definition new_QrcDirectory (name : string) (included : bool) : HM loc :=
  contents ← alloc (OList []);
  alloc (ODirectory name included contents).

(** [QrcPackage()] *)
Definition new_QrcPackage : HM loc :=
  contents ← alloc (OList []);
  alloc (OPackage "" contents (QrcPackage.exclusions QrcPackage.init)).

(** [x.contents] *)
Definition contents_of (l : loc) : HM loc :=
  o ← get l;
  match o with
  | ODirectory _ _ c | OPackage _ c _ => mret c
  | _ => hraise (AttributeError "contents")
  end.

(** The elements of a list object. *)
Definition items_of (l : loc) : HM (list loc) :=
  o ← get l;
  match o with
  | OList items => mret items
  | _ => hraise (TypeError "not a list")
  end.

(** [x.contents = c] *)
Definition set_contents (l c : loc) : HM unit :=
  o ← get l;
  match o with
  | ODirectory n i _ => set l (ODirectory n i c)
  | OPackage n _ x => set l (OPackage n c x)
  | _ => hraise (AttributeError "contents")
  end.

(** [lst.append(x)] *)
Definition list_append (lst x : loc) : HM unit :=
  items ← items_of lst;
  set lst (OList (items ++ [x])).

(** [x.contents.append(y)] *)
Definition contents_append (x y : loc) : HM unit :=
  c ← contents_of x;
  list_append c y.

(** [QrcFile.copy] and [QrcDirectory.copy] on the store.  [depth] bounds
    the nesting of calls; Python raises [RecursionError] beyond its limit. *)
Fixpoint copy_content (depth : nat) (self : loc) : HM loc :=
  match depth with
  | O => hraise (RecursionError "maximum recursion depth exceeded")
  | S depth' =>
      o ← get self;
      match o with
      | OFile name included => new_QrcFile name included
      | ODirectory name included contents =>
          copy ← new_QrcDirectory name included;
          items ← items_of contents;
          copies ← hmap (copy_content depth') items;
          new_contents ← alloc (OList copies);
          set_contents copy new_contents;;
          mret copy
      | _ => hraise (AttributeError "copy")
      end
  end.

(** [x.name = v] and [x.exclusions = list(v)] for a package *)
Definition set_package_name (l : loc) (v : string) : HM unit :=
  o ← get l;
  match o with
  | OPackage _ c x => set l (OPackage v c x)
  | _ => hraise (AttributeError "name")
  end.

Definition set_exclusions (l : loc) (v : list string) : HM unit :=
  o ← get l;
  match o with
  | OPackage n c _ => set l (OPackage n c v)
  | _ => hraise (AttributeError "exclusions")
  end.

(** [QrcPackage.copy] on the store *)
Definition copy_package (depth : nat) (self : loc) : HM loc :=
  o ← get self;
  match o with
  | OPackage name contents exclusions =>
      copy ← new_QrcPackage;
      set_package_name copy name;;
      items ← items_of contents;
      copies ← hmap (copy_content depth) items;
      new_contents ← alloc (OList copies);
      set_contents copy new_contents;;
      set_exclusions copy exclusions;;
      mret copy
  | _ => hraise (AttributeError "copy")
  end.

(** [for x in l: body(x)] on the store *)
Fixpoint hfor_each {A : Type} (body : A -> HM unit) (l : list A) : HM unit :=
  match l with
  | [] => mret tt
  | x :: l' => body x;; hfor_each body l'
  end.

(** The body of the loop of [_add_uic_dir] on the store, for one [content]
    of the listing of [os.path.join(pyqt_dir, path)]; for a directory the
    recursive call is unfolded in place. *)
Fixpoint uic_content_store (pyqt_dir : string) (path : list string)
    (dir_pkg : loc) (content : FsEntry) : HM unit :=
  match content with
  | FsFile name =>
      if str_in name ["port_v2"; "__pycache__"] then mret tt
      else f ← new_QrcFile name true; contents_append dir_pkg f
  | FsDir name listing =>
      if str_in name ["port_v2"; "__pycache__"] then mret tt
      else
        sub_pkg ← new_QrcDirectory name true;
        contents_append dir_pkg sub_pkg;;
        match listing with
        | None => hraise (OSError (OsPath.join pyqt_dir (path ++ [name])))
        | Some entries =>
            (fix loop (l : list FsEntry) : HM unit :=
               match l with
               | [] => mret tt
               | x :: l' =>
                   uic_content_store pyqt_dir (path ++ [name]) sub_pkg x;;
                   loop l'
               end) entries
        end
  | FsOther _ => mret tt
  end.

(** [Builder._add_uic_dir] on the store *)
Definition _add_uic_dir_store (package : loc) (pyqt_dir dirname : string)
    (dir_stack : list string) (listing : option (list FsEntry)) : HM unit :=
  dir_pkg ← new_QrcDirectory dirname true;
  contents_append package dir_pkg;;
  let dirpath := dir_stack ++ [dirname] in
  match listing with
  | None => hraise (OSError (OsPath.join pyqt_dir dirpath))
  | Some entries =>
      hfor_each (uic_content_store pyqt_dir dirpath dir_pkg) entries
  end.

(** [with_pyqt_package] on the store: the statements of [build] from the
    copy of the package at [package] to the call of [_write_resource]; the
    address of the package that is written. *)
Definition with_pyqt_package_store (os : OS) (project : Project.t)
    (depth : nat) (package : loc) : HM loc :=
  site_packages_package ← copy_package depth package;
  let pyqt_dir :=
    if Project.application_is_pyqt5 project then "PyQt5" else "PyQt4" in
  (if negb (length (Project.pyqt_modules project) =? 0)%nat then
     pyqt_pkg_init ← new_QrcFile "__init__.py" true;
     pyqt_pkg_dir ← new_QrcDirectory pyqt_dir true;
     contents_append pyqt_pkg_dir pyqt_pkg_init;;
     contents_append site_packages_package pyqt_pkg_dir;;
     if str_in "uic" (Project.pyqt_modules project)
     then
       let dir :=
         OsPath.join (Project.python_target_stdlib_dir project)
           ["site-packages"; pyqt_dir] in
       _add_uic_dir_store pyqt_pkg_dir dir "uic" []
         (listdir os (OsPath.join dir ["uic"]))
     else mret tt
   else mret tt);;
  mret site_packages_package.

(** *** What a store holds *)

(** The store [h] holds the tree [c] at [l], in objects whose addresses
    satisfy [P]. *)
Fixpoint holds (P : loc -> Prop) (h : heap) (c : QrcContent) (l : loc) : Prop :=
  P l /\
  match c with
  | QrcFile name included => h !! l = Some (OFile name included)
  | QrcDirectory name included contents =>
      exists cl items,
        h !! l = Some (ODirectory name included cl)
        /\ P cl /\ h !! cl = Some (OList items)
        /\ (fix all (cs : list QrcContent) (ls : list loc) : Prop :=
              match cs, ls with
              | [], [] => True
              | c :: cs', l :: ls' => holds P h c l /\ all cs' ls'
              | _, _ => False
              end) contents items
  end.

(** The store holds the package [p] at [l]. *)
Definition holds_package (P : loc -> Prop) (h : heap) (p : QrcPackage.t)
    (l : loc) : Prop :=
  P l /\
  exists cl items,
    h !! l = Some (OPackage (QrcPackage.name p) cl (QrcPackage.exclusions p))
    /\ P cl /\ h !! cl = Some (OList items)
    /\ Forall2 (holds P h) (QrcPackage.contents p) items.

Definition anywhere : loc -> Prop := fun _ => True.

(** The nesting of a tree, counting the tree itself. *)
Fixpoint tree_depth (c : QrcContent) : nat :=
  match c with
  | QrcFile _ _ => 1
  | QrcDirectory _ _ contents =>
      S (fold_right (fun x d => Nat.max (tree_depth x) d) 0 contents)
  end.

Definition package_depth (p : QrcPackage.t) : nat :=
  fold_right (fun x d => Nat.max (tree_depth x) d) 0 (QrcPackage.contents p).


(** ** Sample environments and projects *)

(** An environment in which every operation succeeds. *)
Definition os_ok : OS := {|
  expandvars := fun s => s;
  relpath := fun path start => path;
  abspath := fun s => s;
  getcwd_error := None;
  recursion_ok := fun n => (n <=? 900)%nat;
  gettempdir := "/tmp";
  lib_filename := fun f => ":/lib/" +:+ f;
  hexversion := "0x500";
  listdir := fun _ => None;
  makedirs := fun _ _ => None;
  open_wt := fun _ _ => None;
  qfile_copy := fun _ _ _ => true;
  qfile_read := fun _ _ => inr "";
  check_output := fun _ _ => Exited 0 "";
  copyfile := fun _ _ _ => None;
  remove := fun _ _ => None |}.

(** [os_ok] with other answers of [subprocess.check_output] and of
    [shutil.copyfile]. *)
Definition os_with (run : list string -> proc_outcome)
    (copy : string -> string -> option string) : OS := {|
  expandvars := expandvars os_ok;
  relpath := relpath os_ok;
  abspath := abspath os_ok;
  getcwd_error := getcwd_error os_ok;
  recursion_ok := recursion_ok os_ok;
  gettempdir := gettempdir os_ok;
  lib_filename := lib_filename os_ok;
  hexversion := hexversion os_ok;
  listdir := listdir os_ok;
  makedirs := makedirs os_ok;
  open_wt := open_wt os_ok;
  qfile_copy := qfile_copy os_ok;
  qfile_read := qfile_read os_ok;
  check_output := fun _ args => run args;
  copyfile := fun _ src dst => copy src dst;
  remove := remove os_ok |}.

(** [os_ok] where [os.listdir] shows the files of a uic directory. *)
Definition os_uic : OS := {|
  expandvars := expandvars os_ok;
  relpath := relpath os_ok;
  abspath := abspath os_ok;
  getcwd_error := getcwd_error os_ok;
  recursion_ok := recursion_ok os_ok;
  gettempdir := gettempdir os_ok;
  lib_filename := lib_filename os_ok;
  hexversion := hexversion os_ok;
  listdir := fun _ =>
    Some [FsFile "Compiler.py";
          FsDir "__pycache__" (Some [FsFile "Compiler.pyc"]);
          FsDir "widget-plugins" (Some [FsFile "qscintilla.py"])];
  makedirs := makedirs os_ok;
  open_wt := open_wt os_ok;
  qfile_copy := qfile_copy os_ok;
  qfile_read := qfile_read os_ok;
  check_output := check_output os_ok;
  copyfile := copyfile os_ok;
  remove := remove os_ok |}.

(** [Project()] *)
Definition default_project : Project.t := Project.init "".

Definition with_application (contents : list QrcContent)
    (modules : list string) (extensions : list ExtensionModule.t)
    : Project.t :=
  Project.mk false "/proj/app.pdy" "" true
    (QrcPackage.mk "" contents (QrcPackage.exclusions QrcPackage.init))
    "app.py" "" "build" extensions modules "python3" "" "" ""
    "/usr/lib/python3.4" "" [] QrcPackage.init [] "".

Definition foo_project : Project.t :=
  with_application [] [] [ExtensionModule.mk "foo" "/x/libfoo"].

Definition app_and_data : list QrcContent :=
  [QrcFile "app.py" true; QrcFile "data.bin" true].

Definition nested_tree : list QrcContent :=
  [QrcFile "a.py" true;
   QrcDirectory "pkg" false [QrcFile "inner.py" true;
                             QrcDirectory "deep" true [QrcFile "x.bin" true]];
   QrcFile "b.bin" true].

Definition sample_project : Project.t :=
  with_application nested_tree ["QtCore"; "QtWidgets"]
    [ExtensionModule.mk "foo" "/x/libfoo"].

(** A store with one package: a file and a directory with a file. *)
Definition sample_store : heap :=
  [OList [2; 3]; OPackage "site" 0 ["*.pyc"]; OFile "six.py" true;
   ODirectory "attr" true 4; OList [5]; OFile "__init__.py" false].

Definition sample_package : QrcPackage.t :=
  QrcPackage.mk "site"
    [QrcFile "six.py" true;
     QrcDirectory "attr" true [QrcFile "__init__.py" false]]
    ["*.pyc"].

(** [sample_package] with the PyQt package that [build] adds for the
    modules QtCore and uic in [os_uic]. *)
Definition sample_package_with_pyqt : QrcPackage.t :=
  QrcPackage.mk "site"
    [QrcFile "six.py" true;
     QrcDirectory "attr" true [QrcFile "__init__.py" false];
     QrcDirectory "PyQt5" true
       [QrcFile "__init__.py" true;
        QrcDirectory "uic" true
          [QrcFile "Compiler.py" true;
           QrcDirectory "widget-plugins" true [QrcFile "qscintilla.py" true]]]]
    ["*.pyc"].

(** ** Notions used in the statements *)

(** The trace that [subprocess.check_output] sees in [_freeze]. *)
Definition freeze_trace (b : Builder.t) (args : list string) (tr : trace)
    : trace :=
  tr ++ (if Builder._verbose b
         then [Print ("Running '" +:+ Py.str_join " " args +:+ "'")] else []).

(** The [.qrc] files that were created. *)
Definition qrc_created (tr : trace) : list string :=
  flat_map (fun e =>
              match e with
              | Open p => if Py.endswith p ".qrc" then [p] else []
              | _ => []
              end) tr.

(** The metadata of a capability holds the token that opts out of the GUI. *)
Definition opts_out_of_gui (map : dict _QtMetaData.t) (pyqt_m : string) : bool :=
  match _QtMetaData.qt (metadata_of map pyqt_m) with
  | Some qts => str_in "-gui" qts
  | None => false
  end.

(** A computation only adds events to the trace. *)
Definition extends {A : Type} (m : M A) : Prop :=
  forall tr, exists evs, snd (m tr) = tr ++ evs.

(** The name of the [.pro] file. *)
Definition pro_file (b : Builder.t) (build_dir : string) : string :=
  OsPath.join build_dir
    [fst (OsPath.splitext
            (OsPath.basename
               (Project.application_script (Builder._project b)))) +:+ ".pro"].

(** What [_write_qmake] writes before it reads the platform fragment. *)
Definition pro_head (os : OS) (project : Project.t) : list string :=
  ["TEMPLATE = app" +:+ nl; "CONFIG += release warn_on" +:+ nl; nl]
  ++ qmake_qt_lines project
  ++ qmake_libs_lines (extensions_of os project)
  ++ [nl]
  ++ qmake_python_lines project.

(** What was written to the file [f], in order. *)
Definition written_to (f : string) (tr : trace) : list string :=
  flat_map (fun e =>
              match e with
              | Write p data => if String.eqb p f then [data] else []
              | _ => []
              end) tr.

(** All that was written, to any file. *)
Definition writes (tr : trace) : list event :=
  List.filter (fun e => match e with Write _ _ => true | _ => false end) tr.

(** The files that the traversal reaches: the included files below
    included directories only. *)
Fixpoint included_leaves (c : QrcContent) : nat :=
  if negb (content_included c) then 0
  else match c with
       | QrcFile _ _ => 1
       | QrcDirectory _ _ contents => list_sum (map included_leaves contents)
       end.

(** Every name in the tree is not empty. *)
Fixpoint content_named (c : QrcContent) : bool :=
  negb (String.eqb (content_name c) "")
  && match c with
     | QrcDirectory _ _ contents => forallb content_named contents
     | QrcFile _ _ => true
     end.

(** [s != ''] *)
Definition nonempty (s : string) : bool := negb (String.eqb s "").

(** The names of the contents and the patterns of a package are not empty. *)
Definition package_named (p : QrcPackage.t) : bool :=
  forallb content_named (QrcPackage.contents p)
  && forallb nonempty (QrcPackage.exclusions p).

(** The projects that [load] reads back as they are: no empty name of a
    file, directory, pattern or PyQt module, and a first package, if there
    is one, with a name. *)
Definition reloadable (p : Project.t) : bool :=
  package_named (Project.application_package p)
  && package_named (Project.stdlib_package p)
  && forallb package_named (Project.packages p)
  && forallb nonempty (Project.pyqt_modules p)
  && match Project.packages p with
     | first :: _ => nonempty (QrcPackage.name first)
     | [] => true
     end.

(** [content.contents] for a directory, nothing for a file *)
Definition children_of (c : QrcContent) : list QrcContent :=
  match c with
  | QrcDirectory _ _ contents => contents
  | QrcFile _ _ => []
  end.

(** The elements that [_save_project] builds. *)
Definition exclude_element (exclude : string) : Element :=
  Elem "Exclude" [("name", exclude)] [].

Definition package_element (package : QrcPackage.t) : Element :=
  Elem "Package" [("name", QrcPackage.name package)]
    (map save_content (QrcPackage.contents package)
     ++ map exclude_element (QrcPackage.exclusions package)).

Definition pyqt_module_element (m : string) : Element :=
  Elem "PyQtModule" [("name", m)] [].

Definition stdlib_extension_module_element (m : StdlibExtensionModule.t)
    : Element :=
  Elem "StdlibExtensionModule"
    [("name", StdlibExtensionModule.name m);
     ("defines", StdlibExtensionModule.defines m);
     ("includepath", StdlibExtensionModule.includepath m);
     ("libs", StdlibExtensionModule.libs m)] [].

Definition extension_module_element (m : ExtensionModule.t) : Element :=
  Elem "ExtensionModule"
    [("name", ExtensionModule.name m); ("path", ExtensionModule.path m)] [].

Definition application_element (self : Project.t) : Element :=
  Elem "Application"
    [("entrypoint", Project.application_entry_point self);
     ("ispyqt5", Py.str_of_bool_int (Project.application_is_pyqt5 self));
     ("name", Project.application_name self);
     ("script", Project.application_script self);
     ("syspath", Project.sys_path self)]
    (package_element (Project.application_package self)
     :: map pyqt_module_element (Project.pyqt_modules self)
     ++ Elem "SitePackages" [] (map package_element (Project.packages self))
     :: Elem "Stdlib" []
          (package_element (Project.stdlib_package self)
           :: map stdlib_extension_module_element
                (Project.stdlib_extension_modules self))
     :: map extension_module_element (Project.extension_modules self)).

Definition python_element (self : Project.t) : Element :=
  Elem "Python"
    [("hostinterpreter", Project.python_host_interpreter self);
     ("sourcedir", Project.python_source_dir self);
     ("targetincludedir", Project.python_target_include_dir self);
     ("targetlibrary", Project.python_target_library self);
     ("targetstdlibdir", Project.python_target_stdlib_dir self)] [].

Definition others_element (self : Project.t) : Element :=
  Elem "Others"
    [("builddir", Project.build_dir self); ("qmake", Project.qmake self)] [].

(** Every object of [h] is in [h'], unchanged. *)
Definition sub (h h' : heap) : Prop :=
  forall k o, h !! k = Some o -> h' !! k = Some o.

(** The addresses from [a] up to [b]. *)
Definition between (a b : nat) : loc -> Prop := fun k => a <= k < b.

(** From [h] to [h'] the store grows, and of the objects of [h] only the
    list at [c] may change, remaining a list. *)
Definition touches_only (c : loc) (h h' : heap) : Prop :=
  length h <= length h'
  /\ (forall k, k < length h -> k <> c -> h' !! k = h !! k)
  /\ exists items, h' !! c = Some (OList items).

(** ** Other methods of a project *)

(** [while s != '' and not s[0].isdigit(): s = s[1:]] *)
Fixpoint strip_to_leading_digit (s : string) : string :=
  match s with
  | EmptyString => EmptyString
  | String a s' => if Py.is_digit a then s else strip_to_leading_digit s'
  end.

(** [while s != '' and not s[-1].isdigit(): s = s[:-1]] *)
Fixpoint strip_to_trailing_digit (s : string) : string :=
  match s with
  | EmptyString => EmptyString
  | String a s' =>
      match strip_to_trailing_digit s' with
      | EmptyString =>
          if Py.is_digit a then String a EmptyString else EmptyString
      | r => String a r
      end
  end.

(** [s.replace(c, '')] for a one-character [c] *)
Fixpoint remove_char (c : ascii) (s : string) : string :=
  match s with
  | EmptyString => EmptyString
  | String a s' =>
      if Ascii.eqb a c then remove_char c s' else String a (remove_char c s')
  end.

(** The property [Project.python_target_version]: the pair
    [(major, minor)], or [(None, None)]. *)
Definition python_target_version (self : Project.t) : option Z * option Z :=
  if negb (String.eqb (Project.python_target_library self) "") then
    let lib_name := OsPath.basename (Project.python_target_library self) in
    (* Strip everything up to the leading digit. *)
    let lib_name := strip_to_leading_digit lib_name in
    (* Strip everything after the trailing digit. *)
    let lib_name := strip_to_trailing_digit lib_name in
    let version_str := remove_char "." lib_name in
    match Py.int_of_str version_str with
    | Some version => (Some (version / 10)%Z, Some (version mod 10)%Z)
    | None => (None, None)
    end
  else (None, None).

(** [Project.get_executable_basename] *)
Definition get_executable_basename (os : OS) (self : Project.t) : string :=
  if negb (String.eqb (Project.application_name self) "")
  then Project.application_name self
  else
    let name := Project.application_script self in
    let name :=
      if String.eqb name ""
      then QrcPackage.name (Project.application_package self) else name in
    if String.eqb name "" then ""
    else fst (OsPath.splitext (OsPath.basename (absolute_path os self name))).

(** ** More notions used in the statements *)

(** Some character of [s] satisfies [p]. *)
Fixpoint str_any (p : ascii -> bool) (s : string) : bool :=
  match s with
  | EmptyString => false
  | String a s' => p a || str_any p s'
  end.

(** The value of a decimal digit. *)
Definition digit_value (a : ascii) : Z := Z.of_nat (nat_of_ascii a - 48).

(** Text in ASCII: on it the character classes of [Py] are those of
    Python. *)
Definition is_ascii (s : string) : bool :=
  negb (str_any (fun a => (128 <=? nat_of_ascii a)%nat) s).

(** Text that an XML document carries unchanged through [tree.write] and
    [tree.parse]: printable ASCII characters.  (A control character cannot
    be written as XML text at all.) *)
Definition xml_plain (s : string) : bool :=
  negb (str_any (fun a => let n := nat_of_ascii a in
                          (n <? 32)%nat || (126 <? n)%nat) s).

(** Every attribute value of the document is such text. *)
Fixpoint element_plain (e : Element) : bool :=
  match e with
  | Elem _ attrib children =>
      forallb (fun kv => xml_plain (snd kv)) attrib
      && forallb element_plain children
  end.

(** The recursion limit lets [load] follow the directories of [c], when
    [c] is read by a call of [_load_mfs_contents] nested [depth] deep. *)
Fixpoint nesting_ok (os : OS) (depth : nat) (c : QrcContent) : bool :=
  match c with
  | QrcFile _ _ => true
  | QrcDirectory _ _ contents =>
      recursion_ok os (S depth) && forallb (nesting_ok os (S depth)) contents
  end.

Definition package_nesting_ok (os : OS) (p : QrcPackage.t) : bool :=
  forallb (nesting_ok os 1) (QrcPackage.contents p).

Definition project_nesting_ok (os : OS) (p : Project.t) : bool :=
  package_nesting_ok os (Project.application_package p)
  && package_nesting_ok os (Project.stdlib_package p)
  && forallb (package_nesting_ok os) (Project.packages p).

(** The exceptions that leave [load]: a [UserException], the
    [RecursionError] of a nesting that the recursion limit does not allow,
    and the [OSError] of [os.getcwd] for a file name that is not
    absolute. *)
Definition load_exception (os : OS) (filename : string) (e : exn) : Prop :=
  is_user_exception e = true
  \/ (exists text n, e = RecursionError text /\ recursion_ok os n = false)
  \/ (exists text, e = OSError text /\ getcwd_error os = Some text
                   /\ OsPath.isabs filename = false).

(** An entry that [_add_uic_dir] may add: included, not named port_v2 or
    __pycache__, with only such entries below it. *)
Fixpoint uic_entry_ok (c : QrcContent) : bool :=
  content_included c
  && negb (str_in (content_name c) ["port_v2"; "__pycache__"])
  && match c with
     | QrcDirectory _ _ contents => forallb uic_entry_ok contents
     | QrcFile _ _ => true
     end.

(** A path separator. *)
Definition is_sep (a : ascii) : bool := Ascii.eqb a "/".

(** What a module gives to [qmake_qt] and to [qmake_config]. *)
Definition gives_qt (map : dict _QtMetaData.t) (pyqt_m x : string) : Prop :=
  x <> "-gui"
  /\ exists qts, _QtMetaData.qt (metadata_of map pyqt_m) = Some qts /\ In x qts.

Definition gives_config (map : dict _QtMetaData.t) (pyqt_m x : string)
    : Prop :=
  exists configs,
    _QtMetaData.config (metadata_of map pyqt_m) = Some configs /\ In x configs.

(** From the trace [tr] the computation adds only events that satisfy [P]. *)
Definition emits {A : Type} (P : event -> Prop) (m : M A) (tr : trace) : Prop :=
  exists evs, snd (m tr) = tr ++ evs /\ Forall P evs.

Definition emits_only {A : Type} (P : event -> Prop) (m : M A) : Prop :=
  forall tr, emits P m tr.

(** The events of the traversal of a package that writes the manifest [f]:
    directories made, lines of [f], files frozen or copied and messages. *)
Definition traversal_event (f : string) (e : event) : Prop :=
  match e with
  | Makedirs _ | CheckOutput _ | CopyFile _ _ | Print _ => True
  | Write p _ => p = f
  | _ => False
  end.

(** Any event but [os.remove]. *)
Definition not_remove (e : event) : Prop :=
  match e with
  | Remove _ => False
  | _ => True
  end.

(** The name of the [.qrc] file of a resource. *)
Definition qrc_file_of (resource : string) : string :=
  (if String.eqb resource "" then "pyqtdeploy" else resource) +:+ ".qrc".

(** The computation returns [a] after it has written the [lines] to the
    file [f], and has done nothing else. *)
Definition writes_lines {A : Type} (f : string) (m : M A) (a : A)
    (lines : list string) : Prop :=
  forall tr, m tr = (Ok a, tr ++ map (Write f) lines).

(** A result that, when it is an exception, is one that [P] allows. *)
Definition raises_only {A : Type} (P : exn -> Prop) (r : result A) : Prop :=
  forall e, r = Raise e -> P e.

(** What [load] makes of the packages of the SitePackages element: a first
    package without a name is removed when it is empty and is given the
    name [n] otherwise. *)
Definition migrated (n : string) (packages : list QrcPackage.t)
    : list QrcPackage.t :=
  match packages with
  | first :: rest =>
      if String.eqb (QrcPackage.name first) "" then
        if (length (QrcPackage.contents first) =? 0)%nat then rest
        else QrcPackage.with_name n first :: rest
      else packages
  | [] => packages
  end.

(** The files created and closed, in order. *)
Definition file_events (evs : trace) : trace :=
  List.filter (fun e => match e with
                        | Open _ | Close _ => true
                        | _ => false
                        end) evs.

(** When the computation returns, its result satisfies [Q] and the files
    it has created and closed are [l]. *)
Definition handles {A : Type} (m : M A) (Q : A -> Prop) (l : trace) : Prop :=
  forall tr a tr',
    m tr = (Ok a, tr') ->
    Q a /\ exists evs, tr' = tr ++ evs /\ file_events evs = l.

Definition any {A : Type} : A -> Prop := fun _ => True.

(** *** The archive of a package, as the specification describes it *)

(** The manifest entry of a logical path. *)
Definition manifest_entry (logical_path : list string) : string :=
  "        <file>" +:+ String.concat "/" logical_path +:+ "</file>" +:+ nl.

(** The name under which a leaf is archived, and whether it is frozen: a
    name that ends in ".py" or ".pyw" gets the extension ".pyf" instead
    and is frozen, any other name is kept and the leaf is copied. *)
Definition archived_name (name : string) : string * bool :=
  if Py.endswith name ".py"
  then (substring 0 (String.length name - 3) name +:+ ".pyf", true)
  else if Py.endswith name ".pyw"
  then (substring 0 (String.length name - 4) name +:+ ".pyf", true)
  else (name, false).

(** The relative path of the directories [dirs], one in the other. *)
Definition relative_dir (dirs : list string) : string :=
  match dirs with
  | [] => ""
  | d :: ds => OsPath.join d ds
  end.

(** What the archive writer does for the entry [c] of the directory that
    lies [dirs] below the root of the package: nothing for an entry that
    is not included; for a leaf one manifest entry, whose logical path is
    the resource prefix, the directories and the archived name, and then
    the freezing or the copy from the source tree to the mirrored place
    below [dst_root]; for a directory the mirrored directory and then its
    entries. *)
Fixpoint archive_events (b : Builder.t) (freeze f src_root dst_root : string)
    (resource_prefix dirs : list string) (c : QrcContent) : list event :=
  if negb (content_included c) then []
  else
    match c with
    | QrcFile name _ =>
        let '(target, frozen) := archived_name name in
        let src := OsPath.join src_root [relative_dir dirs; name] in
        let dst := OsPath.join dst_root [relative_dir dirs; target] in
        Write f (manifest_entry (resource_prefix ++ dirs ++ [target]))
        :: (if frozen then
              let args :=
                [Project.python_host_interpreter (Builder._project b);
                 freeze; "--as-data"; dst; src] in
              (if Builder._verbose b
               then [Print ("Running '" +:+ String.concat " " args +:+ "'")]
               else [])
              ++ [CheckOutput args]
            else [CopyFile src dst])
    | QrcDirectory name _ contents =>
        Makedirs (OsPath.join dst_root [relative_dir (dirs ++ [name])])
        :: flat_map
             (archive_events b freeze f src_root dst_root resource_prefix
                (dirs ++ [name]))
             contents
    end.

(** The directories of the tree have names other than "" and ".". *)
Fixpoint plain_directories (c : QrcContent) : bool :=
  match c with
  | QrcFile _ _ => true
  | QrcDirectory name _ contents =>
      negb (String.eqb name "") && negb (String.eqb name ".")
      && forallb plain_directories contents
  end.

(** An environment in which directories can be made, files frozen and
    files copied, whatever was done before. *)
Definition archive_succeeds (os : OS) : Prop :=
  (forall tr dir, makedirs os tr dir = None)
  /\ (forall tr args, exists out, check_output os tr args = Exited 0 out)
  /\ (forall tr src dst, copyfile os tr src dst = None).

(** A name other than "" and ".". *)
Definition named (s : string) : Prop := s <> "" /\ s <> ".".

(** The directories above an entry: none, or a first one with a name. *)
Definition dirs_ok (dirs : list string) : Prop :=
  match dirs with
  | [] => True
  | d :: _ => named d
  end.

(** The context that [_write_package_contents] works out for the entries
    of the directory that lies [dirs] below the root of the package. *)
Definition context_at (dst_root_dir : string) (resource_prefix : list string)
    (dirs : list string) (c : dir_context) : Prop :=
  dir_tail c = relative_dir dirs
  /\ dir_stack c = dirs
  /\ dst_dir c = (if String.eqb (relative_dir dirs) "" then dst_root_dir
                  else OsPath.join dst_root_dir [relative_dir dirs])
  /\ prefix c = resource_prefix.

(** ** More samples *)

(** [sample_project] with one more package. *)
Definition library_project : Project.t :=
  Project.mk false "/proj/app.pdy" "" true
    (QrcPackage.mk "" nested_tree (QrcPackage.exclusions QrcPackage.init))
    "app.py" "" "build" [ExtensionModule.mk "foo" "/x/libfoo"]
    ["QtCore"; "QtWidgets"] "python3" "" "" "" "/usr/lib/python3.4" ""
    [sample_package] QrcPackage.init [] "".

(** A project file with the document that [save] writes for
    [library_project]. *)
Definition sample_disk : disk :=
  <["/proj/app.pdy" := save_root library_project]> ∅.

(** [os_ok] with a recursion limit that lets [_load_mfs_contents] be
    nested two deep, and a document with three directories, one in the
    other. *)
Definition os_shallow : OS := {|
  expandvars := expandvars os_ok;
  relpath := relpath os_ok;
  abspath := abspath os_ok;
  getcwd_error := getcwd_error os_ok;
  recursion_ok := fun n => (n <=? 2)%nat;
  gettempdir := gettempdir os_ok;
  lib_filename := lib_filename os_ok;
  hexversion := hexversion os_ok;
  listdir := listdir os_ok;
  makedirs := makedirs os_ok;
  open_wt := open_wt os_ok;
  qfile_copy := qfile_copy os_ok;
  qfile_read := qfile_read os_ok;
  check_output := check_output os_ok;
  copyfile := copyfile os_ok;
  remove := remove os_ok |}.

Definition directory_element (name : string) (children : list Element)
    : Element :=
  Elem "PackageContent"
    [("name", name); ("included", "1"); ("isdirectory", "1")] children.

Definition deep_document : Element :=
  Elem "Project" [("version", "3")]
    [Elem "Application" [("ispyqt5", "1")]
       [Elem "Package" [("name", "")]
          [directory_element "a"
             [directory_element "b" [directory_element "c" []]]];
        Elem "SitePackages" [] [];
        Elem "Stdlib" [] [Elem "Package" [("name", "")] []]];
     Elem "Python" [] []].

(** A document of a later version of the format, and one of the first
    versions, without the Others element and without packages. *)
Definition newer_document : Element :=
  Elem "Project" [("version", "4")] [].

Definition old_document : Element :=
  Elem "Project" [("version", "0")]
    [Elem "Application" [("ispyqt5", "1")]
       [Elem "Package" [("name", "")] [];
        Elem "SitePackages" [] [];
        Elem "Stdlib" [] [Elem "Package" [("name", "")] []]];
     Elem "Python" [] []].

(* ================================================================== *)
(** * Part II: theorems *)
(* ================================================================== *)

#[local] Arguments String.eqb : simpl nomatch.

(** ** Running the monad *)

Lemma run_bind {A B : Type} (m : M A) (k : A -> M B) (tr : trace) :
  (m ≫= k) tr =
  match m tr with
  | (Ok a, tr') => k a tr'
  | (Raise e, tr') => (Raise e, tr')
  end.
Proof. reflexivity. Qed.

Lemma bind_ok {A B : Type} (m : M A) (k : A -> M B) (tr tr' : trace) (y : B) :
  (m ≫= k) tr = (Ok y, tr') ->
  exists a tr1, m tr = (Ok a, tr1) /\ k a tr1 = (Ok y, tr').
Proof.
  rewrite run_bind. destruct (m tr) as [[a|e] tr1]; intros H.
  - now exists a, tr1.
  - discriminate H.
Qed.

Lemma run_ret {A : Type} (a : A) (tr : trace) : (mret a : M A) tr = (Ok a, tr).
Proof. reflexivity. Qed.
Lemma run_ask {A : Type} (q : trace -> A) (tr : trace) : ask q tr = (Ok (q tr), tr).
Proof. reflexivity. Qed.
Lemma run_emit (e : event) (tr : trace) : emit e tr = (Ok tt, tr ++ [e]).
Proof. reflexivity. Qed.
Lemma run_raise {A : Type} (e : exn) (tr : trace) : (raise e : M A) tr = (Raise e, tr).
Proof. reflexivity. Qed.
Lemma run_lift {A : Type} (r : result A) (tr : trace) : lift r tr = (r, tr).
Proof. reflexivity. Qed.
Lemma run_f_write (f data : string) (tr : trace) :
  f_write f data tr = (Ok tt, tr ++ [Write f data]).
Proof. reflexivity. Qed.
Lemma run_f_close (f : string) (tr : trace) :
  f_close f tr = (Ok tt, tr ++ [Close f]).
Proof. reflexivity. Qed.
Lemma run_log (b : Builder.t) (msg : string) (tr : trace) :
  _log b msg tr = (Ok tt, tr ++ (if Builder._verbose b then [Print msg] else [])).
Proof.
  unfold _log. destruct (Builder._verbose b); cbn.
  - reflexivity.
  - now rewrite app_nil_r.
Qed.

Create Rewrite HintDb run.
#[local] Hint Rewrite @run_bind @run_ret @run_ask @run_emit @run_raise
  @run_lift run_f_write run_f_close run_log : run.
Ltac run := repeat (autorewrite with run; cbv beta iota).

Lemma for_each_ok_In {A : Type} (g : A -> M unit) (l : list A) (x : A) tr tr' :
  for_each g l tr = (Ok tt, tr') -> In x l ->
  exists t1 t2, g x t1 = (Ok tt, t2).
Proof.
  revert tr. induction l as [|y l IH]; intros tr H Hin; [destruct Hin|].
  cbn [for_each] in H. apply bind_ok in H as ([] & tr1 & H1 & H2).
  destruct Hin as [->|Hin].
  - now exists tr, tr1.
  - now apply (IH tr1).
Qed.

Lemma write_lines (f : string) (l : list string) (tr : trace) :
  for_each (f_write f) l tr = (Ok tt, tr ++ map (Write f) l).
Proof.
  revert tr. induction l as [|x l IH]; intros tr; cbn [for_each map].
  - now rewrite app_nil_r.
  - rewrite run_bind, run_f_write, IH. now rewrite <- app_assoc.
Qed.

(** ** The trace only grows *)

Lemma extends_ret {A : Type} (a : A) : extends (mret a : M A).
Proof. intros tr. exists []. cbn. now rewrite app_nil_r. Qed.

Lemma extends_raise {A : Type} (e : exn) : extends (raise e : M A).
Proof. intros tr. exists []. cbn. now rewrite app_nil_r. Qed.

Lemma extends_lift {A : Type} (r : result A) : extends (lift r).
Proof. intros tr. exists []. cbn. now rewrite app_nil_r. Qed.

Lemma extends_ask {A : Type} (q : trace -> A) : extends (ask q).
Proof. intros tr. exists []. cbn. now rewrite app_nil_r. Qed.

Lemma extends_emit (e : event) : extends (emit e).
Proof. intros tr. now exists [e]. Qed.

Lemma extends_bind {A B : Type} (m : M A) (k : A -> M B) :
  extends m -> (forall a, extends (k a)) -> extends (m ≫= k).
Proof.
  intros Hm Hk tr. rewrite run_bind. destruct (Hm tr) as [e1 E1].
  destruct (m tr) as [[a|e] tr1]; cbn [snd] in E1; subst tr1.
  - destruct (Hk a (tr ++ e1)) as [e2 E2]. exists (e1 ++ e2).
    now rewrite E2, app_assoc.
  - now exists e1.
Qed.

Lemma extends_for_each {A : Type} (body : A -> M unit) (l : list A) :
  (forall x, extends (body x)) -> extends (for_each body l).
Proof.
  intros H. induction l as [|x l IH]; cbn [for_each].
  - apply extends_ret.
  - apply extends_bind; [apply H | intros _; apply IH].
Qed.

Create HintDb extends.

Ltac extends :=
  repeat first
    [ solve [auto 1 with extends nocore]
    | apply extends_ret | apply extends_raise | apply extends_lift
    | apply extends_ask | apply extends_emit
    | apply extends_for_each; intros ?
    | apply extends_bind; [|intros ?]
    | assumption
    | match goal with
      | |- extends (if ?c then _ else _) => destruct c
      | |- extends (match ?x with _ => _ end) => destruct x
      | |- extends (let '(_, _) := ?x in _) => destruct x
      end ].

Lemma extends_log b msg : extends (_log b msg).
Proof. unfold _log. extends. Qed.
#[local] Hint Resolve extends_log : extends.

Lemma extends_create_directory os d : extends (_create_directory os d).
Proof. unfold _create_directory. extends. Qed.
#[local] Hint Resolve extends_create_directory : extends.

Lemma extends_create_file os d f : extends (_create_file os d f).
Proof. unfold _create_file. extends. Qed.
#[local] Hint Resolve extends_create_file : extends.

Lemma extends_copy_lib_file os f d : extends (_copy_lib_file os f d).
Proof. unfold _copy_lib_file. extends. Qed.
#[local] Hint Resolve extends_copy_lib_file : extends.

Lemma extends_freeze os b o p f m a : extends (_freeze os b o p f m a).
Proof. unfold _freeze. extends. Qed.
#[local] Hint Resolve extends_freeze : extends.

Lemma extends_write_inittab f names inittab py3 :
  extends (_write_inittab f names inittab py3).
Proof. unfold _write_inittab, f_write. extends. Qed.
#[local] Hint Resolve extends_write_inittab : extends.

Lemma extends_write_main_call f a i py3 : extends (_write_main_call f a i py3).
Proof. unfold _write_main_call, f_write. extends. Qed.
#[local] Hint Resolve extends_write_main_call : extends.

Lemma extends_write_main_c os d a names : extends (_write_main_c os d a names).
Proof. unfold _write_main_c, f_write, f_close. extends. Qed.
#[local] Hint Resolve extends_write_main_c : extends.

(** ** Resources *)

Lemma resources_eq (b : Builder.t) :
  resources b =
  if (length (Project.pyqt_modules (Builder._project b)) =? 0)%nat
  then Raise (AttributeError
                "'Project' object has no attribute 'site_packages_package'")
  else Ok ((if existsb content_included
                 (QrcPackage.contents
                    (Project.application_package (Builder._project b)))
            then [""] else [])
           ++ ["stdlib"; "site-packages"]).
Proof.
  unfold resources.
  destruct (length (Project.pyqt_modules (Builder._project b)) =? 0)%nat; simpl.
  - reflexivity.
  - now destruct (existsb _ _).
Qed.

(** C1.  What [Builder.resources] returns, on every project: with a PyQt
    module requested the list is the application identifier (exactly when
    the application package has an included entry), then "stdlib", then
    "site-packages"; with none requested the call does not return a list,
    it raises [AttributeError], because the loop over
    [project.site_packages_package.contents] reads an attribute that a
    [Project] does not have.  So for [Project()] itself no list is
    returned. *)
Theorem resources_raises_without_pyqt_modules (b : Builder.t) :
  resources (Builder.mk default_project false)
  = Raise (AttributeError
             "'Project' object has no attribute 'site_packages_package'")
  /\ resources b =
     if (length (Project.pyqt_modules (Builder._project b)) =? 0)%nat
     then Raise (AttributeError
                   "'Project' object has no attribute 'site_packages_package'")
     else Ok ((if existsb content_included
                    (QrcPackage.contents
                       (Project.application_package (Builder._project b)))
               then [""] else [])
              ++ ["stdlib"; "site-packages"]).
Proof. split; [reflexivity | apply resources_eq]. Qed.

(** ** The QT value of the build descriptor *)

Lemma qt_step_fold (qts : list string) (ng : bool) (q : list string) :
  fst (fold_left qt_step qts (ng, q)) = ng && negb (str_in "-gui" qts).
Proof.
  revert ng q. induction qts as [|qt qts IH]; intros ng q; simpl.
  - now rewrite andb_true_r.
  - unfold str_in in *. cbn [existsb].
    change (qt_step (ng, q) qt)
      with (if String.eqb qt "-gui" then (false, q) else (ng, append_new q qt)).
    rewrite (String.eqb_sym "-gui" qt).
    destruct (String.eqb qt "-gui"); simpl; rewrite IH.
    + now rewrite andb_false_r.
    + reflexivity.
Qed.

Lemma module_step_no_gui map st m :
  fst (fst (module_step map st m)) = fst (fst st) && opts_out_of_gui map m.
Proof.
  destruct st as [[no_gui q] c]. unfold module_step, opts_out_of_gui.
  destruct (_QtMetaData.qt (metadata_of map m)) as [qts|]; simpl.
  - pose proof (qt_step_fold qts true q) as H.
    destruct (fold_left qt_step qts (true, q)) as [ng q']. simpl in *. subst ng.
    destruct (str_in "-gui" qts); simpl; [now rewrite andb_true_r | now rewrite andb_false_r].
  - now rewrite andb_false_r.
Qed.

Lemma qt_config_no_gui_fold map ms st :
  fst (fst (fold_left (module_step map) ms st)) =
  fst (fst st) && forallb (opts_out_of_gui map) ms.
Proof.
  revert st. induction ms as [|m ms IH]; intros st; simpl.
  - now rewrite andb_true_r.
  - rewrite IH, module_step_no_gui. now rewrite andb_assoc.
Qed.

Lemma qt_config_no_gui (p : Project.t) :
  fst (fst (qt_config p)) =
  forallb (opts_out_of_gui (module_map p)) (Project.pyqt_modules p).
Proof. unfold qt_config. now rewrite qt_config_no_gui_fold. Qed.

Lemma qt_lines_no_gui (p : Project.t) :
  In ("QT -= gui" +:+ nl) (qmake_qt_lines p) <->
  Forall (fun m => opts_out_of_gui (module_map p) m = true)
    (Project.pyqt_modules p).
Proof.
  rewrite List.Forall_forall, <- List.forallb_forall, <- qt_config_no_gui.
  unfold qmake_qt_lines.
  destruct (qt_config p) as [[no_gui q] c]. simpl.
  split.
  - intros H. destruct no_gui; [reflexivity|]. simpl in H.
    rewrite in_app_iff in H.
    destruct H as [H|H].
    + destruct (negb _); simpl in H; [destruct H as [H|[]]; discriminate H | destruct H].
    + destruct (negb (length c =? 0)%nat); simpl in H; [destruct H as [H|[]]; discriminate H | destruct H].
  - intros ->. now left.
Qed.

(** The head of the [.pro] file, as [_write_qmake] writes it once the file
    is open: whatever happens after, these lines are in the file. *)
Lemma write_qmake_head (os : OS) (b : Builder.t) (build_dir freeze : string)
    (tr : trace) :
  open_wt os tr (pro_file b build_dir) = None ->
  exists rest,
    snd (_write_qmake os b build_dir freeze tr)
    = tr ++ Open (pro_file b build_dir)
         :: map (Write (pro_file b build_dir))
              (pro_head os (Builder._project b))
         ++ QFileRead (_lib_filename os "platforms.pro") :: rest.
Proof.
  unfold _write_qmake, _create_file, pro_file, pro_head. cbv zeta.
  intros Hopen.
  set (f := OsPath.join build_dir _) in *.
  repeat first [rewrite write_lines | rewrite Hopen | progress run].
  destruct (qfile_read os _ _) as [error_string|data];
    rewrite ?run_ret, ?run_raise; cbv beta iota.
  - exists []. cbn [snd]. rewrite !map_app. cbn [map app].
    now rewrite <- !app_assoc.
  - match goal with
    | |- context [(?m ≫= ?k) ?t] =>
        assert (Hk : extends (m ≫= k)) by (unfold f_write, f_close; extends);
        destruct (Hk t) as [rest Hrest]
    end.
    exists rest. rewrite Hrest. rewrite !map_app. cbn [map app].
    now rewrite <- !app_assoc.
Qed.

(** No other line of the head is the line "QT -= gui". *)
Lemma pro_head_qt_line (os : OS) (p : Project.t) :
  In ("QT -= gui" +:+ nl) (pro_head os p)
  <-> In ("QT -= gui" +:+ nl) (qmake_qt_lines p).
Proof.
  unfold pro_head. rewrite !in_app_iff. split; [|tauto].
  intros [H|[H|[H|[H|H]]]]; try assumption; exfalso.
  - destruct H as [H|[H|[H|[]]]]; discriminate H.
  - unfold qmake_libs_lines in H.
    destruct (0 <? length (extensions_of os p))%nat; [|destruct H].
    destruct H as [H|[H|[]]]; discriminate H.
  - destruct H as [H|[]]. discriminate H.
  - unfold qmake_python_lines in H. rewrite in_app_iff in H.
    destruct H as [H|H].
    + destruct (negb _); [|destruct H]. destruct H as [H|[]]. discriminate H.
    + destruct (negb (String.eqb (Project.python_target_library p) ""));
        [|destruct H].
      destruct H as [H|[]]. discriminate H.
Qed.



(** ** Freezing *)

Lemma freeze_result os b output py freeze main as_data tr :
  fst (_freeze os b output py freeze main as_data tr) =
  match check_output os
          (freeze_trace b (freeze_args b output py freeze main as_data) tr)
          (freeze_args b output py freeze main as_data) with
  | Exited code out =>
      if (code =? 0)%Z then Ok tt
      else Raise (UserException ("Unable to freeze " +:+ py +:+ ".") out)
  | BadArgument text => Raise (ValueError text)
  | NotStarted text => Raise (OSError text)
  | Undecodable text => Raise (UnicodeDecodeError text)
  end.
Proof.
  unfold _freeze, freeze_trace.
  run.
  destruct (check_output os _ _) as [code out|text|text|text]; try now run.
  destruct code; now run.
Qed.




(** ** Dictionaries and lists of flags *)

Lemma str_in_In (x : string) (l : list string) : str_in x l = true <-> In x l.
Proof.
  unfold str_in. rewrite existsb_exists. split.
  - intros (y & Hy & E). apply String.eqb_eq in E. now subst.
  - intros H. exists x. split; [assumption | apply String.eqb_refl].
Qed.

Lemma append_new_In (l : list string) (x y : string) :
  In y (append_new l x) <-> In y l \/ y = x.
Proof.
  unfold append_new. destruct (str_in x l) eqn:E.
  - apply str_in_In in E. split; [tauto | intros [H| ->]; assumption].
  - rewrite in_app_iff. simpl. intuition.
Qed.

Lemma append_new_NoDup (l : list string) (x : string) :
  List.NoDup l -> List.NoDup (append_new l x).
Proof.
  intros H. unfold append_new. destruct (str_in x l) eqn:E; [assumption|].
  apply List.NoDup_app; [assumption | repeat constructor; intros [] |].
  intros y Hy [->|[]]. apply str_in_In in Hy. congruence.
Qed.

Lemma fold_append_new_NoDup (l acc : list string) :
  List.NoDup acc -> List.NoDup (fold_left append_new l acc).
Proof.
  revert acc. induction l as [|x l IH]; intros acc H; simpl; [assumption|].
  apply IH. now apply append_new_NoDup.
Qed.

Lemma fold_append_new_In (l acc : list string) (y : string) :
  In y (fold_left append_new l acc) <-> In y acc \/ In y l.
Proof.
  revert acc. induction l as [|x l IH]; intros acc; simpl; [tauto|].
  rewrite IH, append_new_In. intuition.
Qed.

Lemma mod_dirs_NoDup (ext : dict string) : List.NoDup (mod_dirs_of ext).
Proof. apply fold_append_new_NoDup. constructor. Qed.

Lemma append_inj_l (p a b : string) : p +:+ a = p +:+ b -> a = b.
Proof.
  induction p as [|c p IH]; intros H; [assumption|].
  apply IH. now injection H.
Qed.

Lemma mod_dir_flags_NoDup (ext : dict string) :
  List.NoDup (mod_dir_flags_of ext).
Proof.
  unfold mod_dir_flags_of. apply Finite.Injective_map_NoDup.
  - intros a b. apply append_inj_l.
  - apply mod_dirs_NoDup.
Qed.

Lemma mod_dir_flags_In (ext : dict string) (k v : string) :
  In (k, v) ext -> In ("-L" +:+ v) (mod_dir_flags_of ext).
Proof.
  intros H. unfold mod_dir_flags_of, mod_dirs_of, dict_values.
  apply in_map. apply fold_append_new_In. right.
  change v with (snd (k, v)). now apply in_map.
Qed.

Lemma mod_flags_In (ext : dict string) (k : string) :
  In k (dict_keys ext) ->
  In ("-l" +:+ Py.last_component "." k) (mod_flags_of ext).
Proof.
  intros H. unfold mod_flags_of.
  now apply (in_map (fun m => "-l" +:+ Py.last_component "." m)).
Qed.

Lemma dict_set_keys {V : Type} (k k' : string) (v : V) (d : dict V) :
  In k' (dict_keys (dict_set k v d)) <-> In k' (dict_keys d) \/ k' = k.
Proof.
  induction d as [|[k0 v0] d IH]; simpl.
  - intuition.
  - destruct (String.eqb_spec k0 k) as [->|Hne]; simpl.
    + intuition.
    + unfold dict_keys in IH. rewrite IH. intuition.
Qed.

Lemma dict_set_In {V : Type} (k : string) (v : V) (d : dict V) :
  In (k, v) (dict_set k v d).
Proof.
  induction d as [|[k0 v0] d IH]; simpl.
  - now left.
  - destruct (String.eqb_spec k0 k) as [->|Hne]; simpl; [now left | now right].
Qed.

Section FoldKeys.
Context {A : Type} (test : A -> bool) (key : A -> string) (val : A -> string).

Lemma fold_set_if_keeps (l : list A) (ext : dict string) (k : string) :
  In k (dict_keys ext) ->
  In k (dict_keys (fold_left (set_if test key val) l ext)).
Proof.
  revert ext. induction l as [|x l IH]; intros ext H; simpl; [assumption|].
  apply IH. unfold set_if. destruct (test x); [|assumption].
  apply dict_set_keys. now left.
Qed.

Lemma fold_set_if_adds (l : list A) (ext : dict string) (x : A) :
  In x l -> test x = true ->
  In (key x) (dict_keys (fold_left (set_if test key val) l ext)).
Proof.
  revert ext. induction l as [|y l IH]; intros ext Hin Ht; [destruct Hin|].
  destruct Hin as [->|H]; simpl.
  - apply fold_set_if_keeps. unfold set_if. rewrite Ht.
    apply dict_set_keys. now right.
  - now apply IH.
Qed.
End FoldKeys.

Lemma extensions_declared (os : OS) (p : Project.t) (m : ExtensionModule.t) :
  In m (Project.extension_modules p) -> ExtensionModule.name m <> "" ->
  In (ExtensionModule.name m) (dict_keys (extensions_of os p)).
Proof.
  intros Hin Hne. unfold extensions_of.
  assert (H0 : In (ExtensionModule.name m)
            (dict_keys
               (fold_left
                  (set_if (fun em => negb (String.eqb (ExtensionModule.name em) ""))
                     ExtensionModule.name ExtensionModule.path)
                  (Project.extension_modules p) []))).
  { apply fold_set_if_adds; [assumption|].
    apply negb_true_iff. now apply String.eqb_neq. }
  destruct (0 <? length (Project.pyqt_modules p))%nat; [|exact H0].
  apply dict_set_keys. left.
  apply (fold_set_if_keeps (fun pyqt => negb (String.eqb pyqt "uic"))
           (fun pyqt => _ +:+ "." +:+ pyqt) (fun _ => _)).
  exact H0.
Qed.

Lemma extensions_sip (os : OS) (p : Project.t) :
  Project.pyqt_modules p <> [] ->
  In ("sip", sitepackages_of os p) (extensions_of os p).
Proof.
  intros H. unfold extensions_of.
  destruct (Project.pyqt_modules p) as [|m ms] eqn:E; [now elim H|].
  cbn [length Nat.ltb Nat.leb]. apply dict_set_In.
Qed.

(** C7, as amended.  With the one extension module "foo" at "/x/libfoo" and
    no PyQt module, the LIBS line is "LIBS += -L/x/libfoo -lfoo": one
    directory flag, for the declared path itself, and one library flag,
    from the last dotted component of the name of the module.  In general
    the directory flags have no duplicates, every entry of [extensions]
    gives its directory flag and its library flag, every declared module
    with a name that is not empty gives its library flag, and with a PyQt
    module requested "-lsip" and the directory of site-packages are
    there. *)
Theorem libs_flags (os : OS) (p : Project.t) :
  let ext := extensions_of os p in
  (Project.extension_modules p = [ExtensionModule.mk "foo" "/x/libfoo"] ->
   Project.pyqt_modules p = [] ->
   mod_dir_flags_of ext = ["-L/x/libfoo"] /\ mod_flags_of ext = ["-lfoo"] /\
   qmake_libs_lines ext = [nl; "LIBS += -L/x/libfoo -lfoo" +:+ nl])
  /\ List.NoDup (mod_dir_flags_of ext)
  /\ (forall k v, In (k, v) ext ->
      In ("-L" +:+ v) (mod_dir_flags_of ext)
      /\ In ("-l" +:+ Py.last_component "." k) (mod_flags_of ext))
  /\ (forall m, In m (Project.extension_modules p) ->
      ExtensionModule.name m <> "" ->
      In ("-l" +:+ Py.last_component "." (ExtensionModule.name m))
        (mod_flags_of ext))
  /\ (Project.pyqt_modules p <> [] ->
      In "-lsip" (mod_flags_of ext)
      /\ In ("-L" +:+ sitepackages_of os p) (mod_dir_flags_of ext)).
Proof.
  intros ext. repeat apply conj.
  - intros He Hp. subst ext. unfold extensions_of. rewrite He, Hp.
    repeat split; reflexivity.
  - apply mod_dir_flags_NoDup.
  - intros k v H. split.
    + now apply (mod_dir_flags_In ext k v).
    + apply mod_flags_In. change k with (fst (k, v)). now apply in_map.
  - intros m Hm Hne. apply mod_flags_In. now apply extensions_declared.
  - intros H. pose proof (extensions_sip os p H) as Hs. split.
    + change "-lsip" with ("-l" +:+ Py.last_component "." "sip").
      apply mod_flags_In. change "sip" with (fst ("sip", sitepackages_of os p)).
      now apply in_map.
    + now apply (mod_dir_flags_In ext "sip").
Qed.

Lemma libs_flags_witness :
  qmake_libs_lines (extensions_of os_ok foo_project)
  = [nl; "LIBS += -L/x/libfoo -lfoo" +:+ nl].
Proof.
  apply (proj1 (libs_flags os_ok foo_project)); reflexivity.
Defined.

(** C7 as stated fails: the directory flag of the example is for
    "/x/libfoo", not for "/x". *)
Lemma libs_directory_flag_counterexample :
  mod_dir_flags_of (extensions_of os_ok foo_project) = ["-L/x/libfoo"]
  /\ ~ In "-L/x" (mod_dir_flags_of (extensions_of os_ok foo_project)).
Proof.
  split; [reflexivity|]. intros [H|[]]. discriminate H.
Qed.

(** ** The traversal *)

Section Traversal.
Context (os : OS) (b : Builder.t) (dst_root_dir src_root_dir freeze f : string).

Let body := write_content os b dst_root_dir src_root_dir freeze f.

Lemma write_content_loop (c : dir_context) (l : list QrcContent) :
  (fix loop (l : list QrcContent) : M unit :=
     match l with
     | [] => mret tt
     | x :: l' => body c x;; loop l'
     end) l = for_each (body c) l.
Proof.
  induction l as [|x l IH]; [reflexivity|].
  cbn [for_each]. now rewrite <- IH.
Qed.

(** The recursive call of [_write_package_contents], as the source has it. *)
Lemma write_content_directory (c : dir_context) (name : string)
    (contents : list QrcContent) (tr : trace) :
  body c (QrcDirectory name true contents) tr =
  _write_package_contents os b contents dst_root_dir src_root_dir
    (dir_stack c ++ [name]) freeze f tr.
Proof.
  unfold body, _write_package_contents. cbn [write_content content_included negb].
  rewrite !run_bind.
  destruct (enter_directory os dst_root_dir (dir_stack c ++ [name]) tr)
    as [[c'|e] tr1]; [|reflexivity].
  now rewrite write_content_loop.
Qed.

Lemma write_content_file (c : dir_context) (name : string) :
  body c (QrcFile name true) = write_file os b src_root_dir freeze f c name.
Proof. reflexivity. Qed.

Lemma write_content_excluded (c : dir_context) (x : QrcContent) :
  content_included x = false -> body c x = mret tt.
Proof. unfold body. destruct x; cbn; intros ->; reflexivity. Qed.

Lemma for_each_app {A : Type} (g : A -> M unit) (l1 l2 : list A) (tr : trace) :
  for_each g (l1 ++ l2) tr =
  match for_each g l1 tr with
  | (Ok _, tr') => for_each g l2 tr'
  | (Raise e, tr') => (Raise e, tr')
  end.
Proof.
  revert tr. induction l1 as [|x l1 IH]; intros tr; [reflexivity|].
  cbn [for_each app]. rewrite !run_bind.
  destruct (g x tr) as [[[]|e] tr1]; [apply IH | reflexivity].
Qed.

Lemma for_each_skip (c : dir_context) (x : QrcContent) (l1 l2 : list QrcContent) :
  content_included x = false ->
  for_each (body c) (l1 ++ x :: l2) = for_each (body c) (l1 ++ l2).
Proof.
  intros H. induction l1 as [|y l1 IH]; cbn [for_each app].
  - now rewrite write_content_excluded.
  - now rewrite IH.
Qed.
End Traversal.

(** C2.  An entry whose [included] flag is false, file or directory, with
    any contents, makes the loop of [_write_package_contents] do nothing:
    no event at all, so no manifest entry for it or for anything below it;
    and the traversal of a list with such an entry is the traversal of the
    list without it. *)
Theorem excluded_node_emits_nothing (os : OS) (b : Builder.t)
    (dst_root_dir src_root_dir freeze f : string) (stack : list string)
    (c : dir_context) (x : QrcContent) (before after : list QrcContent)
    (tr : trace) :
  content_included x = false ->
  write_content os b dst_root_dir src_root_dir freeze f c x tr = (Ok tt, tr)
  /\ _write_package_contents os b (before ++ x :: after) dst_root_dir
       src_root_dir stack freeze f tr
     = _write_package_contents os b (before ++ after) dst_root_dir
         src_root_dir stack freeze f tr.
Proof.
  intros H. split.
  - now rewrite write_content_excluded.
  - unfold _write_package_contents. rewrite !run_bind.
    destruct (enter_directory os dst_root_dir stack tr) as [[c'|e] tr1];
      [|reflexivity].
    now rewrite for_each_skip.
Qed.

Lemma excluded_node_emits_nothing_witness :
  _write_package_contents os_ok (Builder.mk default_project false) nested_tree
    "build/resources" "/proj" [""] "/tmp/freeze.py" "build/resources/pyqtdeploy.qrc" []
  = _write_package_contents os_ok (Builder.mk default_project false)
      [QrcFile "a.py" true; QrcFile "b.bin" true]
      "build/resources" "/proj" [""] "/tmp/freeze.py" "build/resources/pyqtdeploy.qrc" [].
Proof.
  apply (excluded_node_emits_nothing os_ok (Builder.mk default_project false)
           "build/resources" "/proj" "/tmp/freeze.py"
           "build/resources/pyqtdeploy.qrc" [""]
           (Build_dir_context "" [] "build/resources" [])
           (QrcDirectory "pkg" false
              [QrcFile "inner.py" true;
               QrcDirectory "deep" true [QrcFile "x.bin" true]])
           [QrcFile "a.py" true] [QrcFile "b.bin" true] []).
  reflexivity.
Defined.

(** ** Paths *)

Lemma rfind_split_app_nosep (sep : ascii) (y r : string) :
  Py.rfind_split sep r = None ->
  Py.rfind_split sep (y +:+ r) =
  match Py.rfind_split sep y with
  | Some (h, t) => Some (h, t +:+ r)
  | None => None
  end.
Proof.
  intros Hr. induction y as [|c y IH]; [exact Hr|].
  change (String c y +:+ r) with (String c (y +:+ r)).
  cbn [Py.rfind_split]. rewrite IH.
  destruct (Py.rfind_split sep y) as [[h t]|]; [reflexivity|].
  now destruct (Ascii.eqb c sep).
Qed.

Lemma rfind_split_app_sep (sep : ascii) (y : string) :
  Py.rfind_split sep (y +:+ String sep "") = Some (y +:+ String sep "", "").
Proof.
  induction y as [|c y IH].
  - change ("" +:+ String sep "") with (String sep "").
    cbn [Py.rfind_split]. now rewrite Ascii.eqb_refl.
  - change (String c y +:+ String sep "") with (String c (y +:+ String sep "")).
    cbn [Py.rfind_split]. now rewrite IH.
Qed.

Lemma endswith_sep (y : string) :
  Py.endswith y "/" = true -> exists y', y = y' +:+ "/".
Proof.
  induction y as [|c y IH]; cbn [Py.endswith].
  - intros H. discriminate H.
  - destruct (String.eqb_spec (String c y) "/") as [E|_].
    + intros _. exists "". now rewrite E.
    + intros H. destruct (IH H) as [y' ->]. now exists (String c y').
Qed.

Lemma append_assoc (a b c : string) : (a +:+ b) +:+ c = a +:+ (b +:+ c).
Proof.
  induction a as [|x a IH]; [reflexivity|].
  change (String x ((a +:+ b) +:+ c) = String x (a +:+ (b +:+ c))).
  now rewrite IH.
Qed.

Lemma basename_join (x r : string) :
  Py.rfind_split "/" r = None ->
  OsPath.basename (OsPath.join x [r]) = r.
Proof.
  intros Hr. unfold OsPath.basename, OsPath.join, Py.split_after_last, OsPath.sep.
  cbn [fold_left]. unfold OsPath.join2.
  assert (Hs : Py.startswith r "/" = false).
  { destruct r as [|c r]; [reflexivity|]. unfold Py.startswith.
    cbn [String.prefix]. cbn [Py.rfind_split] in Hr.
    destruct (Ascii.ascii_dec "/" c) as [<-|E]; [|reflexivity].
    destruct (Py.rfind_split "/" r) as [[h t]|]; discriminate Hr. }
  rewrite Hs.
  destruct (String.eqb_spec x "") as [->|Hx]; cbn [orb].
  - change ("" +:+ r) with r. now rewrite Hr.
  - destruct (Py.endswith x "/") eqn:He.
    + destruct (endswith_sep x He) as [y ->].
      rewrite rfind_split_app_nosep by assumption.
      now rewrite (rfind_split_app_sep "/" y).
    + rewrite <- append_assoc. rewrite rfind_split_app_nosep by assumption.
      now rewrite (rfind_split_app_sep "/" x).
Qed.

(** ** One file of the archive *)

Lemma writes_app (l1 l2 : trace) : writes (l1 ++ l2) = writes l1 ++ writes l2.
Proof. apply List.filter_app. Qed.

Lemma written_to_app (f : string) (l1 l2 : trace) :
  written_to f (l1 ++ l2) = written_to f l1 ++ written_to f l2.
Proof. apply flat_map_app. Qed.

Lemma writes_nil_written_to (f : string) (l : trace) :
  writes l = [] -> written_to f l = [].
Proof.
  induction l as [|e l IH]; [reflexivity|].
  destruct e; cbn; try exact IH. intros H. discriminate H.
Qed.

Lemma freeze_events os b output py freeze main as_data tr :
  exists pre post,
    snd (_freeze os b output py freeze main as_data tr)
    = tr ++ pre ++ CheckOutput (freeze_args b output py freeze main as_data)
         :: post
    /\ writes pre = [] /\ writes post = [].
Proof.
  unfold _freeze. run.
  exists (if Builder._verbose b
          then [Print ("Running '" +:+
                       Py.str_join " " (freeze_args b output py freeze main as_data)
                       +:+ "'")] else []).
  destruct (check_output os _ _) as [code out|text|text|text].
  - destruct code; run.
    + exists []. rewrite <- !app_assoc. now destruct (Builder._verbose b).
    + exists (if Builder._verbose b then [Print out] else []).
      rewrite <- !app_assoc. now destruct (Builder._verbose b).
    + exists (if Builder._verbose b then [Print out] else []).
      rewrite <- !app_assoc. now destruct (Builder._verbose b).
  - run. exists []. rewrite <- !app_assoc. now destruct (Builder._verbose b).
  - run. exists []. rewrite <- !app_assoc. now destruct (Builder._verbose b).
  - run. exists []. rewrite <- !app_assoc. now destruct (Builder._verbose b).
Qed.

Lemma write_file_events os b src_root_dir freeze f c name tr :
  exists rest,
    snd (write_file os b src_root_dir freeze f c name tr)
    = tr ++ Write f (file_entry (file_path_of c (fst (dst_file_of name)))) :: rest
    /\ writes rest = []
    /\ (if snd (dst_file_of name)
        then In (CheckOutput
                   (freeze_args b
                      (OsPath.join (dst_dir c) [fst (dst_file_of name)])
                      (OsPath.join src_root_dir [dir_tail c; name])
                      freeze false true)) rest
        else rest = [CopyFile (OsPath.join src_root_dir [dir_tail c; name])
                       (OsPath.join (dst_dir c) [name])]
             /\ fst (dst_file_of name) = name).
Proof.
  unfold write_file.
  destruct (dst_file_of name) as [dst_file frozen] eqn:E. cbn [fst snd].
  destruct frozen; run.
  - destruct (freeze_events os b (OsPath.join (dst_dir c) [dst_file])
                (OsPath.join src_root_dir [dir_tail c; name]) freeze false true
                (tr ++ [Write f (file_entry (file_path_of c dst_file))]))
      as (pre & post & H & Hpre & Hpost).
    exists (pre ++ CheckOutput
                     (freeze_args b (OsPath.join (dst_dir c) [dst_file])
                        (OsPath.join src_root_dir [dir_tail c; name]) freeze
                        false true) :: post).
    split; [|split].
    + destruct (_freeze _ _ _ _ _ _ _ _) as [r tr1]. cbn [snd] in *. subst tr1.
      now rewrite <- app_assoc.
    + unfold writes in *. rewrite List.filter_app. cbn [List.filter].
      now rewrite Hpre, Hpost.
    + apply in_app_iff. right. now left.
  - assert (dst_file = name) as ->.
    { unfold dst_file_of in E.
      destruct (Py.endswith name ".py"); [discriminate E|].
      destruct (Py.endswith name ".pyw"); [discriminate E|]. now injection E. }
    exists [CopyFile (OsPath.join src_root_dir [dir_tail c; name])
              (OsPath.join (dst_dir c) [name])].
    split; [|split; [reflexivity | split; reflexivity]].
    destruct (copyfile os _ _ _); run; cbn [snd]; now rewrite <- app_assoc.
Qed.

(** ** Entering a directory *)

Lemma enter_directory_ok os dst_root_dir stack tr c tr' :
  enter_directory os dst_root_dir stack tr = (Ok c, tr') ->
  prefix c = (if negb (String.eqb (OsPath.basename dst_root_dir) "resources")
              then [OsPath.basename dst_root_dir] else [])
  /\ join_star stack = Ok (dir_tail c)
  /\ (if String.eqb (dir_tail c) ""
      then dir_stack c = [] /\ dst_dir c = dst_root_dir /\ tr' = tr
      else dir_stack c = (if String.eqb (dir_tail c) "." then [] else stack)
           /\ dst_dir c = OsPath.join dst_root_dir [dir_tail c]
           /\ tr' = tr ++ [Makedirs (OsPath.join dst_root_dir [dir_tail c])]).
Proof.
  unfold enter_directory. run.
  destruct (join_star stack) as [tail|e]; [|intros H; discriminate H].
  destruct (String.eqb tail "") eqn:E; run.
  - intros H. injection H as <- <-. cbn. rewrite E. auto.
  - unfold _create_directory. run.
    destruct (makedirs os tr _); run; intros H; [discriminate H|].
    injection H as <- <-. cbn. rewrite E. auto.
Qed.

Lemma enter_directory_events os dst_root_dir stack tr c tr' :
  enter_directory os dst_root_dir stack tr = (Ok c, tr') ->
  exists evs, tr' = tr ++ evs /\ writes evs = [].
Proof.
  intros H. apply enter_directory_ok in H as (_ & _ & H).
  destruct (String.eqb (dir_tail c) "").
  - destruct H as (_ & _ & ->). exists []. now rewrite app_nil_r.
  - destruct H as (_ & _ & ->). now eexists.
Qed.

(** ** Counting the entries *)

Lemma QrcContent_tree_ind (P : QrcContent -> Prop) :
  (forall name included, P (QrcFile name included)) ->
  (forall name included contents,
      Forall P contents -> P (QrcDirectory name included contents)) ->
  forall c, P c.
Proof.
  intros Hf Hd. fix IH 1. intros [name included|name included contents].
  - apply Hf.
  - apply Hd. induction contents as [|x l IHl]; constructor.
    + apply IH.
    + apply IHl.
Qed.

Section Counting.
Context (os : OS) (b : Builder.t) (dst_root_dir src_root_dir freeze f : string).

Let body := write_content os b dst_root_dir src_root_dir freeze f.

Let counts (x : QrcContent) : Prop :=
  forall c tr tr',
    body c x tr = (Ok tt, tr') ->
    exists evs, tr' = tr ++ evs
                /\ length (written_to f evs) = included_leaves x.

Lemma for_each_counts (l : list QrcContent) :
  Forall counts l ->
  forall c tr tr',
    for_each (body c) l tr = (Ok tt, tr') ->
    exists evs, tr' = tr ++ evs
                /\ length (written_to f evs) = list_sum (map included_leaves l).
Proof.
  induction 1 as [|x l Hx _ IH]; intros c tr tr' H.
  - injection H as <-. exists []. now rewrite app_nil_r.
  - cbn [for_each] in H. apply bind_ok in H as ([] & tr1 & H1 & H2).
    apply Hx in H1 as (e1 & -> & L1). apply IH in H2 as (e2 & -> & L2).
    exists (e1 ++ e2). rewrite app_assoc, written_to_app, length_app.
    cbn [map list_sum]. now rewrite L1, L2.
Qed.

Lemma written_to_entry (data : string) (rest : trace) :
  writes rest = [] -> length (written_to f (Write f data :: rest)) = 1.
Proof.
  intros H. cbn [written_to flat_map]. rewrite String.eqb_refl.
  fold (written_to f rest). now rewrite (writes_nil_written_to f rest H).
Qed.

Lemma content_counts (x : QrcContent) : counts x.
Proof.
  induction x as [name included|name included contents IH]
    using QrcContent_tree_ind; intros c tr tr' H.
  - destruct included.
    + unfold body in H. rewrite write_content_file in H.
      destruct (write_file_events os b src_root_dir freeze f c name tr)
        as (rest & Hs & Hw & _).
      rewrite H in Hs. cbn [snd] in Hs. subst tr'. eexists. split; [reflexivity|].
      now apply written_to_entry.
    + injection H as <-. exists []. now rewrite app_nil_r.
  - destruct included.
    + unfold body in H. rewrite write_content_directory in H.
      unfold _write_package_contents in H.
      apply bind_ok in H as (c' & tr1 & H1 & H2).
      apply enter_directory_events in H1 as (e1 & -> & W1).
      apply (for_each_counts contents IH) in H2 as (e2 & -> & L2).
      exists (e1 ++ e2). split; [now rewrite app_assoc|].
      rewrite written_to_app, length_app, (writes_nil_written_to f e1 W1).
      exact L2.
    + injection H as <-. exists []. now rewrite app_nil_r.
Qed.

Lemma package_contents_count (contents : list QrcContent) stack tr tr' :
  _write_package_contents os b contents dst_root_dir src_root_dir stack
    freeze f tr = (Ok tt, tr') ->
  exists evs,
    tr' = tr ++ evs
    /\ length (written_to f evs) = list_sum (map included_leaves contents).
Proof.
  unfold _write_package_contents. intros H.
  apply bind_ok in H as (c' & tr1 & H1 & H2).
  apply enter_directory_events in H1 as (e1 & -> & W1).
  apply for_each_counts in H2 as (e2 & -> & L2).
  - exists (e1 ++ e2). split; [now rewrite app_assoc|].
    rewrite written_to_app, length_app, (writes_nil_written_to f e1 W1).
    exact L2.
  - apply Forall_forall. intros x _. apply content_counts.
Qed.
End Counting.

(** ** Names of the written files *)

Lemma endswith_split (s suf : string) :
  Py.endswith s suf = true -> exists stem, s = stem +:+ suf.
Proof.
  induction s as [|c s IH]; cbn [Py.endswith].
  - destruct (String.eqb_spec "" suf) as [<-|_]; [|intros H; discriminate H].
    intros _. now exists "".
  - destruct (String.eqb_spec (String c s) suf) as [<-|_].
    + intros _. now exists "".
    + intros H. destruct (IH H) as [stem ->]. now exists (String c stem).
Qed.

Lemma drop_last_append (stem suf : string) :
  Py.drop_last (String.length suf) (stem +:+ suf) = stem.
Proof.
  unfold Py.drop_last. induction stem as [|c stem IH].
  - change ("" +:+ suf) with suf. rewrite Nat.sub_diag. now destruct suf.
  - change (String c stem +:+ suf) with (String c (stem +:+ suf)).
    cbn [String.length].
    replace (S (String.length (stem +:+ suf)) - String.length suf)
      with (S (String.length (stem +:+ suf) - String.length suf)).
    + cbn [substring]. now rewrite IH.
    + assert (String.length suf <= String.length (stem +:+ suf)).
      { clear. induction stem as [|c stem IH]; [apply Nat.le_refl|].
        change (String c stem +:+ suf) with (String c (stem +:+ suf)).
        cbn [String.length]. lia. }
      lia.
Qed.

Lemma dst_file_of_cases (name : string) :
  (exists stem, name = stem +:+ ".py" /\ dst_file_of name = (stem +:+ ".pyf", true))
  \/ (exists stem, name = stem +:+ ".pyw"
                   /\ dst_file_of name = (stem +:+ ".pyf", true))
  \/ (Py.endswith name ".py" = false /\ Py.endswith name ".pyw" = false
      /\ dst_file_of name = (name, false)).
Proof.
  unfold dst_file_of.
  destruct (Py.endswith name ".py") eqn:E1.
  - left. destruct (endswith_split _ _ E1) as [stem ->]. exists stem.
    pose proof (drop_last_append stem ".py") as D.
    cbn [String.length] in D. now rewrite D.
  - destruct (Py.endswith name ".pyw") eqn:E2.
    + right; left. destruct (endswith_split _ _ E2) as [stem ->]. exists stem.
      pose proof (drop_last_append stem ".pyw") as D.
      cbn [String.length] in D. now rewrite D.
    + right; right. auto.
Qed.

(** ** Building *)

(** X1.  No build completes: in every environment, for every project and
    build directory, [build] raises.  [resources] raises when no PyQt
    module is requested, and otherwise the site-packages resource is
    reached and the attribute lookup raises there. *)
Lemma build_never_completes (os : OS) (b : Builder.t) (build_dir : string)
    (tr : trace) :
  fst (build os b build_dir tr) <> Ok tt.
Proof.
  destruct (build os b build_dir tr) as [r tr'] eqn:E. cbn [fst].
  intros ->. unfold build in E.
  apply bind_ok in E as ([] & t1 & _ & E).
  apply bind_ok in E as (freeze & t2 & _ & E).
  apply bind_ok in E as ([] & t3 & _ & E).
  apply bind_ok in E as ([] & t4 & _ & E).
  apply bind_ok in E as (rs & t5 & Hrs & E).
  apply bind_ok in E as ([] & t6 & Hloop & _).
  unfold lift in Hrs. injection Hrs as Hrs _.
  rewrite resources_eq in Hrs.
  destruct (length (Project.pyqt_modules (Builder._project b)) =? 0)%nat;
    [discriminate Hrs|].
  injection Hrs as <-.
  apply (for_each_ok_In _ _ "site-packages") in Hloop as (u1 & u2 & H).
  - cbn beta in H.
    change (String.eqb "site-packages" "") with false in H.
    change (String.eqb "site-packages" "stdlib") with false in H.
    cbv iota in H. apply bind_ok in H as (p & u3 & H & _).
    unfold lift, site_packages_to_write, Project.site_packages_package in H.
    discriminate H.
  - apply in_app_iff. right. right. now left.
Qed.

(** C5.  The bootstrap script and the resources written come from the same
    [resources()], yet with a PyQt module requested the script lists
    ':/site-packages' and [build] raises [AttributeError] when it reaches
    that resource, before [site-packages.qrc] is created: here the script
    lists two mount points and one resource file exists. *)
Theorem bootstrap_lists_resource_never_written :
  let b := Builder.mk (with_application [] ["QtCore"] []) false in
  let r := build os_ok b "build" [] in
  fst r = Raise (AttributeError
                   "'Project' object has no attribute 'site_packages_package'")
  /\ written_to "build/__bootstrap__.py" (snd r)
     = [bootstrap_script ["stdlib"; "site-packages"]]
  /\ bootstrap_sys_path ["stdlib"; "site-packages"]
     = ["':/stdlib'"; "':/site-packages'"]
  /\ qrc_created (snd r) = ["build/resources/stdlib.qrc"].
Proof. vm_compute. repeat split. Qed.

(** C9.  [build] lets exceptions other than [UserException] out: the
    [OSError] of [shutil.copyfile] for a file that cannot be read, and the
    [AttributeError] of the lookup of [site_packages_package]. *)
Theorem build_raises_other_exceptions :
  let unreadable :=
    os_with (fun _ => Exited 0 "")
      (fun src _ => Some ("[Errno 13] Permission denied: '" +:+ src +:+ "'")) in
  let b :=
    Builder.mk (with_application [QrcFile "data.bin" true] ["QtCore"] []) false in
  fst (build unreadable b "build" [])
  = Raise (OSError "[Errno 13] Permission denied: '/proj/data.bin'")
  /\ fst (build os_ok (Builder.mk default_project false) "build" [])
     = Raise (AttributeError
                "'Project' object has no attribute 'site_packages_package'").
Proof. vm_compute. split; reflexivity. Qed.

(** ** The project file *)

Lemma fold_SubElement {A : Type} (g : A -> Element) (l : list A)
    (t : string) (a : dict string) (cs : list Element) :
  fold_left (fun e x => SubElement e (g x)) l (Elem t a cs)
  = Elem t a (cs ++ map g l).
Proof.
  revert cs. induction l as [|x l IH]; intros cs; cbn [fold_left map].
  - now rewrite app_nil_r.
  - cbn [SubElement]. rewrite IH. now rewrite <- app_assoc.
Qed.

Lemma save_content_eq (c : QrcContent) :
  save_content c
  = Elem "PackageContent"
      [("name", content_name c);
       ("included", Py.str_of_bool_int (content_included c));
       ("isdirectory", Py.str_of_bool_int (is_QrcDirectory c))]
      (map save_content (children_of c)).
Proof.
  destruct c as [n i|n i cs]; [reflexivity|].
  cbn [save_content]. now rewrite fold_SubElement.
Qed.

Lemma save_content_tag (c : QrcContent) :
  el_tag (save_content c) = "PackageContent".
Proof. now rewrite save_content_eq. Qed.

Lemma filter_map_all {A B : Type} (p : B -> bool) (g : A -> B) (l : list A) :
  (forall x, p (g x) = true) -> List.filter p (map g l) = map g l.
Proof.
  intros H. induction l as [|x l IH]; [reflexivity|].
  cbn [map List.filter]. now rewrite H, IH.
Qed.

Lemma filter_map_none {A B : Type} (p : B -> bool) (g : A -> B) (l : list A) :
  (forall x, p (g x) = false) -> List.filter p (map g l) = [].
Proof.
  intros H. induction l as [|x l IH]; [reflexivity|].
  cbn [map List.filter]. now rewrite H, IH.
Qed.

Lemma map_result_map {A B C : Type} (g : A -> B) (h : B -> result C)
    (k : A -> C) (l : list A) :
  Forall (fun x => h (g x) = Ok (k x)) l ->
  map_result h (map g l) = Ok (map k l).
Proof.
  induction 1 as [|x l Hx _ IH]; [reflexivity|].
  cbn [map map_result]. rewrite Hx. cbn. rewrite IH. reflexivity.
Qed.

Lemma get_bool_saved (e : Element) (name context : string) (v : bool) :
  el_get e name = Some (Py.str_of_bool_int v) ->
  _get_bool e name context = Ok v.
Proof. unfold _get_bool. intros ->. now destruct v. Qed.

Lemma load_content_saved (os : OS) (c : QrcContent) :
  forall depth,
    content_named c = true -> nesting_ok os depth c = true ->
    load_content os depth (save_content c) = Ok c.
Proof.
  induction c as [n i|n i cs IH] using QrcContent_tree_ind; intros depth H Hd.
  - cbn in H. rewrite andb_true_r in H.
    cbn [save_content load_content is_QrcDirectory content_name content_included].
    rewrite (get_bool_saved _ "isdirectory" _ false) by reflexivity.
    rewrite (get_bool_saved _ "included" _ i) by reflexivity.
    cbn. unfold el_get_default, el_get. cbn. rewrite H. reflexivity.
  - cbn [content_named content_name] in H. apply andb_true_iff in H as [Hn Hcs].
    cbn [nesting_ok] in Hd. apply andb_true_iff in Hd as [Hr Hds].
    rewrite save_content_eq.
    cbn [load_content is_QrcDirectory content_name content_included children_of].
    rewrite (get_bool_saved _ "isdirectory" _ true) by reflexivity.
    rewrite (get_bool_saved _ "included" _ i) by reflexivity.
    cbn. unfold el_get_default, el_get. cbn. rewrite Hn. cbn.
    unfold enter_nested. rewrite Hr. cbn.
    assert (Hl : (fix loop (l : list Element) : result (list QrcContent) :=
                    match l with
                    | [] => Ok []
                    | x :: l' =>
                        if String.eqb (el_tag x) "PackageContent"
                        then c ← load_content os (S depth) x; r ← loop l';
                             Ok (c :: r)
                        else loop l'
                    end) (map save_content cs) = Ok cs).
    { clear Hn Hr. induction cs as [|x l IHl]; [reflexivity|].
      cbn [forallb] in Hcs, Hds.
      apply andb_true_iff in Hcs as [Hx Hl].
      apply andb_true_iff in Hds as [Hdx Hdl].
      inversion IH as [|? ? IHx IHl']; subst.
      cbn [map]. rewrite save_content_tag.
      change (String.eqb "PackageContent" "PackageContent") with true. cbv iota.
      rewrite (IHx (S depth) Hx Hdx). cbn.
      rewrite (IHl IHl' Hl Hdl). reflexivity. }
    rewrite Hl. reflexivity.
Qed.

Lemma save_package_eq (container : Element) (package : QrcPackage.t) :
  _save_package container package
  = SubElement container (package_element package).
Proof.
  unfold _save_package, _save_mfs_contents, package_element.
  rewrite fold_SubElement.
  rewrite (fold_SubElement exclude_element). reflexivity.
Qed.

Lemma fold_save_package (l : list QrcPackage.t) (t : string) (a : dict string)
    (cs : list Element) :
  fold_left _save_package l (Elem t a cs)
  = Elem t a (cs ++ map package_element l).
Proof.
  revert cs. induction l as [|x l IH]; intros cs; cbn [fold_left map].
  - now rewrite app_nil_r.
  - rewrite save_package_eq. cbn [SubElement]. rewrite IH.
    now rewrite <- app_assoc.
Qed.

Lemma load_package_saved (os : OS) (package : QrcPackage.t) :
  package_named package = true -> package_nesting_ok os package = true ->
  _load_package os (package_element package) = Ok package.
Proof.
  destruct package as [n cs xs]. unfold package_named, package_nesting_ok.
  cbn [QrcPackage.contents QrcPackage.exclusions]. intros H Hd.
  apply andb_true_iff in H as [Hc Hx].
  unfold _load_package, package_element, _load_mfs_contents, el_iterfind.
  cbn [QrcPackage.name QrcPackage.contents QrcPackage.exclusions el_children].
  rewrite !List.filter_app.
  rewrite (filter_map_all (fun c => String.eqb (el_tag c) "PackageContent")
             save_content)
    by (intros x; now rewrite save_content_tag).
  rewrite (filter_map_none (fun c => String.eqb (el_tag c) "PackageContent")
             exclude_element) by reflexivity.
  rewrite (filter_map_none (fun c => String.eqb (el_tag c) "Exclude")
             save_content)
    by (intros x; now rewrite save_content_tag).
  rewrite (filter_map_all (fun c => String.eqb (el_tag c) "Exclude")
             exclude_element) by reflexivity.
  rewrite app_nil_r. cbn [app].
  rewrite (map_result_map save_content (load_content os 1) (fun c => c)).
  2:{ apply Forall_forall. intros x Hin. apply list_elem_of_In in Hin.
      rewrite forallb_forall in Hc, Hd.
      apply load_content_saved; [now apply Hc | now apply Hd]. }
  rewrite (map_result_map exclude_element _ (fun x => x)).
  2:{ apply Forall_forall. intros x Hin.
      rewrite forallb_forall in Hx. apply list_elem_of_In in Hin.
      specialize (Hx x Hin). unfold nonempty in Hx.
      unfold exclude_element, el_get_default, el_get. cbn. now rewrite Hx. }
  cbn. now rewrite !map_id.
Qed.

Lemma save_root_eq (self : Project.t) :
  save_root self
  = Elem "Project" [("version", "3")]
      [application_element self; python_element self; others_element self].
Proof.
  unfold save_root, application_element.
  rewrite !save_package_eq. cbn [SubElement app].
  rewrite (fold_SubElement pyqt_module_element).
  rewrite fold_save_package.
  rewrite (fold_SubElement stdlib_extension_module_element).
  cbn [SubElement app].
  rewrite (fold_SubElement extension_module_element).
  repeat (rewrite <- app_assoc; cbn [app]). reflexivity.
Qed.

Section Finding.
Context (self : Project.t).

Let children := el_children (application_element self).

Lemma children_eq :
  children
  = [package_element (Project.application_package self)]
    ++ map pyqt_module_element (Project.pyqt_modules self)
    ++ [Elem "SitePackages" [] (map package_element (Project.packages self));
        Elem "Stdlib" []
          (package_element (Project.stdlib_package self)
           :: map stdlib_extension_module_element
                (Project.stdlib_extension_modules self))]
    ++ map extension_module_element (Project.extension_modules self).
Proof. reflexivity. Qed.

Lemma filter_children (t : string) :
  List.filter (fun c => String.eqb (el_tag c) t) children
  = (if String.eqb "Package" t
     then [package_element (Project.application_package self)] else [])
    ++ (if String.eqb "PyQtModule" t
        then map pyqt_module_element (Project.pyqt_modules self) else [])
    ++ (if String.eqb "SitePackages" t
        then [Elem "SitePackages" []
                (map package_element (Project.packages self))] else [])
    ++ (if String.eqb "Stdlib" t
        then [Elem "Stdlib" []
                (package_element (Project.stdlib_package self)
                 :: map stdlib_extension_module_element
                      (Project.stdlib_extension_modules self))] else [])
    ++ (if String.eqb "ExtensionModule" t
        then map extension_module_element (Project.extension_modules self)
        else []).
Proof.
  rewrite children_eq. rewrite !List.filter_app.
  apply (f_equal2 (@app Element)).
  { cbn [List.filter package_element el_tag]. now destruct (String.eqb "Package" t). }
  apply (f_equal2 (@app Element)).
  { destruct (String.eqb "PyQtModule" t) eqn:E.
    - now apply filter_map_all.
    - now apply filter_map_none. }
  rewrite app_assoc. apply (f_equal2 (@app Element)).
  { cbn [List.filter el_tag app].
    destruct (String.eqb "SitePackages" t), (String.eqb "Stdlib" t); reflexivity. }
  destruct (String.eqb "ExtensionModule" t) eqn:E.
  - now apply filter_map_all.
  - now apply filter_map_none.
Qed.
End Finding.
Lemma iterfind_application (self : Project.t) (t : string) :
  el_iterfind (application_element self) t
  = (if String.eqb "Package" t
     then [package_element (Project.application_package self)] else [])
    ++ (if String.eqb "PyQtModule" t
        then map pyqt_module_element (Project.pyqt_modules self) else [])
    ++ (if String.eqb "SitePackages" t
        then [Elem "SitePackages" []
                (map package_element (Project.packages self))] else [])
    ++ (if String.eqb "Stdlib" t
        then [Elem "Stdlib" []
                (package_element (Project.stdlib_package self)
                 :: map stdlib_extension_module_element
                      (Project.stdlib_extension_modules self))] else [])
    ++ (if String.eqb "ExtensionModule" t
        then map extension_module_element (Project.extension_modules self)
        else []).
Proof. unfold el_iterfind. apply filter_children. Qed.

Lemma iterfind_stdlib (self : Project.t) (t : string) :
  el_iterfind
    (Elem "Stdlib" []
       (package_element (Project.stdlib_package self)
        :: map stdlib_extension_module_element
             (Project.stdlib_extension_modules self))) t
  = (if String.eqb "Package" t
     then [package_element (Project.stdlib_package self)] else [])
    ++ (if String.eqb "StdlibExtensionModule" t
        then map stdlib_extension_module_element
               (Project.stdlib_extension_modules self) else []).
Proof.
  unfold el_iterfind. cbn [el_children List.filter package_element el_tag].
  destruct (String.eqb "Package" t); cbn [app]; [f_equal|];
    (destruct (String.eqb "StdlibExtensionModule" t) eqn:E;
     [now apply filter_map_all | now apply filter_map_none]).
Qed.

Lemma iterfind_site_packages (l : list QrcPackage.t) :
  el_iterfind (Elem "SitePackages" [] (map package_element l)) "Package"
  = map package_element l.
Proof. unfold el_iterfind. cbn [el_children]. now apply filter_map_all. Qed.

#[local] Arguments application_element : simpl never.
#[local] Arguments package_element : simpl never.

Lemma find_root (self : Project.t) (t : string) :
  el_find
    (Elem "Project" [("version", "3")]
       [application_element self; python_element self; others_element self]) t
  = if String.eqb "Application" t then Some (application_element self)
    else if String.eqb "Python" t then Some (python_element self)
    else if String.eqb "Others" t then Some (others_element self)
    else None.
Proof.
  unfold el_find, el_iterfind. cbn [el_children List.filter].
  change (el_tag (application_element self)) with "Application".
  change (el_tag (python_element self)) with "Python".
  change (el_tag (others_element self)) with "Others".
  destruct (String.eqb "Application" t); [reflexivity|].
  destruct (String.eqb "Python" t); [reflexivity|].
  now destruct (String.eqb "Others" t).
Qed.

Lemma result_bind_Ok {A B : Type} (a : A) (k : A -> result B) :
  (Ok a ≫= k) = k a.
Proof. reflexivity. Qed.

Lemma int_of_str_3 : Py.int_of_str "3" = Some 3%Z.
Proof. reflexivity. Qed.

Ltac ok := rewrite result_bind_Ok; cbv beta.

Ltac eval_eqb :=
  repeat match goal with
         | |- context [String.eqb ?a ?b] =>
             let v := eval vm_compute in (String.eqb a b) in
             match v with
             | true => change (String.eqb a b) with true
             | false => change (String.eqb a b) with false
             end
         end.

Lemma Forall_true {A : Type} (P : A -> Prop) (l : list A) :
  (forall x, P x) -> Forall P l.
Proof. intros H. induction l; constructor; auto. Qed.

Lemma Forall_forallb {A : Type} (p : A -> bool) (P : A -> Prop) (l : list A) :
  (forall x, p x = true -> P x) -> forallb p l = true -> Forall P l.
Proof.
  intros H. induction l as [|x l IH]; cbn [forallb]; intros E; constructor.
  - apply H. now apply andb_true_iff in E as [E _].
  - apply IH. now apply andb_true_iff in E as [_ E].
Qed.

Lemma load_root_saved (os : OS) (abs_filename : string) (self : Project.t) :
  reloadable self = true -> project_nesting_ok os self = true ->
  load_root os abs_filename (save_root self)
  = Ok (set_name abs_filename (set_modified false self)).
Proof.
  unfold reloadable, project_nesting_ok. intros H HN.
  apply andb_true_iff in H as [H Hfirst].
  apply andb_true_iff in H as [H Hmods].
  apply andb_true_iff in H as [H Hpkgs].
  apply andb_true_iff in H as [Happ Hstd].
  apply andb_true_iff in HN as [HN HNpkgs].
  apply andb_true_iff in HN as [HNapp HNstd].
  rewrite save_root_eq. unfold load_root, find_required, get_required.
  rewrite !find_root.
  cbn [el_tag]. eval_eqb. cbv iota. cbn [_assert]. ok.
  change (el_get (Elem "Project" _ _) "version") with (Some "3").
  cbv iota. ok. rewrite int_of_str_3. ok.
  change (Project.version <? 3)%Z with false. cbv iota. ok. ok. ok.
  rewrite (get_bool_saved _ "ispyqt5" _ (Project.application_is_pyqt5 self))
    by reflexivity.
  ok. unfold el_find. rewrite !iterfind_application.
  eval_eqb. cbv iota. cbn [app head]. rewrite ?app_nil_r.
  ok. rewrite (load_package_saved os _ Happ HNapp). ok.
  rewrite (map_result_map pyqt_module_element _ (fun m => m)).
  2:{ apply (Forall_forallb nonempty); [|exact Hmods].
      intros m Hm. unfold nonempty in Hm.
      unfold pyqt_module_element, el_get_default, el_get. cbn.
      now rewrite Hm. }
  rewrite map_id. ok. ok. rewrite iterfind_site_packages.
  rewrite (map_result_map package_element (_load_package os) (fun p => p)).
  2:{ apply Forall_forall. intros q Hin. apply list_elem_of_In in Hin.
      rewrite forallb_forall in Hpkgs, HNpkgs.
      apply load_package_saved; [now apply Hpkgs | now apply HNpkgs]. }
  rewrite map_id. ok. ok. rewrite !iterfind_stdlib.
  eval_eqb. cbv iota. cbn [app head]. rewrite ?app_nil_r.
  ok. rewrite (load_package_saved os _ Hstd HNstd). ok.
  rewrite (map_result_map stdlib_extension_module_element _ (fun m => m)).
  2:{ apply Forall_true. now intros []. }
  rewrite map_id. ok.
  rewrite (map_result_map extension_module_element _ (fun m => m)).
  2:{ apply Forall_true. now intros []. }
  rewrite map_id. ok.
  unfold el_get_default, el_get, application_element, python_element,
    others_element.
  cbn [el_attrib dict_get]. eval_eqb. cbv iota.
  destruct self as [md nm an i5 ap sc ep bd em pm hi sd ti tl ts qm pk sp sx syp].
  cbn [Project.packages Project.application_name Project.application_is_pyqt5
       Project.application_package Project.application_script
       Project.application_entry_point Project.build_dir
       Project.extension_modules Project.pyqt_modules
       Project.python_host_interpreter Project.python_source_dir
       Project.python_target_include_dir Project.python_target_library
       Project.python_target_stdlib_dir Project.qmake Project.stdlib_package
       Project.stdlib_extension_modules Project.sys_path Project._name
       Project._modified set_name set_modified] in *.
  destruct pk as [|first rest]; [reflexivity|].
  unfold nonempty in Hfirst.
  destruct (String.eqb (QrcPackage.name first) ""); [discriminate Hfirst|].
  reflexivity.
Qed.

(** [load] of a file with a tree, once its absolute name is known. *)
Lemma load_at (os : OS) (d : disk) (filename abs_filename : string)
    (root : Element) :
  os_path_abspath os filename = Ok abs_filename ->
  d !! abs_filename = Some root ->
  load os d filename = load_root os abs_filename root.
Proof. unfold load. intros -> H. cbn. now rewrite H. Qed.





(** ** Copies on the store *)

Lemma hrun_bind {A B : Type} (m : HM A) (k : A -> HM B) (h : heap) :
  (m ≫= k) h =
  match m h with
  | (Ok a, h') => k a h'
  | (Raise e, h') => (Raise e, h')
  end.
Proof. reflexivity. Qed.

Lemma sub_refl (h : heap) : sub h h.
Proof. now intros k o. Qed.

Lemma sub_trans (h1 h2 h3 : heap) : sub h1 h2 -> sub h2 h3 -> sub h1 h3.
Proof. intros H1 H2 k o H. now apply H2, H1. Qed.

Lemma sub_app (h hn : heap) : sub h (h ++ hn).
Proof. intros k o H. now apply lookup_app_l_Some. Qed.

Lemma sub_length (h h' : heap) : sub h h' -> length h <= length h'.
Proof.
  intros H. destruct (Nat.le_gt_cases (length h) (length h')) as [|Hlt]; [assumption|].
  destruct h as [|o h0] using rev_ind; [cbn; lia|].
  rewrite length_app in *. cbn [length] in *.
  assert (Hl : (h0 ++ [o]) !! length h0 = Some o).
  { rewrite lookup_app_r by lia. now rewrite Nat.sub_diag. }
  apply H in Hl. apply lookup_lt_Some in Hl. lia.
Qed.

Lemma sub_insert_fresh (h0 h : heap) (k : nat) (o : obj) :
  sub h0 h -> length h0 <= k -> sub h0 (<[k := o]> h).
Proof.
  intros H Hk j x Hj. rewrite list_lookup_insert_ne.
  - now apply H.
  - apply lookup_lt_Some in Hj. lia.
Qed.

Lemma holds_all (P : loc -> Prop) (h : heap) (cs : list QrcContent)
    (ls : list loc) :
  (fix all (cs : list QrcContent) (ls : list loc) : Prop :=
     match cs, ls with
     | [], [] => True
     | c :: cs', l :: ls' => holds P h c l /\ all cs' ls'
     | _, _ => False
     end) cs ls
  <-> Forall2 (holds P h) cs ls.
Proof.
  revert ls. induction cs as [|c cs IH]; intros [|l ls]; split; intros H.
  - constructor.
  - exact I.
  - destruct H.
  - inversion H.
  - destruct H.
  - inversion H.
  - destruct H as [H1 H2]. constructor; [exact H1 | now apply IH].
  - inversion H; subst. split; [assumption | now apply IH].
Qed.

Lemma holds_directory (P : loc -> Prop) (h : heap) name included contents l :
  holds P h (QrcDirectory name included contents) l
  <-> P l /\ exists cl items,
        h !! l = Some (ODirectory name included cl)
        /\ P cl /\ h !! cl = Some (OList items)
        /\ Forall2 (holds P h) contents items.
Proof.
  cbn [holds]. split; intros [Hl (cl & items & H1 & H2 & H3 & H4)];
    (split; [assumption|]); exists cl, items; repeat split; try assumption;
    now apply holds_all.
Qed.

Lemma holds_agree (P : loc -> Prop) (h h' : heap) (c : QrcContent) (l : loc) :
  (forall k o, P k -> h !! k = Some o -> h' !! k = Some o) ->
  holds P h c l -> holds P h' c l.
Proof.
  intros Hs. revert l.
  induction c as [n i|n i cs IH] using QrcContent_tree_ind; intros l H.
  - destruct H as [Hl H]. split; [assumption | now apply Hs].
  - apply holds_directory in H as [Hl (cl & items & H1 & H2 & H3 & H4)].
    apply holds_directory. split; [assumption|]. exists cl, items.
    repeat split; try assumption; try (now apply Hs).
    clear H1 H3. revert items H4. induction IH as [|c cs Hc _ IHcs];
      intros items H4; inversion H4; subst; constructor.
    + now apply Hc.
    + now apply IHcs.
Qed.

Lemma holds_weaken (P Q : loc -> Prop) (h : heap) (c : QrcContent) (l : loc) :
  (forall k, P k -> Q k) -> holds P h c l -> holds Q h c l.
Proof.
  intros Hs. revert l.
  induction c as [n i|n i cs IH] using QrcContent_tree_ind; intros l H.
  - destruct H as [Hl H]. split; [now apply Hs | assumption].
  - apply holds_directory in H as [Hl (cl & items & H1 & H2 & H3 & H4)].
    apply holds_directory. split; [now apply Hs|]. exists cl, items.
    repeat split; try assumption; try (now apply Hs).
    clear H1 H3. revert items H4. induction IH as [|c cs Hc _ IHcs];
      intros items H4; inversion H4; subst; constructor.
    + now apply Hc.
    + now apply IHcs.
Qed.

Lemma holds_sub (P : loc -> Prop) (h h' : heap) (c : QrcContent) (l : loc) :
  sub h h' -> holds P h c l -> holds P h' c l.
Proof. intros H. apply holds_agree. intros k o _. apply H. Qed.

Lemma run_get (h : heap) (l : loc) (o : obj) :
  h !! l = Some o -> get l h = (Ok o, h).
Proof. unfold get. now intros ->. Qed.

Lemma run_items_of (h : heap) (l : loc) (items : list loc) :
  h !! l = Some (OList items) -> items_of l h = (Ok items, h).
Proof. intros H. unfold items_of. now rewrite hrun_bind, (run_get _ _ _ H). Qed.

Lemma run_contents_of_directory (h : heap) (l c : loc) n i :
  h !! l = Some (ODirectory n i c) -> contents_of l h = (Ok c, h).
Proof. intros H. unfold contents_of. now rewrite hrun_bind, (run_get _ _ _ H). Qed.

Lemma run_contents_of_package (h : heap) (l c : loc) n x :
  h !! l = Some (OPackage n c x) -> contents_of l h = (Ok c, h).
Proof. intros H. unfold contents_of. now rewrite hrun_bind, (run_get _ _ _ H). Qed.

Lemma run_set_contents_directory (h : heap) (l c c' : loc) n i :
  h !! l = Some (ODirectory n i c) ->
  set_contents l c' h = (Ok tt, <[l := ODirectory n i c']> h).
Proof. intros H. unfold set_contents. now rewrite hrun_bind, (run_get _ _ _ H). Qed.

Lemma run_set_contents_package (h : heap) (l c c' : loc) n x :
  h !! l = Some (OPackage n c x) ->
  set_contents l c' h = (Ok tt, <[l := OPackage n c' x]> h).
Proof. intros H. unfold set_contents. now rewrite hrun_bind, (run_get _ _ _ H). Qed.

Lemma run_list_append (h : heap) (l x : loc) (items : list loc) :
  h !! l = Some (OList items) ->
  list_append l x h = (Ok tt, <[l := OList (items ++ [x])]> h).
Proof.
  intros H. unfold list_append. now rewrite hrun_bind, (run_items_of _ _ _ H).
Qed.

Lemma run_new_QrcDirectory (h : heap) n i :
  new_QrcDirectory n i h
  = (Ok (S (length h)), h ++ [OList []; ODirectory n i (length h)]).
Proof.
  unfold new_QrcDirectory. rewrite hrun_bind. unfold alloc.
  rewrite length_app. cbn [length]. rewrite Nat.add_1_r.
  now rewrite <- app_assoc.
Qed.

Lemma lookup_last (h : heap) (o : obj) : (h ++ [o]) !! length h = Some o.
Proof. rewrite lookup_app_r by lia. now rewrite Nat.sub_diag. Qed.

Lemma hmap_copies (depth : nat) (cs : list QrcContent) :
  Forall (fun c =>
            forall depth h l,
              holds anywhere h c l -> tree_depth c <= depth ->
              exists l' h',
                copy_content depth l h = (Ok l', h') /\ sub h h'
                /\ holds (between (length h) (length h')) h' c l') cs ->
  forall items h,
    Forall2 (holds anywhere h) cs items ->
    Forall (fun c => tree_depth c <= depth) cs ->
    exists copies h',
      hmap (copy_content depth) items h = (Ok copies, h') /\ sub h h'
      /\ Forall2 (holds (between (length h) (length h')) h') cs copies.
Proof.
  induction 1 as [|c cs Hc _ IH]; intros items h H2 Hd.
  - inversion H2; subst. exists [], h.
    split; [reflexivity|]. split; [apply sub_refl | constructor].
  - inversion H2 as [|? l ? items' Hl Hrest]; subst.
    inversion Hd as [|? ? Hdc Hdcs]; subst.
    destruct (Hc depth h l Hl Hdc) as (l' & h1 & E1 & S1 & R1).
    assert (Hrest1 : Forall2 (holds anywhere h1) cs items').
    { eapply Forall2_impl; [exact Hrest|]. intros x y. now apply holds_sub. }
    destruct (IH items' h1 Hrest1 Hdcs) as (copies & h2 & E2 & S2 & R2).
    exists (l' :: copies), h2. cbn [hmap].
    rewrite hrun_bind, E1, hrun_bind, E2.
    pose proof (sub_length _ _ S1). pose proof (sub_length _ _ S2).
    split; [reflexivity|]. split.
    + now apply (sub_trans h h1 h2).
    + constructor.
      * apply (holds_sub _ h1 h2); [assumption|].
        eapply holds_weaken; [|exact R1]. unfold between. intros k. lia.
      * eapply Forall2_impl; [exact R2|]. intros x y.
        apply holds_weaken. unfold between. intros k. lia.
Qed.

Lemma max_depth_Forall (cs : list QrcContent) (d : nat) :
  fold_right (fun x d => Nat.max (tree_depth x) d) 0 cs <= d ->
  Forall (fun c => tree_depth c <= d) cs.
Proof.
  induction cs as [|c cs IH]; cbn [fold_right]; intros H; constructor.
  - lia.
  - apply IH. lia.
Qed.

Lemma copy_content_spec (c : QrcContent) :
  forall depth h l,
    holds anywhere h c l -> tree_depth c <= depth ->
    exists l' h',
      copy_content depth l h = (Ok l', h') /\ sub h h'
      /\ holds (between (length h) (length h')) h' c l'.
Proof.
  induction c as [n i|n i cs IH] using QrcContent_tree_ind; intros depth h l H Hd.
  - destruct depth as [|d]; [cbn in Hd; lia|].
    destruct H as [_ H]. exists (length h), (h ++ [OFile n i]).
    cbn [copy_content]. rewrite hrun_bind, (run_get _ _ _ H).
    split; [reflexivity|]. split; [apply sub_app|]. split.
    + unfold between. rewrite length_app. cbn. lia.
    + apply lookup_last.
  - destruct depth as [|d]; [cbn in Hd; lia|].
    apply holds_directory in H as [_ (cl & items & H1 & _ & H3 & H4)].
    cbn [tree_depth] in Hd. apply le_S_n in Hd. apply max_depth_Forall in Hd.
    cbn [copy_content]. rewrite hrun_bind, (run_get _ _ _ H1).
    rewrite hrun_bind, run_new_QrcDirectory.
    set (h1 := h ++ [OList []; ODirectory n i (length h)]).
    assert (S1 : sub h h1) by apply sub_app.
    rewrite hrun_bind, (run_items_of h1 cl items) by now apply S1.
    assert (H4' : Forall2 (holds anywhere h1) cs items).
    { eapply Forall2_impl; [exact H4|]. intros x y. now apply holds_sub. }
    destruct (hmap_copies d cs IH items h1 H4' Hd) as (copies & h2 & E2 & S2 & R2).
    rewrite hrun_bind, E2. rewrite hrun_bind. unfold alloc at 1.
    set (h3 := h2 ++ [OList copies]).
    assert (Hl1 : length h1 = S (S (length h))).
    { unfold h1. rewrite length_app. cbn [length]. lia. }
    assert (Hdir : h1 !! S (length h) = Some (ODirectory n i (length h))).
    { unfold h1. rewrite lookup_app_r by lia.
      replace (S (length h) - length h) with 1 by lia. reflexivity. }
    pose proof (sub_length _ _ S2) as L2.
    assert (S3 : sub h2 h3) by apply sub_app.
    rewrite hrun_bind.
    rewrite (run_set_contents_directory h3 (S (length h)) (length h) (length h2) n i)
      by now apply S3, S2.
    exists (S (length h)),
      (<[S (length h) := ODirectory n i (length h2)]> h3).
    assert (L3 : length h3 = S (length h2)).
    { unfold h3. rewrite length_app. cbn [length]. lia. }
    split; [reflexivity|]. split.
    + apply sub_insert_fresh; [|lia].
      apply (sub_trans h h1); [assumption|]. now apply (sub_trans h1 h2).
    + rewrite length_insert. apply holds_directory. split.
      { unfold between. lia. }
      exists (length h2), copies. split; [|split; [|split]].
      * apply list_lookup_insert_eq. lia.
      * unfold between. lia.
      * rewrite list_lookup_insert_ne by lia. unfold h3. apply lookup_last.
      * eapply Forall2_impl; [exact R2|]. intros x y Hxy.
        apply (holds_weaken (between (length h1) (length h3)));
          [unfold between; intros k; lia|].
        apply (holds_agree _ h3).
        { intros k o [Hk _] Hko. rewrite list_lookup_insert_ne by lia. exact Hko. }
        apply (holds_sub _ h2 h3); [assumption|].
        eapply holds_weaken; [|exact Hxy]. unfold between. intros k. lia.
Qed.

Lemma run_set_package_name (h : heap) (l c : loc) n v x :
  h !! l = Some (OPackage n c x) ->
  set_package_name l v h = (Ok tt, <[l := OPackage v c x]> h).
Proof.
  intros H. unfold set_package_name. now rewrite hrun_bind, (run_get _ _ _ H).
Qed.

Lemma run_set_exclusions (h : heap) (l c : loc) n v x :
  h !! l = Some (OPackage n c x) ->
  set_exclusions l v h = (Ok tt, <[l := OPackage n c v]> h).
Proof.
  intros H. unfold set_exclusions. now rewrite hrun_bind, (run_get _ _ _ H).
Qed.

(** The copy of a package: where its objects are. *)
Lemma copy_package_exact (p : QrcPackage.t) (depth : nat) (h : heap) (l : loc) :
  holds_package anywhere h p l -> package_depth p <= depth ->
  exists h' cl items,
    copy_package depth l h = (Ok (S (length h)), h') /\ sub h h'
    /\ h' !! S (length h)
       = Some (OPackage (QrcPackage.name p) cl (QrcPackage.exclusions p))
    /\ h' !! cl = Some (OList items)
    /\ S (S (length h)) <= cl /\ length h' = S cl
    /\ Forall2 (holds (between (S (S (length h))) cl) h')
         (QrcPackage.contents p) items.
Proof.
  intros [_ (cl & items & H1 & _ & H3 & H4)] Hd.
  apply max_depth_Forall in Hd.
  unfold copy_package. rewrite hrun_bind, (run_get _ _ _ H1).
  unfold new_QrcPackage. rewrite !hrun_bind. unfold alloc at 1 2.
  rewrite length_app. cbn [length]. rewrite Nat.add_1_r, <- app_assoc. cbn [app].
  set (dflt := QrcPackage.exclusions QrcPackage.init).
  set (h1 := h ++ [OList []; OPackage "" (length h) dflt]).
  assert (L1 : length h1 = S (S (length h))).
  { unfold h1. rewrite length_app. cbn [length]. lia. }
  assert (Hp1 : h1 !! S (length h) = Some (OPackage "" (length h) dflt)).
  { unfold h1. rewrite lookup_app_r by lia.
    replace (S (length h) - length h) with 1 by lia. reflexivity. }
  rewrite hrun_bind, (run_set_package_name _ _ _ _ (QrcPackage.name p) _ Hp1).
  cbv beta iota.
  set (h1' := <[S (length h) := OPackage (QrcPackage.name p) (length h) dflt]> h1).
  assert (S1 : sub h h1').
  { apply sub_insert_fresh; [apply sub_app | lia]. }
  rewrite hrun_bind, (run_items_of h1' cl items) by now apply S1.
  assert (H4' : Forall2 (holds anywhere h1') (QrcPackage.contents p) items).
  { eapply Forall2_impl; [exact H4|]. intros x y. now apply holds_sub. }
  destruct (hmap_copies depth (QrcPackage.contents p)
              (proj2 (Forall_forall _ _)
                 (fun c _ => copy_content_spec c))
              items h1' H4' Hd) as (copies & h2 & E2 & S2 & R2).
  rewrite hrun_bind, E2. rewrite hrun_bind. unfold alloc at 1.
  set (h3 := h2 ++ [OList copies]).
  assert (L1' : length h1' = S (S (length h))).
  { unfold h1'. now rewrite length_insert. }
  pose proof (sub_length _ _ S2) as L2.
  assert (S3 : sub h2 h3) by apply sub_app.
  assert (L3 : length h3 = S (length h2)).
  { unfold h3. rewrite length_app. cbn [length]. lia. }
  assert (Hp3 : h3 !! S (length h)
                = Some (OPackage (QrcPackage.name p) (length h) dflt)).
  { apply S3, S2. unfold h1'. apply list_lookup_insert_eq. lia. }
  rewrite hrun_bind.
  rewrite (run_set_contents_package h3 _ _ (length h2) _ _ Hp3).
  cbv beta iota.
  set (h4 := <[S (length h) := OPackage (QrcPackage.name p) (length h2) dflt]> h3).
  assert (Hp4 : h4 !! S (length h)
                = Some (OPackage (QrcPackage.name p) (length h2) dflt)).
  { unfold h4. apply list_lookup_insert_eq. lia. }
  rewrite hrun_bind,
    (run_set_exclusions _ _ _ _ (QrcPackage.exclusions p) _ Hp4).
  assert (L4 : length h4 = length h3) by (unfold h4; apply length_insert).
  exists (<[S (length h) := OPackage (QrcPackage.name p) (length h2)
                             (QrcPackage.exclusions p)]> h4),
    (length h2), copies.
  split; [reflexivity|]. split; [|split; [|split; [|split; [|split]]]].
  - apply sub_insert_fresh; [|lia]. apply sub_insert_fresh; [|lia].
    apply (sub_trans h h1'); [assumption|]. now apply (sub_trans h1' h2).
  - apply list_lookup_insert_eq. lia.
  - rewrite list_lookup_insert_ne by lia. unfold h4.
    rewrite list_lookup_insert_ne by lia. unfold h3. apply lookup_last.
  - lia.
  - rewrite length_insert. lia.
  - eapply Forall2_impl; [exact R2|]. intros x y Hxy.
    apply (holds_agree _ h4).
    { intros k o [Hk _] Hko. rewrite list_lookup_insert_ne by lia. exact Hko. }
    apply (holds_agree _ h3).
    { intros k o [Hk _] Hko. unfold h4.
      rewrite list_lookup_insert_ne by lia. exact Hko. }
    apply (holds_sub _ h2 h3); [assumption|].
    eapply holds_weaken; [|exact Hxy]. unfold between. intros k. lia.
Qed.

Lemma copy_package_spec (p : QrcPackage.t) (depth : nat) (h : heap) (l : loc) :
  holds_package anywhere h p l -> package_depth p <= depth ->
  exists l' h',
    copy_package depth l h = (Ok l', h') /\ sub h h'
    /\ holds_package (between (length h) (length h')) h' p l'.
Proof.
  intros Hp Hd.
  destruct (copy_package_exact p depth h l Hp Hd)
    as (h' & cl & items & E & Hsub & C1 & C2 & L1 & L2 & R).
  exists (S (length h)), h'. split; [exact E|]. split; [exact Hsub|].
  split; [unfold between; lia|]. exists cl, items.
  split; [exact C1|]. split; [unfold between; lia|]. split; [exact C2|].
  eapply Forall2_impl; [exact R|]. intros x y.
  apply holds_weaken. unfold between. intros k. lia.
Qed.

(** ** What the injection of the PyQt package touches *)

Lemma FsEntry_tree_ind (P : FsEntry -> Prop) :
  (forall name, P (FsFile name)) ->
  (forall name, P (FsDir name None)) ->
  (forall name entries, Forall P entries -> P (FsDir name (Some entries))) ->
  (forall name, P (FsOther name)) ->
  forall e, P e.
Proof.
  intros Hf Hn Hd Ho. fix IH 1. intros [name|name [entries|]|name].
  - apply Hf.
  - apply Hd. induction entries as [|x l IHl]; constructor.
    + apply IH.
    + apply IHl.
  - apply Hn.
  - apply Ho.
Qed.

Lemma touches_only_trans (c : loc) (h1 h2 h3 : heap) :
  touches_only c h1 h2 -> touches_only c h2 h3 -> touches_only c h1 h3.
Proof.
  intros (L1 & F1 & _) (L2 & F2 & I2). split; [lia|]. split; [|assumption].
  intros k Hk Hc. rewrite F2 by lia. now apply F1.
Qed.

Lemma touches_only_refl (c : loc) (h : heap) (items : list loc) :
  h !! c = Some (OList items) -> touches_only c h h.
Proof. intros H. split; [lia|]. split; [reflexivity | now exists items]. Qed.

Lemma uic_loop_eq (pyqt_dir : string) (path : list string) (sub_pkg : loc)
    (entries : list FsEntry) (h : heap) :
  (fix loop (l : list FsEntry) : HM unit :=
     match l with
     | [] => mret tt
     | x :: l' => uic_content_store pyqt_dir path sub_pkg x;; loop l'
     end) entries h
  = hfor_each (uic_content_store pyqt_dir path sub_pkg) entries h.
Proof.
  revert h. induction entries as [|x l IH]; intros h; [reflexivity|].
  cbn [hfor_each]. rewrite !hrun_bind.
  destruct (uic_content_store pyqt_dir path sub_pkg x h) as [[[]|e] h1];
    [apply IH | reflexivity].
Qed.

Lemma run_contents_append (h : heap) (x y c : loc) n i (items : list loc) :
  h !! x = Some (ODirectory n i c) -> h !! c = Some (OList items) ->
  contents_append x y h = (Ok tt, <[c := OList (items ++ [y])]> h).
Proof.
  intros Hx Hc. unfold contents_append.
  rewrite hrun_bind, (run_contents_of_directory _ _ _ _ _ Hx).
  now apply run_list_append.
Qed.

Lemma touches_only_append (h : heap) (c : loc) (items new : list loc)
    (extra : list obj) :
  h !! c = Some (OList items) ->
  touches_only c h (<[c := OList new]> (h ++ extra)).
Proof.
  intros Hc. pose proof (lookup_lt_Some _ _ _ Hc) as Lc.
  split; [rewrite length_insert, length_app; lia|]. split.
  - intros k Hk Hne. rewrite list_lookup_insert_ne by lia.
    now apply lookup_app_l.
  - exists new. apply list_lookup_insert_eq. rewrite length_app. lia.
Qed.

Section UicFrames.
Context (pyqt_dir : string).

Let frames (content : FsEntry) : Prop :=
  forall path dir_pkg h n i c items,
    h !! dir_pkg = Some (ODirectory n i c) -> h !! c = Some (OList items) ->
    touches_only c h (snd (uic_content_store pyqt_dir path dir_pkg content h)).

Lemma uic_loop_frames (entries : list FsEntry) :
  Forall frames entries ->
  forall path dir_pkg h n i c items,
    h !! dir_pkg = Some (ODirectory n i c) -> h !! c = Some (OList items) ->
    touches_only c h
      (snd (hfor_each (uic_content_store pyqt_dir path dir_pkg) entries h)).
Proof.
  induction 1 as [|x l Hx _ IH]; intros path dir_pkg h n i c items Hd Hc.
  - now apply (touches_only_refl c h items).
  - cbn [hfor_each]. rewrite hrun_bind.
    pose proof (Hx path dir_pkg h n i c items Hd Hc) as T1.
    destruct (uic_content_store pyqt_dir path dir_pkg x h) as [[[]|e] h1];
      cbn [snd] in *; [|exact T1].
    destruct T1 as (L1 & F1 & items1 & I1).
    assert (Hd1 : h1 !! dir_pkg = Some (ODirectory n i c)).
    { rewrite F1; [assumption | now apply lookup_lt_Some in Hd |].
      intros ->. rewrite Hc in Hd. discriminate Hd. }
    apply (touches_only_trans c h h1).
    + split; [assumption|]. split; [assumption | now exists items1].
    + now apply (IH path dir_pkg h1 n i c items1).
Qed.

Lemma uic_content_frames (content : FsEntry) : frames content.
Proof.
  induction content as [name|name|name entries IH|name] using FsEntry_tree_ind;
    intros path dir_pkg h n i c items Hd Hc; cbn [uic_content_store].
  - destruct (str_in name _); [now apply (touches_only_refl c h items)|].
    rewrite hrun_bind. unfold new_QrcFile, alloc.
    rewrite (run_contents_append _ dir_pkg (length h) c n i items)
      by now apply lookup_app_l_Some.
    now apply (touches_only_append h c items).
  - destruct (str_in name _); [now apply (touches_only_refl c h items)|].
    rewrite hrun_bind, run_new_QrcDirectory, hrun_bind.
    rewrite (run_contents_append _ dir_pkg (S (length h)) c n i items)
      by now apply lookup_app_l_Some.
    now apply (touches_only_append h c items).
  - destruct (str_in name _); [now apply (touches_only_refl c h items)|].
    rewrite hrun_bind, run_new_QrcDirectory, hrun_bind.
    rewrite (run_contents_append _ dir_pkg (S (length h)) c n i items)
      by now apply lookup_app_l_Some.
    rewrite uic_loop_eq.
    set (h1 := h ++ [OList []; ODirectory name true (length h)]).
    set (h2 := <[c := OList (items ++ [S (length h)])]> h1).
    pose proof (lookup_lt_Some _ _ _ Hc) as Lc.
    assert (T2 : touches_only c h h2) by now apply (touches_only_append h c items).
    assert (L1 : length h1 = S (S (length h))).
    { unfold h1. rewrite length_app. cbn [length]. lia. }
    assert (Hs : h2 !! S (length h) = Some (ODirectory name true (length h))).
    { unfold h2. rewrite list_lookup_insert_ne by lia.
      unfold h1. rewrite lookup_app_r by lia.
      replace (S (length h) - length h) with 1 by lia. reflexivity. }
    assert (Hl : h2 !! length h = Some (OList [])).
    { unfold h2. rewrite list_lookup_insert_ne by lia.
      unfold h1. rewrite lookup_app_r by lia. now rewrite Nat.sub_diag. }
    pose proof (uic_loop_frames entries IH (path ++ [name]) (S (length h)) h2
                  name true (length h) [] Hs Hl) as (L3 & F3 & _).
    destruct T2 as (L2 & F2 & items2 & I2).
    split; [lia|]. split.
    + intros k Hk Hne. rewrite F3 by lia. now apply F2.
    + exists items2. rewrite F3 by lia. exact I2.
  - now apply (touches_only_refl c h items).
Qed.

Lemma add_uic_dir_frames (package : loc) (dirname : string)
    (dir_stack : list string) (listing : option (list FsEntry)) (h : heap)
    n i c items :
  h !! package = Some (ODirectory n i c) -> h !! c = Some (OList items) ->
  touches_only c h
    (snd (_add_uic_dir_store package pyqt_dir dirname dir_stack listing h)).
Proof.
  intros Hd Hc. unfold _add_uic_dir_store.
  rewrite hrun_bind, run_new_QrcDirectory, hrun_bind.
  rewrite (run_contents_append _ package (S (length h)) c n i items)
    by now apply lookup_app_l_Some.
  set (h1 := h ++ [OList []; ODirectory dirname true (length h)]).
  set (h2 := <[c := OList (items ++ [S (length h)])]> h1).
  pose proof (lookup_lt_Some _ _ _ Hc) as Lc.
  assert (T2 : touches_only c h h2) by now apply (touches_only_append h c items).
  destruct listing as [entries|]; [|exact T2].
  assert (L1 : length h1 = S (S (length h))).
  { unfold h1. rewrite length_app. cbn [length]. lia. }
  assert (Hs : h2 !! S (length h) = Some (ODirectory dirname true (length h))).
  { unfold h2. rewrite list_lookup_insert_ne by lia.
    unfold h1. rewrite lookup_app_r by lia.
    replace (S (length h) - length h) with 1 by lia. reflexivity. }
  assert (Hl : h2 !! length h = Some (OList [])).
  { unfold h2. rewrite list_lookup_insert_ne by lia.
    unfold h1. rewrite lookup_app_r by lia. now rewrite Nat.sub_diag. }
  pose proof (uic_loop_frames entries
                (proj2 (Forall_forall _ _) (fun x _ => uic_content_frames x))
                (dir_stack ++ [dirname]) (S (length h)) h2
                dirname true (length h) [] Hs Hl) as (L3 & F3 & _).
  destruct T2 as (L2 & F2 & items2 & I2).
  split; [lia|]. split.
  - intros k Hk Hne. rewrite F3 by lia. now apply F2.
  - exists items2. rewrite F3 by lia. exact I2.
Qed.
End UicFrames.

Lemma run_new_QrcFile (h : heap) n i :
  new_QrcFile n i h = (Ok (length h), h ++ [OFile n i]).
Proof. reflexivity. Qed.

Lemma holds_package_sub (P : loc -> Prop) (h h' : heap) (p : QrcPackage.t)
    (l : loc) :
  sub h h' -> holds_package P h p l -> holds_package P h' p l.
Proof.
  intros S [Hl (cl & items & H1 & H2 & H3 & H4)]. split; [assumption|].
  exists cl, items. split; [|split; [|split]]; try assumption; try now apply S.
  eapply Forall2_impl; [exact H4|]. intros x y. now apply holds_sub.
Qed.

Lemma injection_frame (os : OS) (project : Project.t) (depth : nat)
    (p : QrcPackage.t) (h : heap) (package : loc) :
  holds_package anywhere h p package -> package_depth p <= depth ->
  sub h (snd (with_pyqt_package_store os project depth package h)).
Proof.
  intros Hp Hd. unfold with_pyqt_package_store.
  destruct (copy_package_spec p depth h package Hp Hd)
    as (l' & h1 & E1 & S1 & [[Hl' _] (cl & items & C1 & [Hcl _] & C3 & _)]).
  rewrite hrun_bind, E1.
  destruct (negb (length (Project.pyqt_modules project) =? 0)%nat);
    [|rewrite hrun_bind; exact S1].
  set (pyqt_dir := if Project.application_is_pyqt5 project then "PyQt5" else "PyQt4").
  cbv beta iota. rewrite hrun_bind, hrun_bind, run_new_QrcFile. cbv beta iota.
  rewrite hrun_bind, run_new_QrcDirectory. cbv beta iota.
  set (h2 := h1 ++ [OFile "__init__.py" true]).
  set (h3 := h2 ++ [OList []; ODirectory pyqt_dir true (length h2)]).
  pose proof (sub_length _ _ S1) as L1.
  pose proof (lookup_lt_Some _ _ _ C1) as Ll'.
  pose proof (lookup_lt_Some _ _ _ C3) as Lcl.
  assert (L2 : length h2 = S (length h1)).
  { unfold h2. rewrite length_app. cbn [length]. lia. }
  assert (L3 : length h3 = S (S (length h2))).
  { unfold h3. rewrite length_app. cbn [length]. lia. }
  assert (D3 : h3 !! S (length h2) = Some (ODirectory pyqt_dir true (length h2))).
  { unfold h3. rewrite lookup_app_r by lia.
    replace (S (length h2) - length h2) with 1 by lia. reflexivity. }
  assert (I3 : h3 !! length h2 = Some (OList [])).
  { unfold h3. rewrite lookup_app_r by lia. now rewrite Nat.sub_diag. }
  rewrite hrun_bind, (run_contents_append h3 _ (length h1) _ _ _ _ D3 I3).
  cbv beta iota.
  set (h4 := <[length h2 := OList ([] ++ [length h1])]> h3).
  assert (S13 : sub h1 h3).
  { unfold h3, h2. rewrite <- app_assoc. apply sub_app. }
  assert (C4 : h4 !! l' = Some (OPackage (QrcPackage.name p) cl
                                  (QrcPackage.exclusions p))).
  { unfold h4. rewrite list_lookup_insert_ne by lia. now apply S13. }
  assert (I4 : h4 !! cl = Some (OList items)).
  { unfold h4. rewrite list_lookup_insert_ne by lia. now apply S13. }
  unfold contents_append at 1.
  rewrite hrun_bind, hrun_bind, (run_contents_of_package _ _ _ _ _ C4).
  cbv beta iota. rewrite (run_list_append _ _ _ _ I4). cbv beta iota.
  set (h5 := <[cl := OList (items ++ [S (length h2)])]> h4).
  assert (S5 : sub h h5).
  { unfold h5, h4. apply sub_insert_fresh; [|lia]. apply sub_insert_fresh; [|lia].
    now apply (sub_trans h h1 h3). }
  destruct (str_in "uic" (Project.pyqt_modules project)); [|exact S5].
  assert (D5 : h5 !! S (length h2) = Some (ODirectory pyqt_dir true (length h2))).
  { unfold h5, h4. rewrite !list_lookup_insert_ne by lia. exact D3. }
  assert (I5 : h5 !! length h2 = Some (OList ([] ++ [length h1]))).
  { unfold h5. rewrite list_lookup_insert_ne by lia.
    unfold h4. apply list_lookup_insert_eq. lia. }
  match goal with
  | |- context [_add_uic_dir_store ?a ?b ?c ?d ?e h5] =>
      pose proof (add_uic_dir_frames b a c d e h5 _ _ _ _ D5 I5) as (L6 & F6 & _);
      destruct (_add_uic_dir_store a b c d e h5) as [[[]|e6] h6]
  end; cbn [snd] in *.
  - intros k o Hk.
    pose proof (lookup_lt_Some _ _ _ Hk) as Lk.
    assert (L5 : length h5 = length h3).
    { unfold h5, h4. now rewrite !length_insert. }
    rewrite F6 by lia. now apply S5.
  - intros k o Hk.
    pose proof (lookup_lt_Some _ _ _ Hk) as Lk.
    assert (L5 : length h5 = length h3).
    { unfold h5, h4. now rewrite !length_insert. }
    rewrite F6 by lia. now apply S5.
Qed.

Lemma content_copy_id (c : QrcContent) : content_copy c = c.
Proof.
  induction c as [n i|n i cs IH] using QrcContent_tree_ind; [reflexivity|].
  cbn [content_copy]. f_equal.
  induction IH as [|x l Hx _ IHl]; [reflexivity|].
  cbn [map]. now rewrite Hx, IHl.
Qed.

Lemma package_copy_id (p : QrcPackage.t) : QrcPackage.copy p = p.
Proof.
  destruct p as [n cs xs]. unfold QrcPackage.copy.
  cbn [QrcPackage.name QrcPackage.contents QrcPackage.exclusions]. f_equal.
  induction cs as [|x l IH]; [reflexivity|].
  cbn [map]. now rewrite content_copy_id, IH.
Qed.

(** ** The store follows the values *)

Lemma uic_value_loop_eq (pyqt_dir : string) (path : list string)
    (entries : list FsEntry) :
  (fix loop (l : list FsEntry) : result (list QrcContent) :=
     match l with
     | [] => Ok []
     | x :: l' =>
         a ← uic_content pyqt_dir path x;
         r ← loop l';
         Ok (a ++ r)
     end) entries
  = concat_results (uic_content pyqt_dir path) entries.
Proof.
  induction entries as [|x l IH]; [reflexivity|].
  cbn [concat_results]. now rewrite IH.
Qed.

Lemma touches_only_dir (c d : loc) (h h' : heap) n i items :
  touches_only c h h' ->
  h !! d = Some (ODirectory n i c) -> h !! c = Some (OList items) ->
  h' !! d = Some (ODirectory n i c).
Proof.
  intros (_ & F & _) Hd Hc. rewrite F; [assumption | now apply lookup_lt_Some in Hd |].
  intros ->. rewrite Hc in Hd. discriminate Hd.
Qed.

(** A tree in objects from [a] up to [b] is untouched when only an object
    before [a] changes. *)
Lemma holds_touches (c : loc) (h h' : heap) (a b : nat) (x : QrcContent)
    (l : loc) :
  touches_only c h h' -> c < a -> b <= length h ->
  holds (between a b) h x l -> holds (between a b) h' x l.
Proof.
  intros (_ & F & _) Hc Hb. apply holds_agree.
  intros k o [Hk1 Hk2] Hko. rewrite F by lia. exact Hko.
Qed.

Section UicRefines.
Context (pyqt_dir : string).

Let refines (content : FsEntry) : Prop :=
  forall path dir_pkg h n i c items,
    h !! dir_pkg = Some (ODirectory n i c) -> h !! c = Some (OList items) ->
    match uic_content pyqt_dir path content with
    | Ok cs =>
        exists h' new,
          uic_content_store pyqt_dir path dir_pkg content h = (Ok tt, h')
          /\ h' !! c = Some (OList (items ++ new))
          /\ Forall2 (holds (between (length h) (length h')) h') cs new
    | Raise e =>
        fst (uic_content_store pyqt_dir path dir_pkg content h) = Raise e
    end.

Lemma uic_loop_refines (entries : list FsEntry) :
  Forall refines entries ->
  forall path dir_pkg h n i c items,
    h !! dir_pkg = Some (ODirectory n i c) -> h !! c = Some (OList items) ->
    match concat_results (uic_content pyqt_dir path) entries with
    | Ok cs =>
        exists h' new,
          hfor_each (uic_content_store pyqt_dir path dir_pkg) entries h
          = (Ok tt, h')
          /\ h' !! c = Some (OList (items ++ new))
          /\ Forall2 (holds (between (length h) (length h')) h') cs new
    | Raise e =>
        fst (hfor_each (uic_content_store pyqt_dir path dir_pkg) entries h)
        = Raise e
    end.
Proof.
  induction 1 as [|x l Hx _ IH]; intros path dir_pkg h n i c items Hd Hc.
  - cbn [concat_results hfor_each]. exists h, [].
    split; [reflexivity|]. split; [now rewrite app_nil_r | constructor].
  - cbn [concat_results hfor_each]. rewrite hrun_bind.
    pose proof (Hx path dir_pkg h n i c items Hd Hc) as R1.
    pose proof (uic_content_frames pyqt_dir x path dir_pkg h n i c items Hd Hc)
      as T1.
    destruct (uic_content pyqt_dir path x) as [a|e]; cbn.
    + destruct R1 as (h1 & new1 & E1 & I1 & R1). rewrite E1 in T1 |- *.
      cbn [snd] in T1.
      pose proof (touches_only_dir _ _ _ _ _ _ _ T1 Hd Hc) as Hd1.
      pose proof (IH path dir_pkg h1 n i c (items ++ new1) Hd1 I1) as R2.
      pose proof (uic_loop_frames pyqt_dir l
                    (proj2 (Forall_forall _ _)
                       (fun y _ => uic_content_frames pyqt_dir y))
                    path dir_pkg h1 n i c (items ++ new1) Hd1 I1) as T2.
      destruct (concat_results (uic_content pyqt_dir path) l) as [r|e]; cbn.
      * destruct R2 as (h2 & new2 & E2 & I2 & R2). rewrite E2 in T2 |- *.
        cbn [snd] in T2. exists h2, (new1 ++ new2).
        split; [reflexivity|]. split; [now rewrite app_assoc|].
        pose proof (lookup_lt_Some _ _ _ Hc) as Lc.
        destruct T1 as (L1 & _). pose proof T2 as (L2 & _).
        apply Forall2_app.
        -- eapply Forall2_impl; [exact R1|]. intros y k Hy.
           apply (holds_weaken (between (length h) (length h1)));
             [unfold between; intros ?; lia|].
           now apply (holds_touches c h1 h2).
        -- eapply Forall2_impl; [exact R2|]. intros y k.
           apply holds_weaken. unfold between. intros ?. lia.
      * exact R2.
    + destruct (uic_content_store pyqt_dir path dir_pkg x h) as [[[]|e'] h1];
        cbn [fst] in R1; [discriminate R1 | exact R1].
Qed.

Lemma uic_content_refines (content : FsEntry) : refines content.
Proof.
  induction content as [name|name|name entries IH|name] using FsEntry_tree_ind;
    intros path dir_pkg h n i c items Hd Hc;
    cbn [uic_content uic_content_store];
    pose proof (lookup_lt_Some _ _ _ Hc) as Lc.
  - destruct (str_in name _).
    { exists h, []. split; [reflexivity|].
      split; [now rewrite app_nil_r | constructor]. }
    rewrite hrun_bind, run_new_QrcFile.
    rewrite (run_contents_append _ dir_pkg (length h) c n i items)
      by now apply lookup_app_l_Some.
    eexists _, [length h]. split; [reflexivity|].
    split; [apply list_lookup_insert_eq; rewrite length_app; lia|].
    constructor; [|constructor]. rewrite length_insert, length_app. cbn [length].
    split; [unfold between; lia|].
    rewrite list_lookup_insert_ne by lia. apply lookup_last.
  - destruct (str_in name _).
    { exists h, []. split; [reflexivity|].
      split; [now rewrite app_nil_r | constructor]. }
    rewrite hrun_bind, run_new_QrcDirectory, hrun_bind.
    rewrite (run_contents_append _ dir_pkg (S (length h)) c n i items)
      by now apply lookup_app_l_Some.
    reflexivity.
  - destruct (str_in name _).
    { exists h, []. split; [reflexivity|].
      split; [now rewrite app_nil_r | constructor]. }
    rewrite uic_value_loop_eq.
    rewrite hrun_bind, run_new_QrcDirectory, hrun_bind.
    rewrite (run_contents_append _ dir_pkg (S (length h)) c n i items)
      by now apply lookup_app_l_Some.
    rewrite uic_loop_eq.
    set (h1 := h ++ [OList []; ODirectory name true (length h)]).
    set (h2 := <[c := OList (items ++ [S (length h)])]> h1).
    assert (L1 : length h1 = S (S (length h))).
    { unfold h1. rewrite length_app. cbn [length]. lia. }
    assert (L2 : length h2 = S (S (length h))).
    { unfold h2. now rewrite length_insert. }
    assert (Hs : h2 !! S (length h) = Some (ODirectory name true (length h))).
    { unfold h2. rewrite list_lookup_insert_ne by lia.
      unfold h1. rewrite lookup_app_r by lia.
      replace (S (length h) - length h) with 1 by lia. reflexivity. }
    assert (Hl : h2 !! length h = Some (OList [])).
    { unfold h2. rewrite list_lookup_insert_ne by lia.
      unfold h1. rewrite lookup_app_r by lia. now rewrite Nat.sub_diag. }
    assert (I2 : h2 !! c = Some (OList (items ++ [S (length h)]))).
    { unfold h2. apply list_lookup_insert_eq. lia. }
    pose proof (uic_loop_refines entries IH (path ++ [name]) (S (length h)) h2
                  name true (length h) [] Hs Hl) as R3.
    pose proof (uic_loop_frames pyqt_dir entries
                  (proj2 (Forall_forall _ _)
                     (fun y _ => uic_content_frames pyqt_dir y))
                  (path ++ [name]) (S (length h)) h2
                  name true (length h) [] Hs Hl) as T3.
    destruct (concat_results (uic_content pyqt_dir (path ++ [name])) entries)
      as [cs|e]; cbn.
    + destruct R3 as (h3 & new & E3 & I3 & R3). rewrite E3 in T3 |- *.
      cbn [snd] in T3. destruct T3 as (L3 & F3 & _).
      exists h3, [S (length h)]. split; [reflexivity|].
      split; [rewrite F3 by lia; exact I2|].
      constructor; [|constructor]. apply holds_directory.
      split; [unfold between; lia|]. exists (length h), new.
      split; [rewrite F3 by lia; exact Hs|].
      split; [unfold between; lia|].
      split; [exact I3|].
      eapply Forall2_impl; [exact R3|]. intros y k.
      apply holds_weaken. unfold between. intros ?. lia.
    + exact R3.
  - exists h, []. split; [reflexivity|].
    split; [now rewrite app_nil_r | constructor].
Qed.

Lemma add_uic_dir_refines (package : loc) (dirname : string)
    (dir_stack : list string) (listing : option (list FsEntry)) (h : heap)
    n i c items :
  h !! package = Some (ODirectory n i c) -> h !! c = Some (OList items) ->
  match _add_uic_dir pyqt_dir dirname dir_stack listing with
  | Ok d =>
      exists h',
        _add_uic_dir_store package pyqt_dir dirname dir_stack listing h
        = (Ok tt, h')
        /\ h' !! c = Some (OList (items ++ [S (length h)]))
        /\ holds (between (length h) (length h')) h' d (S (length h))
  | Raise e =>
      fst (_add_uic_dir_store package pyqt_dir dirname dir_stack listing h)
      = Raise e
  end.
Proof.
  intros Hd Hc. pose proof (lookup_lt_Some _ _ _ Hc) as Lc.
  unfold _add_uic_dir, _add_uic_dir_store.
  rewrite hrun_bind, run_new_QrcDirectory, hrun_bind.
  rewrite (run_contents_append _ package (S (length h)) c n i items)
    by now apply lookup_app_l_Some.
  cbv zeta.
  destruct listing as [entries|]; [|reflexivity].
  set (h1 := h ++ [OList []; ODirectory dirname true (length h)]).
  set (h2 := <[c := OList (items ++ [S (length h)])]> h1).
  assert (L1 : length h1 = S (S (length h))).
  { unfold h1. rewrite length_app. cbn [length]. lia. }
  assert (L2 : length h2 = S (S (length h))).
  { unfold h2. now rewrite length_insert. }
  assert (Hs : h2 !! S (length h) = Some (ODirectory dirname true (length h))).
  { unfold h2. rewrite list_lookup_insert_ne by lia.
    unfold h1. rewrite lookup_app_r by lia.
    replace (S (length h) - length h) with 1 by lia. reflexivity. }
  assert (Hl : h2 !! length h = Some (OList [])).
  { unfold h2. rewrite list_lookup_insert_ne by lia.
    unfold h1. rewrite lookup_app_r by lia. now rewrite Nat.sub_diag. }
  assert (I2 : h2 !! c = Some (OList (items ++ [S (length h)]))).
  { unfold h2. apply list_lookup_insert_eq. lia. }
  pose proof (uic_loop_refines entries
                (proj2 (Forall_forall _ _) (fun y _ => uic_content_refines y))
                (dir_stack ++ [dirname]) (S (length h)) h2
                dirname true (length h) [] Hs Hl) as R3.
  pose proof (uic_loop_frames pyqt_dir entries
                (proj2 (Forall_forall _ _)
                   (fun y _ => uic_content_frames pyqt_dir y))
                (dir_stack ++ [dirname]) (S (length h)) h2
                dirname true (length h) [] Hs Hl) as T3.
  destruct (concat_results (uic_content pyqt_dir (dir_stack ++ [dirname]))
              entries) as [cs|e]; cbn.
  - destruct R3 as (h3 & new & E3 & I3 & R3). rewrite E3 in T3 |- *.
    cbn [snd] in T3. destruct T3 as (L3 & F3 & _).
    exists h3. split; [reflexivity|].
    split; [rewrite F3 by lia; exact I2|].
    apply holds_directory.
    split; [unfold between; lia|]. exists (length h), new.
    split; [rewrite F3 by lia; exact Hs|].
    split; [unfold between; lia|].
    split; [exact I3|].
    eapply Forall2_impl; [exact R3|]. intros y k.
    apply holds_weaken. unfold between. intros ?. lia.
  - exact R3.
Qed.
End UicRefines.

Lemma with_pyqt_package_refines (os : OS) (project : Project.t) (depth : nat)
    (p : QrcPackage.t) (h : heap) (package : loc) :
  holds_package anywhere h p package -> package_depth p <= depth ->
  match with_pyqt_package os project p with
  | Ok q =>
      exists l' h',
        with_pyqt_package_store os project depth package h = (Ok l', h')
        /\ holds_package (between (length h) (length h')) h' q l'
  | Raise e =>
      fst (with_pyqt_package_store os project depth package h) = Raise e
  end.
Proof.
  intros Hp Hd. unfold with_pyqt_package, with_pyqt_package_store.
  rewrite package_copy_id. cbv zeta.
  destruct (copy_package_exact p depth h package Hp Hd)
    as (h1 & cl & items & E1 & S1 & C1 & C3 & Lcl & L1 & R1).
  rewrite hrun_bind, E1.
  destruct (negb (length (Project.pyqt_modules project) =? 0)%nat).
  2:{ rewrite hrun_bind. exists (S (length h)), h1. split; [reflexivity|].
      split; [unfold between; lia|]. exists cl, items.
      split; [exact C1|]. split; [unfold between; lia|]. split; [exact C3|].
      eapply Forall2_impl; [exact R1|]. intros x y.
      apply holds_weaken. unfold between. intros k. lia. }
  set (pyqt_dir := if Project.application_is_pyqt5 project then "PyQt5" else "PyQt4").
  set (dir := OsPath.join (Project.python_target_stdlib_dir project)
                ["site-packages"; pyqt_dir]).
  match goal with
  | |- context [fst ?r] => remember r as run eqn:Erun
  end.
  rewrite hrun_bind, hrun_bind, run_new_QrcFile in Erun. cbv beta iota in Erun.
  rewrite hrun_bind, run_new_QrcDirectory in Erun. cbv beta iota in Erun.
  set (h2 := h1 ++ [OFile "__init__.py" true]) in *.
  set (h3 := h2 ++ [OList []; ODirectory pyqt_dir true (length h2)]) in *.
  pose proof (sub_length _ _ S1) as Lh.
  assert (L2 : length h2 = S (length h1)).
  { unfold h2. rewrite length_app. cbn [length]. lia. }
  assert (L3 : length h3 = S (S (length h2))).
  { unfold h3. rewrite length_app. cbn [length]. lia. }
  assert (D3 : h3 !! S (length h2) = Some (ODirectory pyqt_dir true (length h2))).
  { unfold h3. rewrite lookup_app_r by lia.
    replace (S (length h2) - length h2) with 1 by lia. reflexivity. }
  assert (I3 : h3 !! length h2 = Some (OList [])).
  { unfold h3. rewrite lookup_app_r by lia. now rewrite Nat.sub_diag. }
  rewrite hrun_bind, (run_contents_append h3 _ (length h1) _ _ _ _ D3 I3)
    in Erun.
  cbv beta iota in Erun.
  set (h4 := <[length h2 := OList ([] ++ [length h1])]> h3) in *.
  assert (S13 : sub h1 h3).
  { unfold h3, h2. rewrite <- app_assoc. apply sub_app. }
  assert (C4 : h4 !! S (length h)
               = Some (OPackage (QrcPackage.name p) cl
                         (QrcPackage.exclusions p))).
  { unfold h4. rewrite list_lookup_insert_ne by lia. now apply S13. }
  assert (I4 : h4 !! cl = Some (OList items)).
  { unfold h4. rewrite list_lookup_insert_ne by lia. now apply S13. }
  unfold contents_append at 1 in Erun.
  rewrite hrun_bind, hrun_bind, (run_contents_of_package _ _ _ _ _ C4) in Erun.
  cbv beta iota in Erun. rewrite (run_list_append _ _ _ _ I4) in Erun.
  cbv beta iota in Erun.
  set (h5 := <[cl := OList (items ++ [S (length h2)])]> h4) in *.
  assert (L5 : length h5 = length h3).
  { unfold h5, h4. now rewrite !length_insert. }
  assert (C5 : h5 !! S (length h)
               = Some (OPackage (QrcPackage.name p) cl
                         (QrcPackage.exclusions p))).
  { unfold h5. rewrite list_lookup_insert_ne by lia. exact C4. }
  assert (I5 : h5 !! cl = Some (OList (items ++ [S (length h2)]))).
  { unfold h5. apply list_lookup_insert_eq. unfold h4.
    rewrite length_insert. lia. }
  assert (D5 : h5 !! S (length h2) = Some (ODirectory pyqt_dir true (length h2))).
  { unfold h5, h4. rewrite !list_lookup_insert_ne by lia. exact D3. }
  assert (J5 : h5 !! length h2 = Some (OList ([] ++ [length h1]))).
  { unfold h5. rewrite list_lookup_insert_ne by lia.
    unfold h4. apply list_lookup_insert_eq. lia. }
  assert (F5 : h5 !! length h1 = Some (OFile "__init__.py" true)).
  { unfold h5, h4. rewrite !list_lookup_insert_ne by lia.
    unfold h3. rewrite lookup_app_l by lia. unfold h2. apply lookup_last. }
  assert (R5 : Forall2 (holds (between (S (S (length h))) cl) h5)
                 (QrcPackage.contents p) items).
  { eapply Forall2_impl; [exact R1|]. intros x y.
    apply holds_agree. intros k o [Hk1 Hk2] Hko.
    unfold h5, h4. rewrite !list_lookup_insert_ne by lia. now apply S13. }
  destruct (str_in "uic" (Project.pyqt_modules project)).
  - pose proof (add_uic_dir_refines dir (S (length h2)) "uic" []
                  (listdir os (OsPath.join dir ["uic"])) h5
                  pyqt_dir true (length h2) ([] ++ [length h1]) D5 J5) as R6.
    pose proof (add_uic_dir_frames dir (S (length h2)) "uic" []
                  (listdir os (OsPath.join dir ["uic"])) h5
                  pyqt_dir true (length h2) ([] ++ [length h1]) D5 J5) as T6.
    destruct (_add_uic_dir dir "uic" [] (listdir os (OsPath.join dir ["uic"])))
      as [d|e].
    + rewrite !result_bind_Ok.
      destruct R6 as (h6 & E6 & I6 & R6). rewrite E6 in Erun, T6.
      cbn [snd] in T6. destruct T6 as (L6 & F6 & _).
      exists (S (length h)), h6. split; [exact Erun|].
      split; [unfold between; lia|].
      exists cl, (items ++ [S (length h2)]).
      split; [rewrite F6 by lia; exact C5|].
      split; [unfold between; lia|].
      split; [rewrite F6 by lia; exact I5|].
      apply Forall2_app.
      * eapply Forall2_impl; [exact R5|]. intros x y Hxy.
        apply (holds_weaken (between (S (S (length h))) cl));
          [unfold between; intros ?; lia|].
        revert Hxy. apply holds_agree. intros k o [Hk1 Hk2] Hko.
        rewrite F6 by lia. exact Hko.
      * constructor; [|constructor]. apply holds_directory.
        split; [unfold between; lia|].
        exists (length h2), [length h1; S (length h5)].
        split; [rewrite F6 by lia; exact D5|].
        split; [unfold between; lia|].
        split; [exact I6|].
        constructor; [|constructor; [|constructor]].
        -- split; [unfold between; lia|]. cbn [holds].
           rewrite F6 by lia. exact F5.
        -- revert R6. apply holds_weaken. unfold between. intros ?. lia.
    + subst run.
      destruct (_add_uic_dir_store (S (length h2)) dir "uic" []
                  (listdir os (OsPath.join dir ["uic"])) h5) as [[[]|e'] h6];
        cbn [fst] in R6; [discriminate R6|].
      injection R6 as ->. reflexivity.
  - rewrite !result_bind_Ok.
    exists (S (length h)), h5. split; [exact Erun|].
    split; [unfold between; lia|].
    exists cl, (items ++ [S (length h2)]).
    split; [exact C5|].
    split; [unfold between; lia|].
    split; [exact I5|].
    apply Forall2_app.
    + eapply Forall2_impl; [exact R5|]. intros x y.
      apply holds_weaken. unfold between. intros ?. lia.
    + constructor; [|constructor]. apply holds_directory.
      split; [unfold between; lia|].
      exists (length h2), [length h1].
      split; [exact D5|].
      split; [unfold between; lia|].
      split; [exact J5|].
      constructor; [|constructor].
      split; [unfold between; lia | exact F5].
Qed.

(** C10.  [QrcPackage.copy] gives a package equal to the original; on the
    store, for a package that the store holds, the copy returns, the store
    holds the same package at the new address in objects that are all new,
    and every old object is unchanged; and the statements of [build] that
    copy the package and add the PyQt directory, with the uic directory,
    leave every old object unchanged, so every package and tree that the
    store held is still held as it was, while the package that they give,
    the one that [with_pyqt_package] computes, is held in new objects
    only. *)
Theorem copy_is_deep (h : heap) (package : loc) (p : QrcPackage.t)
    (depth : nat) :
  holds_package anywhere h p package -> package_depth p <= depth ->
  QrcPackage.copy p = p
  /\ (exists l' h',
        copy_package depth package h = (Ok l', h')
        /\ holds_package (between (length h) (length h')) h' p l'
        /\ sub h h')
  /\ (forall os project,
        let r := with_pyqt_package_store os project depth package h in
        let h' := snd r in
        sub h h'
        /\ (forall q l, holds_package anywhere h q l ->
                        holds_package anywhere h' q l)
        /\ (forall c l, holds anywhere h c l -> holds anywhere h' c l)
        /\ match with_pyqt_package os project p with
           | Ok q =>
               exists l',
                 fst r = Ok l'
                 /\ holds_package (between (length h) (length h')) h' q l'
           | Raise e => fst r = Raise e
           end).
Proof.
  intros Hp Hd. split; [apply package_copy_id|]. split.
  - destruct (copy_package_spec p depth h package Hp Hd)
      as (l' & h' & E & Hsub & R).
    now exists l', h'.
  - intros os project r h'.
    assert (Hsub : sub h h') by now apply (injection_frame os project depth p).
    split; [exact Hsub|]. split; [|split].
    + intros q l. now apply holds_package_sub.
    + intros c l. now apply holds_sub.
    + pose proof (with_pyqt_package_refines os project depth p h package Hp Hd)
        as R.
      destruct (with_pyqt_package os project p) as [q|e]; [|exact R].
      destruct R as (l' & h1 & E & R). exists l'. subst h' r.
      rewrite E. split; [reflexivity | exact R].
Qed.

Lemma copy_is_deep_witness :
  holds_package anywhere sample_store sample_package 1
  /\ package_depth sample_package <= 2
  /\ (exists l' h',
        copy_package 2 1 sample_store = (Ok l', h')
        /\ holds_package (between (length sample_store) (length h')) h'
             sample_package l'
        /\ sub sample_store h')
  /\ (let r :=
        with_pyqt_package_store os_uic
          (with_application [] ["QtCore"; "uic"] []) 2 1 sample_store in
      sub sample_store (snd r)
      /\ holds_package anywhere (snd r) sample_package 1
      /\ exists l',
           fst r = Ok l'
           /\ holds_package (between (length sample_store) (length (snd r)))
                (snd r) sample_package_with_pyqt l').
Proof.
  assert (H : holds_package anywhere sample_store sample_package 1).
  { split; [exact I|]. exists 0, [2; 3].
    split; [reflexivity|]. split; [exact I|]. split; [reflexivity|].
    constructor.
    - split; [exact I | reflexivity].
    - constructor; [|constructor].
      apply holds_directory. split; [exact I|]. exists 4, [5].
      split; [reflexivity|]. split; [exact I|]. split; [reflexivity|].
      constructor; [|constructor]. split; [exact I | reflexivity]. }
  assert (Hd : package_depth sample_package <= 2) by (cbn; lia).
  destruct (copy_is_deep sample_store 1 sample_package 2 H Hd)
    as (_ & Hcopy & Hinj).
  split; [exact H|]. split; [exact Hd|]. split; [exact Hcopy|].
  intros r.
  destruct (Hinj os_uic (with_application [] ["QtCore"; "uic"] []))
    as (Hsub & Hpkg & _ & Href).
  split; [exact Hsub|]. split; [now apply Hpkg|].
  assert (E : with_pyqt_package os_uic
                (with_application [] ["QtCore"; "uic"] []) sample_package
              = Ok sample_package_with_pyqt) by (vm_compute; reflexivity).
  rewrite E in Href. exact Href.
Defined.

(* ================================================================== *)
(** * Part III: more of the builder and of the project *)
(* ================================================================== *)

(** ** More on paths *)


Lemma str_any_app (p : ascii -> bool) (s t : string) :
  str_any p (s +:+ t) = str_any p s || str_any p t.
Proof.
  induction s as [|a s IH]; [reflexivity|].
  change (String a s +:+ t) with (String a (s +:+ t)).
  cbn [str_any]. now rewrite IH, orb_assoc.
Qed.

Lemma rfind_split_parts (c : ascii) (s h t : string) :
  Py.rfind_split c s = Some (h, t) ->
  s = h +:+ t /\ str_any (fun a => Ascii.eqb a c) t = false.
Proof.
  revert h t. induction s as [|a s IH]; intros h t; cbn [Py.rfind_split].
  - intros H. discriminate H.
  - destruct (Py.rfind_split c s) as [[h' t']|] eqn:E.
    + intros H. injection H as <- <-. destruct (IH h' t' eq_refl) as [-> Ht].
      now split.
    + destruct (Ascii.eqb a c) eqn:Ea; intros H; [|discriminate H].
      injection H as <- <-. split; [reflexivity|].
      clear IH Ea. induction s as [|x s IHs]; [reflexivity|].
      cbn [Py.rfind_split] in E. cbn [str_any].
      destruct (Py.rfind_split c s) as [[h' t']|]; [discriminate E|].
      destruct (Ascii.eqb x c); [discriminate E|]. now apply IHs.
Qed.

Lemma rfind_split_none (c : ascii) (s : string) :
  Py.rfind_split c s = None <-> str_any (fun a => Ascii.eqb a c) s = false.
Proof.
  induction s as [|a s IH]; cbn [Py.rfind_split str_any]; [tauto|].
  destruct (Py.rfind_split c s) as [[h t]|].
  - split; [intros H; discriminate H|]. intros H.
    apply orb_false_iff in H as [_ H]. apply IH in H. discriminate H.
  - destruct (Ascii.eqb a c); cbn [orb].
    + split; intros H; discriminate H.
    + split; intros _; [now apply IH | reflexivity].
Qed.

Lemma basename_no_sep (p : string) :
  str_any is_sep (OsPath.basename p) = false.
Proof.
  unfold OsPath.basename, Py.split_after_last.
  destruct (Py.rfind_split OsPath.sep p) as [[h t]|] eqn:E; cbn [snd].
  - now apply rfind_split_parts in E as [_ E].
  - now apply rfind_split_none in E.
Qed.

Lemma str_any_substring (p : ascii -> bool) (n : nat) (s : string) :
  str_any p s = false -> str_any p (substring 0 n s) = false.
Proof.
  revert n. induction s as [|a s IH]; intros [|n]; cbn [substring str_any];
    try reflexivity.
  intros H. apply orb_false_iff in H as [-> H]. now apply IH.
Qed.

Lemma splitext_no_sep (b : string) :
  str_any is_sep b = false -> str_any is_sep (fst (OsPath.splitext b)) = false.
Proof.
  intros H. unfold OsPath.splitext, Py.split_after_last.
  rewrite (proj2 (rfind_split_none OsPath.sep b) H).
  destruct (Py.rfind_split "." b) as [[root_dot ext]|] eqn:E; [|exact H].
  destruct (OsPath.all_dots (Py.drop_last 1 root_dot));
    cbn [fst]; [exact H|].
  apply rfind_split_parts in E as [-> _].
  rewrite str_any_app in H. apply orb_false_iff in H as [H _].
  unfold Py.drop_last. change ("" +:+ ?x) with x.
  now apply str_any_substring.
Qed.

(** X16.  [Project.get_executable_basename] is the application name when
    there is one; otherwise it is taken from the script, or from the name of
    the application package when there is no script, and then it holds no
    path separator; with none of the three it is the empty string. *)
Theorem executable_basename_plain (os : OS) (self : Project.t) :
  (Project.application_name self <> "" ->
   get_executable_basename os self = Project.application_name self)
  /\ (Project.application_name self = "" ->
      str_any is_sep (get_executable_basename os self) = false
      /\ (Project.application_script self <> "" ->
          get_executable_basename os self
          = fst (OsPath.splitext
                   (OsPath.basename
                      (absolute_path os self
                         (Project.application_script self)))))
      /\ (Project.application_script self = "" ->
          QrcPackage.name (Project.application_package self) = "" ->
          get_executable_basename os self = "")).
Proof.
  unfold get_executable_basename. split.
  - intros H. now destruct (String.eqb_spec (Project.application_name self) "").
  - intros ->. cbn [negb String.eqb]. split; [|split].
    + destruct (String.eqb _ ""); [reflexivity|].
      apply splitext_no_sep, basename_no_sep.
    + intros H.
      destruct (String.eqb_spec (Project.application_script self) "") as [E|_];
        [contradiction|].
      now destruct (String.eqb_spec (Project.application_script self) "").
    + intros -> ->. reflexivity.
Qed.

Lemma executable_basename_plain_witness :
  let self :=
    Project.mk false "/proj/app.pdy" "" true QrcPackage.init "src/main.py" ""
      "build" [] [] "" "" "" "" "" "" [] QrcPackage.init [] "" in
  Project.application_name self = ""
  /\ Project.application_script self <> ""
  /\ get_executable_basename os_ok self = "main".
Proof.
  intros self. split; [reflexivity|]. split; [cbn; discriminate|].
  destruct (executable_basename_plain os_ok self) as [_ H].
  destruct (H eq_refl) as (_ & Hs & _).
  rewrite Hs; [reflexivity | cbn; discriminate].
Defined.

(** ** Absolute paths *)

Lemma rstrip_char_head (c a : ascii) (s : string) :
  Py.rstrip_char c (String a s) = ""
  \/ exists r, Py.rstrip_char c (String a s) = String a r.
Proof.
  cbn [Py.rstrip_char]. destruct (Py.rstrip_char c s) as [|b r].
  - destruct (Ascii.eqb a c); [now left | right; now exists ""].
  - right. now exists (String b r).
Qed.

Lemma isabs_cons (p : string) :
  OsPath.isabs p = true <-> exists r, p = String "/" r.
Proof.
  unfold OsPath.isabs, Py.startswith. destruct p as [|a p]; cbn [String.prefix].
  - split; [intros H; discriminate H | intros [r H]; discriminate H].
  - destruct (Ascii.ascii_dec "/" a) as [<-|Hne].
    + split; [intros _; now exists p | intros _; now destruct p].
    + split; [intros H; discriminate H|]. intros [r H]. injection H as -> _.
      contradiction.
Qed.

Lemma dirname_isabs (p : string) :
  OsPath.isabs p = true -> OsPath.isabs (OsPath.dirname p) = true.
Proof.
  intros H. apply isabs_cons in H as [r ->].
  unfold OsPath.dirname, OsPath.split, Py.split_after_last.
  assert (Hh : exists h t, Py.rfind_split OsPath.sep (String "/" r)
                           = Some (String "/" h, t)).
  { cbn [Py.rfind_split]. destruct (Py.rfind_split OsPath.sep r) as [[h t]|].
    - now exists h, t.
    - now exists "", r. }
  destruct Hh as (h & t & ->). cbn [fst]. unfold OsPath.strip_head.
  destruct (rstrip_char_head OsPath.sep "/" h) as [->|[r' ->]];
    apply isabs_cons; eauto.
Qed.

Lemma join_isabs (d fn : string) :
  OsPath.isabs d = true -> OsPath.isabs (OsPath.join d [fn]) = true.
Proof.
  intros H. unfold OsPath.join. cbn [fold_left]. unfold OsPath.join2.
  destruct (Py.startswith fn "/") eqn:E; [exact E|].
  apply isabs_cons in H as [r ->].
  destruct (_ || _); apply isabs_cons; eexists; reflexivity.
Qed.



(** ** Names that collide *)

Lemma string_length_app (s t : string) :
  String.length (s +:+ t) = String.length s + String.length t.
Proof.
  induction s as [|a s IH]; [reflexivity|].
  change (String a s +:+ t) with (String a (s +:+ t)).
  cbn [String.length]. now rewrite IH.
Qed.

Lemma endswith_app (stem suf : string) : Py.endswith (stem +:+ suf) suf = true.
Proof.
  induction stem as [|a s IH].
  - change ("" +:+ suf) with suf. destruct suf; cbn [Py.endswith];
      now rewrite String.eqb_refl.
  - change (String a s +:+ suf) with (String a (s +:+ suf)).
    cbn [Py.endswith]. rewrite IH. now destruct (String.eqb _ suf).
Qed.

Lemma pyw_not_py (stem : string) : Py.endswith (stem +:+ ".pyw") ".py" = false.
Proof.
  induction stem as [|a s IH]; [reflexivity|].
  change (String a s +:+ ".pyw") with (String a (s +:+ ".pyw")).
  cbn [Py.endswith]. rewrite IH.
  destruct (String.eqb_spec (String a (s +:+ ".pyw")) ".py") as [E|_];
    [|reflexivity].
  apply (f_equal String.length) in E. cbn [String.length] in E.
  rewrite string_length_app in E. cbn [String.length] in E. lia.
Qed.

(** X11.  Two source files of one directory whose names differ only in the
    extensions ".py" and ".pyw" get the same destination name, with ".pyf":
    [_write_package_contents] writes the same [<file>] entry for both and
    freezes both to the same output file, so the second replaces the
    first. *)
Theorem py_and_pyw_collide (os : OS) (b : Builder.t)
    (src_root_dir freeze f : string) (c : dir_context) (stem : string)
    (tr1 tr2 : trace) :
  let entry := file_entry (file_path_of c (stem +:+ ".pyf")) in
  let output := OsPath.join (dst_dir c) [stem +:+ ".pyf"] in
  dst_file_of (stem +:+ ".py") = (stem +:+ ".pyf", true)
  /\ dst_file_of (stem +:+ ".pyw") = (stem +:+ ".pyf", true)
  /\ (exists rest,
        snd (write_file os b src_root_dir freeze f c (stem +:+ ".py") tr1)
        = tr1 ++ Write f entry :: rest
        /\ In (CheckOutput
                 (freeze_args b output
                    (OsPath.join src_root_dir [dir_tail c; stem +:+ ".py"])
                    freeze false true)) rest)
  /\ (exists rest,
        snd (write_file os b src_root_dir freeze f c (stem +:+ ".pyw") tr2)
        = tr2 ++ Write f entry :: rest
        /\ In (CheckOutput
                 (freeze_args b output
                    (OsPath.join src_root_dir [dir_tail c; stem +:+ ".pyw"])
                    freeze false true)) rest).
Proof.
  intros entry output.
  assert (E1 : dst_file_of (stem +:+ ".py") = (stem +:+ ".pyf", true)).
  { unfold dst_file_of. rewrite endswith_app.
    pose proof (drop_last_append stem ".py") as D.
    cbn [String.length] in D. now rewrite D. }
  assert (E2 : dst_file_of (stem +:+ ".pyw") = (stem +:+ ".pyf", true)).
  { unfold dst_file_of. rewrite pyw_not_py, endswith_app.
    pose proof (drop_last_append stem ".pyw") as D.
    cbn [String.length] in D. now rewrite D. }
  split; [exact E1|]. split; [exact E2|]. split.
  - destruct (write_file_events os b src_root_dir freeze f c (stem +:+ ".py") tr1)
      as (rest & H & _ & Hin).
    rewrite E1 in H, Hin. cbn [fst snd] in H, Hin. now exists rest.
  - destruct (write_file_events os b src_root_dir freeze f c (stem +:+ ".pyw") tr2)
      as (rest & H & _ & Hin).
    rewrite E2 in H, Hin. cbn [fst snd] in H, Hin. now exists rest.
Qed.

(** ** Characters and digits *)

Lemma digit_facts (a : ascii) :
  Py.is_digit a = true ->
  Py.is_space a = false /\ Ascii.eqb a "." = false /\ Ascii.eqb a "-" = false
  /\ Ascii.eqb a "+" = false /\ Ascii.eqb a "/" = false
  /\ (0 <= digit_value a < 10)%Z.
Proof.
  destruct a as [[] [] [] [] [] [] [] []]; intros H;
    try discriminate H; vm_compute; repeat split; congruence.
Qed.

Lemma digits_value_cons (acc : Z) (a : ascii) (s : string) :
  Py.digits_value acc (String a s)
  = if Py.is_digit a
    then Py.digits_value (10 * acc + Z.of_nat (nat_of_ascii a - 48)) s
    else if Ascii.eqb a "_" then
      match s with
      | String b _ => if Py.is_digit b then Py.digits_value acc s else None
      | EmptyString => None
      end
    else None.
Proof. now destruct s. Qed.

Lemma digits_value_nonneg (s : string) (acc v : Z) :
  (0 <= acc)%Z -> Py.digits_value acc s = Some v -> (0 <= v)%Z.
Proof.
  revert acc. induction s as [|a s IH]; intros acc Hacc H.
  - injection H as <-. exact Hacc.
  - rewrite digits_value_cons in H. destruct (Py.is_digit a).
    + apply (IH (10 * acc + Z.of_nat (nat_of_ascii a - 48))%Z); [lia | exact H].
    + destruct (Ascii.eqb a "_"); [|discriminate H].
      destruct s as [|b s']; [discriminate H|].
      destruct (Py.is_digit b); [|discriminate H].
      now apply (IH acc).
Qed.

Lemma numeral_nonneg (s : string) (v : Z) :
  Py.numeral s = Some v -> (0 <= v)%Z.
Proof.
  unfold Py.numeral. destruct s as [|a s]; [intros H; discriminate H|].
  destruct (Py.is_digit a && _); [|intros H; discriminate H].
  apply digits_value_nonneg. lia.
Qed.

Lemma lstrip_not_space (a : ascii) (s : string) :
  Py.is_space a = false -> Py.lstrip (String a s) = String a s.
Proof. intros H. cbn [Py.lstrip]. now rewrite H. Qed.

Lemma rstrip_head (a : ascii) (s : string) :
  Py.is_space a = false -> exists r, Py.rstrip (String a s) = String a r.
Proof.
  intros H. cbn [Py.rstrip]. destruct (Py.rstrip s) as [|b r].
  - rewrite H. now exists "".
  - now exists (String b r).
Qed.

Lemma int_of_str_digit_head (a : ascii) (s : string) (v : Z) :
  Py.is_digit a = true -> Py.int_of_str (String a s) = Some v -> (0 <= v)%Z.
Proof.
  intros Ha. destruct (digit_facts a Ha) as (Hs & _ & Hm & Hp & _).
  unfold Py.int_of_str, Py.strip. rewrite (lstrip_not_space a s Hs).
  destruct (rstrip_head a s Hs) as [r ->]. rewrite Hm, Hp.
  apply numeral_nonneg.
Qed.

Lemma leading_digit_cases (s : string) :
  strip_to_leading_digit s = ""
  \/ exists a r, strip_to_leading_digit s = String a r /\ Py.is_digit a = true.
Proof.
  induction s as [|a s IH]; [now left|]. cbn [strip_to_leading_digit].
  destruct (Py.is_digit a) eqn:E; [|exact IH]. right. now exists a, s.
Qed.

Lemma leading_no_digit (s : string) :
  str_any Py.is_digit s = false -> strip_to_leading_digit s = "".
Proof.
  induction s as [|a s IH]; [reflexivity|]. cbn [str_any strip_to_leading_digit].
  intros H. apply orb_false_iff in H as [-> H]. now apply IH.
Qed.

Lemma trailing_digit_head (a : ascii) (s : string) :
  Py.is_digit a = true ->
  exists r, strip_to_trailing_digit (String a s) = String a r.
Proof.
  intros H. cbn [strip_to_trailing_digit].
  destruct (strip_to_trailing_digit s) as [|b r].
  - rewrite H. now exists "".
  - now exists (String b r).
Qed.

Lemma trailing_no_digit (s : string) :
  str_any Py.is_digit s = false -> strip_to_trailing_digit s = "".
Proof.
  induction s as [|a s IH]; [reflexivity|]. cbn [str_any strip_to_trailing_digit].
  intros H. apply orb_false_iff in H as [Ha H]. now rewrite (IH H), Ha.
Qed.

Lemma leading_app (prefix s : string) :
  str_any Py.is_digit prefix = false ->
  strip_to_leading_digit (prefix +:+ s) = strip_to_leading_digit s.
Proof.
  induction prefix as [|a p IH]; [reflexivity|]. cbn [str_any].
  intros H. apply orb_false_iff in H as [Ha H].
  change (String a p +:+ s) with (String a (p +:+ s)).
  cbn [strip_to_leading_digit]. rewrite Ha. now apply IH.
Qed.

(** X13.  [Project.python_target_version] gives either no version at all
    or a major number that is not negative with a minor number from 0 to
    9: the digits of the library name are read as one number whose last
    digit is the minor version.  With a library whose base name is in
    ASCII and has no digit, there is no version. *)
Theorem target_version_shape (self : Project.t) :
  match python_target_version self with
  | (Some major, Some minor) => (0 <= major)%Z /\ (0 <= minor < 10)%Z
  | (None, None) => True
  | _ => False
  end
  /\ (is_ascii (OsPath.basename (Project.python_target_library self)) = true ->
      str_any Py.is_digit (OsPath.basename (Project.python_target_library self))
      = false ->
      python_target_version self = (None, None)).
Proof.
  unfold python_target_version. split.
  - destruct (negb _); [|exact I].
    destruct (leading_digit_cases
                (OsPath.basename (Project.python_target_library self)))
      as [->|(a & r & -> & Ha)]; [exact I|].
    destruct (trailing_digit_head a r Ha) as [r' ->].
    destruct (digit_facts a Ha) as (_ & Hdot & _).
    cbn [remove_char]. rewrite Hdot.
    destruct (Py.int_of_str _) as [v|] eqn:E; [|exact I].
    apply (int_of_str_digit_head a _ v Ha) in E.
    split; [apply Z.div_pos; lia | apply Z.mod_pos_bound; lia].
  - intros _ H. destruct (negb _); [|reflexivity].
    now rewrite (leading_no_digit _ H).
Qed.

Lemma trailing_app (s suffix : string) :
  str_any Py.is_digit suffix = false ->
  strip_to_trailing_digit (s +:+ suffix) = strip_to_trailing_digit s.
Proof.
  intros H. induction s as [|a s IH].
  - now apply trailing_no_digit.
  - change (String a s +:+ suffix) with (String a (s +:+ suffix)).
    cbn [strip_to_trailing_digit]. now rewrite IH.
Qed.

(** X14.  For a library whose base name is in ASCII and is a prefix
    without digits, one digit, a dot, one digit and a suffix without
    digits, such as libpython3.4.so, [Project.python_target_version] is the
    pair of the two digits. *)
Theorem target_version_of_library (self : Project.t) (prefix suffix : string)
    (a b : ascii) :
  OsPath.basename (Project.python_target_library self)
  = prefix +:+ String a (String "." (String b suffix)) ->
  is_ascii prefix = true -> is_ascii suffix = true ->
  str_any Py.is_digit prefix = false -> str_any Py.is_digit suffix = false ->
  Py.is_digit a = true -> Py.is_digit b = true ->
  python_target_version self = (Some (digit_value a), Some (digit_value b)).
Proof.
  intros Hbase _ _ Hp Hs Ha Hb. unfold python_target_version.
  destruct (String.eqb_spec (Project.python_target_library self) "") as [E|_].
  { rewrite E in Hbase. destruct prefix; discriminate Hbase. }
  cbn [negb]. rewrite Hbase, (leading_app prefix _ Hp).
  cbn [strip_to_leading_digit]. rewrite Ha.
  change (String a (String "." (String b suffix)))
    with (String a (String "." (String b "")) +:+ suffix).
  rewrite (trailing_app _ suffix Hs).
  destruct (digit_facts a Ha) as (Hsa & Hda & Hma & Hpa & _ & Hva).
  destruct (digit_facts b Hb) as (Hsb & Hdb & _ & _ & _ & Hvb).
  cbn [strip_to_trailing_digit]. rewrite Hb.
  cbn [remove_char]. rewrite Hda, Hdb.
  change (Ascii.eqb "." ".") with true. cbv iota.
  unfold Py.int_of_str, Py.strip. cbn [Py.lstrip]. rewrite Hsa.
  cbn [Py.rstrip]. rewrite Hsb. rewrite Hma, Hpa.
  unfold Py.numeral. cbn [Py.count_digits]. rewrite Ha, Hb.
  change (1 + (1 + 0) <=? Py.max_str_digits)%nat with true. cbn [andb].
  rewrite !digits_value_cons, Ha, Hb. cbn [Py.digits_value].
  fold (digit_value a). fold (digit_value b).
  replace ((10 * (10 * 0 + digit_value a) + digit_value b) / 10)%Z
    with (digit_value a) by (apply Z.div_unique with (r := digit_value b); lia).
  replace ((10 * (10 * 0 + digit_value a) + digit_value b) mod 10)%Z
    with (digit_value b) by (apply Z.mod_unique with (q := digit_value a); lia).
  reflexivity.
Qed.

Lemma target_version_of_library_witness :
  python_target_version
    (Project.mk false "" "" true QrcPackage.init "" "" "build" [] [] "" "" ""
       "/usr/lib/libpython3.4.so" "" "" [] QrcPackage.init [] "")
  = (Some 3%Z, Some 4%Z).
Proof.
  apply (target_version_of_library _ "libpython" ".so" "3" "4");
    reflexivity.
Defined.

Lemma target_version_shape_witness :
  let self :=
    Project.mk false "" "" true QrcPackage.init "" "" "build" [] [] "" "" ""
      "C:/Python/python.dll" "" "" [] QrcPackage.init [] "" in
  is_ascii (OsPath.basename (Project.python_target_library self)) = true
  /\ str_any Py.is_digit (OsPath.basename (Project.python_target_library self))
     = false
  /\ python_target_version self = (None, None).
Proof.
  intros self. split; [reflexivity|]. split; [reflexivity|].
  apply (proj2 (target_version_shape self)); reflexivity.
Defined.

(** ** The QT and CONFIG values *)

Lemma qt_step_fold_spec (qts : list string) (ng : bool) (q : list string) :
  let q' := snd (fold_left qt_step qts (ng, q)) in
  (List.NoDup q -> List.NoDup q')
  /\ forall x, In x q' <-> In x q \/ (In x qts /\ x <> "-gui").
Proof.
  revert ng q. induction qts as [|qt qts IH]; intros ng q; cbn [fold_left].
  - cbn. split; [auto|]. intros x. cbn. tauto.
  - change (qt_step (ng, q) qt)
      with (if String.eqb qt "-gui" then (false, q) else (ng, append_new q qt)).
    destruct (String.eqb_spec qt "-gui") as [->|Hne].
    + destruct (IH false q) as [N I]. split; [exact N|].
      intros x. rewrite I. cbn [In]. split; [tauto|].
      intros [H|[[->|H] Hx]]; [tauto | contradiction | tauto].
    + destruct (IH ng (append_new q qt)) as [N I]. split.
      * intros H. now apply N, append_new_NoDup.
      * intros x. rewrite I, append_new_In. cbn [In]. split.
        -- intros [[H| ->]|[H Hx]]; auto.
        -- intros [H|[[<-|H] Hx]]; auto.
Qed.

Lemma module_step_spec (map : dict _QtMetaData.t) (no_gui : bool)
    (q c : list string) (m : string) :
  let st := module_step map (no_gui, q, c) m in
  (List.NoDup q -> List.NoDup (snd (fst st)))
  /\ (List.NoDup c -> List.NoDup (snd st))
  /\ (forall x, In x (snd (fst st)) <-> In x q \/ gives_qt map m x)
  /\ (forall x, In x (snd st) <-> In x c \/ gives_config map m x).
Proof.
  unfold module_step, gives_qt, gives_config.
  destruct (_QtMetaData.qt (metadata_of map m)) as [qts|];
    destruct (_QtMetaData.config (metadata_of map m)) as [configs|].
  - destruct (qt_step_fold_spec qts true q) as [N I].
    destruct (fold_left qt_step qts (true, q)) as [ng q']. cbn [fst snd] in *.
    split; [exact N|]. split; [apply fold_append_new_NoDup|]. split.
    + intros x. rewrite I. split.
      * intros [H|[H Hx]]; [now left|]. right. split; [exact Hx|]. now exists qts.
      * intros [H|[Hx (l & E & H)]]; [now left|]. injection E as <-. auto.
    + intros x. rewrite fold_append_new_In. split.
      * intros [H|H]; [now left|]. right. now exists configs.
      * intros [H|(l & E & H)]; [now left|]. injection E as <-. auto.
  - destruct (qt_step_fold_spec qts true q) as [N I].
    destruct (fold_left qt_step qts (true, q)) as [ng q']. cbn [fst snd] in *.
    split; [exact N|]. split; [auto|]. split.
    + intros x. rewrite I. split.
      * intros [H|[H Hx]]; [now left|]. right. split; [exact Hx|]. now exists qts.
      * intros [H|[Hx (l & E & H)]]; [now left|]. injection E as <-. auto.
    + intros x. split; [auto|]. intros [H|(l & E & _)]; [exact H | discriminate E].
  - cbn [fst snd]. split; [auto|]. split; [apply fold_append_new_NoDup|]. split.
    + intros x. split; [auto|].
      intros [H|[_ (l & E & _)]]; [exact H | discriminate E].
    + intros x. rewrite fold_append_new_In. split.
      * intros [H|H]; [now left|]. right. now exists configs.
      * intros [H|(l & E & H)]; [now left|]. injection E as <-. auto.
  - cbn [fst snd]. split; [auto|]. split; [auto|]. split.
    + intros x. split; [auto|].
      intros [H|[_ (l & E & _)]]; [exact H | discriminate E].
    + intros x. split; [auto|]. intros [H|(l & E & _)]; [exact H | discriminate E].
Qed.

Lemma module_fold_spec (map : dict _QtMetaData.t) (ms : list string)
    (st : bool * list string * list string) :
  let st' := fold_left (module_step map) ms st in
  (List.NoDup (snd (fst st)) -> List.NoDup (snd (fst st')))
  /\ (List.NoDup (snd st) -> List.NoDup (snd st'))
  /\ (forall x, In x (snd (fst st'))
                <-> In x (snd (fst st)) \/ exists m, In m ms /\ gives_qt map m x)
  /\ (forall x, In x (snd st')
                <-> In x (snd st) \/ exists m, In m ms /\ gives_config map m x).
Proof.
  revert st. induction ms as [|m ms IH]; intros st; cbn [fold_left].
  - split; [auto|]. split; [auto|]. split; intros x; split; auto;
      intros [H|(m & [] & _)]; exact H.
  - destruct st as [[ng q] c].
    destruct (module_step_spec map ng q c m) as (N1 & N2 & I1 & I2).
    destruct (IH (module_step map (ng, q, c) m)) as (N1' & N2' & I1' & I2').
    cbn [fst snd] in *.
    split; [auto|]. split; [auto|]. split; intros x.
    + rewrite I1', I1. split.
      * intros [[H|H]|(m' & Hm & H)]; [now left | right; exists m; cbn; auto |].
        right. exists m'. cbn. auto.
      * intros [H|(m' & [<-|Hm] & H)]; [auto | auto |].
        right. now exists m'.
    + rewrite I2', I2. split.
      * intros [[H|H]|(m' & Hm & H)]; [now left | right; exists m; cbn; auto |].
        right. exists m'. cbn. auto.
      * intros [H|(m' & [<-|Hm] & H)]; [auto | auto |].
        right. now exists m'.
Qed.

(** X4.  The values that [_write_qmake] collects for the lines "QT +=" and
    "CONFIG +=": each is listed once; the QT values are the tokens, other
    than "-gui", of the metadata of the requested PyQt modules, so "-gui"
    is never among them; the CONFIG values are the config tokens of those
    modules. *)
Theorem qt_values_once (project : Project.t) :
  let qmake_qt := snd (fst (qt_config project)) in
  let qmake_config := snd (qt_config project) in
  List.NoDup qmake_qt /\ List.NoDup qmake_config
  /\ ~ In "-gui" qmake_qt
  /\ (forall x, In x qmake_qt
                <-> exists m, In m (Project.pyqt_modules project)
                              /\ gives_qt (module_map project) m x)
  /\ (forall x, In x qmake_config
                <-> exists m, In m (Project.pyqt_modules project)
                              /\ gives_config (module_map project) m x).
Proof.
  unfold qt_config.
  destruct (module_fold_spec (module_map project)
              (Project.pyqt_modules project) (true, [], []))
    as (N1 & N2 & I1 & I2).
  cbn [fst snd] in *.
  assert (J1 : forall x,
             In x (snd (fst (fold_left (module_step (module_map project))
                               (Project.pyqt_modules project) (true, [], []))))
             <-> exists m, In m (Project.pyqt_modules project)
                           /\ gives_qt (module_map project) m x).
  { intros x. rewrite I1. split; [intros [[]|H]; exact H | auto]. }
  split; [apply N1; constructor|]. split; [apply N2; constructor|].
  split; [|split].
  - intros H. apply J1 in H as (m & _ & Hne & _). now apply Hne.
  - exact J1.
  - intros x. rewrite I2. split; [intros [[]|H]; exact H | auto].
Qed.

(** ** The uic directory *)

Lemma forallb_app_true {A : Type} (p : A -> bool) (l1 l2 : list A) :
  forallb p l1 = true -> forallb p l2 = true -> forallb p (l1 ++ l2) = true.
Proof. intros H1 H2. rewrite forallb_app. now rewrite H1, H2. Qed.

Section UicEntries.
Context (pyqt_dir : string).

Let entries_ok (content : FsEntry) : Prop :=
  forall path,
    match uic_content pyqt_dir path content with
    | Ok cs => forallb uic_entry_ok cs = true
    | Raise e => exists p, e = OSError p
    end.

Lemma uic_loop_entries (entries : list FsEntry) :
  Forall entries_ok entries ->
  forall path,
    match concat_results (uic_content pyqt_dir path) entries with
    | Ok cs => forallb uic_entry_ok cs = true
    | Raise e => exists p, e = OSError p
    end.
Proof.
  induction 1 as [|x l Hx _ IH]; intros path; cbn [concat_results];
    [reflexivity|].
  specialize (Hx path). specialize (IH path).
  destruct (uic_content pyqt_dir path x) as [a|e]; cbn; [|exact Hx].
  destruct (concat_results (uic_content pyqt_dir path) l) as [r|e]; cbn;
    [|exact IH].
  now apply forallb_app_true.
Qed.

Lemma uic_content_entries (content : FsEntry) : entries_ok content.
Proof.
  induction content as [name|name|name entries IH|name] using FsEntry_tree_ind;
    intros path; cbn [uic_content].
  - destruct (str_in name _) eqn:E; [reflexivity|].
    cbn [forallb uic_entry_ok content_included content_name]. now rewrite E.
  - destruct (str_in name _); [reflexivity|]. now eexists.
  - destruct (str_in name _) eqn:E; [reflexivity|].
    rewrite uic_value_loop_eq.
    pose proof (uic_loop_entries entries IH (path ++ [name])) as H.
    destruct (concat_results _ entries) as [cs|e]; [|exact H].
    rewrite result_bind_Ok.
    cbn [forallb uic_entry_ok content_included content_name].
    now rewrite E, H.
  - reflexivity.
Qed.
End UicEntries.

(** X3.  What [_add_uic_dir] adds to a package is one directory with the
    given name whose entries, at every depth, are all included and are
    never named port_v2 or __pycache__; when a directory cannot be listed
    the exception is the [OSError] of [os.listdir], not a
    [UserException]. *)
Theorem uic_dir_entries (pyqt_dir dirname : string) (dir_stack : list string)
    (listing : option (list FsEntry)) :
  match _add_uic_dir pyqt_dir dirname dir_stack listing with
  | Ok d =>
      exists contents,
        d = QrcDirectory dirname true contents
        /\ forallb uic_entry_ok contents = true
  | Raise e => exists p, e = OSError p
  end.
Proof.
  unfold _add_uic_dir. destruct listing as [entries|]; [|now eexists].
  pose proof (uic_loop_entries pyqt_dir entries
                (proj2 (Forall_forall _ _)
                   (fun x _ => uic_content_entries pyqt_dir x))
                (dir_stack ++ [dirname])) as H.
  destruct (concat_results _ entries) as [cs|e]; cbn; [|exact H].
  now exists cs.
Qed.

(** ** The names of the extension modules *)

Lemma dict_set_NoDup {V : Type} (k : string) (v : V) (d : dict V) :
  List.NoDup (dict_keys d) -> List.NoDup (dict_keys (dict_set k v d)).
Proof.
  induction d as [|[k0 v0] d IH]; cbn [dict_set dict_keys map fst].
  - intros _. repeat constructor. intros [].
  - intros H. inversion H as [|? ? Hnot Hd]; subst.
    destruct (String.eqb_spec k0 k) as [->|Hne]; cbn [map fst].
    + now constructor.
    + constructor; [|now apply IH].
      intros Hin. apply (dict_set_keys k k0 v d) in Hin as [Hin|E];
        [now apply Hnot | now apply Hne].
Qed.

Section FoldKeysMore.
Context {A : Type} (test : A -> bool) (key : A -> string) (val : A -> string).

Lemma fold_set_if_NoDup (l : list A) (ext : dict string) :
  List.NoDup (dict_keys ext) ->
  List.NoDup (dict_keys (fold_left (set_if test key val) l ext)).
Proof.
  revert ext. induction l as [|x l IH]; intros ext H; cbn [fold_left];
    [assumption|].
  apply IH. unfold set_if. destruct (test x); [|assumption].
  now apply dict_set_NoDup.
Qed.

Lemma fold_set_if_keys (l : list A) (ext : dict string) (k : string) :
  In k (dict_keys (fold_left (set_if test key val) l ext))
  <-> In k (dict_keys ext) \/ exists x, In x l /\ test x = true /\ key x = k.
Proof.
  revert ext. induction l as [|x l IH]; intros ext; cbn [fold_left].
  - split; [auto|]. intros [H|(x & [] & _)]. exact H.
  - rewrite IH. unfold set_if. destruct (test x) eqn:Et.
    + rewrite dict_set_keys. split.
      * intros [[H| ->]|(y & Hy & Ht & Hk)]; [now left | |].
        -- right. exists x. cbn. auto.
        -- right. exists y. cbn. auto.
      * intros [H|(y & [<-|Hy] & Ht & Hk)]; [auto | auto |].
        right. now exists y.
    + split.
      * intros [H|(y & Hy & Ht & Hk)]; [now left|]. right. exists y. cbn. auto.
      * intros [H|(y & [<-|Hy] & Ht & Hk)]; [auto | congruence |].
        right. now exists y.
Qed.
End FoldKeysMore.

(** X5.  The names that [_write_qmake] links against and passes to
    [_write_main_c]: each name is there once and none is empty; they are
    the names, other than the empty one, of the declared extension modules
    and, when a PyQt module is requested, "sip" and the qualified names of
    the requested modules other than uic, which is not linked. *)
Theorem extension_names_unique (os : OS) (project : Project.t) :
  let names := dict_keys (extensions_of os project) in
  let pyqt_version :=
    if Project.application_is_pyqt5 project then "PyQt5" else "PyQt4" in
  List.NoDup names /\ ~ In "" names
  /\ forall k,
       In k names
       <-> (k <> "" /\ exists m, In m (Project.extension_modules project)
                                 /\ ExtensionModule.name m = k)
           \/ (Project.pyqt_modules project <> []
               /\ (k = "sip"
                   \/ exists pyqt, In pyqt (Project.pyqt_modules project)
                                   /\ pyqt <> "uic"
                                   /\ k = pyqt_version +:+ "." +:+ pyqt)).
Proof.
  intros names pyqt_version.
  assert (K : forall k,
             In k names
             <-> (k <> "" /\ exists m, In m (Project.extension_modules project)
                                       /\ ExtensionModule.name m = k)
                 \/ (Project.pyqt_modules project <> []
                     /\ (k = "sip"
                         \/ exists pyqt,
                              In pyqt (Project.pyqt_modules project)
                              /\ pyqt <> "uic"
                              /\ k = pyqt_version +:+ "." +:+ pyqt))).
  { intros k. subst names. unfold extensions_of. fold pyqt_version.
    assert (D : forall k,
               In k (dict_keys
                       (fold_left
                          (set_if (fun em =>
                                     negb (String.eqb (ExtensionModule.name em) ""))
                             ExtensionModule.name ExtensionModule.path)
                          (Project.extension_modules project) []))
               <-> k <> "" /\ exists m, In m (Project.extension_modules project)
                                        /\ ExtensionModule.name m = k).
    { intros k'. rewrite fold_set_if_keys. cbn [dict_keys map In]. split.
      - intros [[]|(m & Hm & Ht & <-)]. split; [|now exists m].
        apply negb_true_iff in Ht. now apply String.eqb_neq.
      - intros (Hne & m & Hm & <-). right. exists m.
        split; [exact Hm|]. split; [|reflexivity].
        apply negb_true_iff. now apply String.eqb_neq. }
    destruct (Project.pyqt_modules project) as [|m0 ms] eqn:Em.
    - cbn [length Nat.ltb Nat.leb]. rewrite D. split; [auto|].
      intros [H|[H _]]; [exact H | now elim H].
    - change (0 <? length (m0 :: ms))%nat with true. cbv iota.
      rewrite dict_set_keys, fold_set_if_keys, D. split.
      + intros [[H|(pyqt & Hin & Ht & <-)]| ->]; [now left | |].
        * right. split; [discriminate|]. right. exists pyqt.
          split; [exact Hin|]. split; [|reflexivity].
          apply negb_true_iff in Ht. now apply String.eqb_neq.
        * right. split; [discriminate | now left].
      + intros [H|[_ [->|(pyqt & Hin & Hne & ->)]]]; [auto | auto |].
        left. right. exists pyqt. split; [exact Hin|]. split; [|reflexivity].
        apply negb_true_iff. now apply String.eqb_neq. }
  split; [|split; [|exact K]].
  - subst names. unfold extensions_of.
    assert (N : List.NoDup
                  (dict_keys
                     (fold_left
                        (set_if (fun em =>
                                   negb (String.eqb (ExtensionModule.name em) ""))
                           ExtensionModule.name ExtensionModule.path)
                        (Project.extension_modules project) [])))
      by (apply fold_set_if_NoDup; constructor).
    destruct (0 <? length (Project.pyqt_modules project))%nat; [|exact N].
    now apply dict_set_NoDup, fold_set_if_NoDup.
  - intros H. apply K in H as [[H _]|[_ [H|(pyqt & _ & _ & H)]]].
    + now apply H.
    + discriminate H.
    + subst pyqt_version.
      destruct (Project.application_is_pyqt5 project); discriminate H.
Qed.

(** ** The library of the target Python *)

Lemma rstrip_char_app_sep (c : ascii) (s : string) :
  Py.rstrip_char c (s +:+ String c "") = Py.rstrip_char c s.
Proof.
  induction s as [|a s IH].
  - change ("" +:+ String c "") with (String c "").
    cbn [Py.rstrip_char]. now rewrite Ascii.eqb_refl.
  - change (String a s +:+ String c "") with (String a (s +:+ String c "")).
    cbn [Py.rstrip_char]. now rewrite IH.
Qed.

Lemma no_sep_rfind (c : ascii) (s : string) :
  str_any (fun a => Ascii.eqb a c) s = false -> Py.rfind_split c s = None.
Proof. apply rfind_split_none. Qed.

Lemma substring_all (s : string) : substring 0 (String.length s) s = s.
Proof.
  induction s as [|a s IH]; [reflexivity|].
  cbn [String.length substring]. now rewrite IH.
Qed.

(** X6.  For a target library [dir/lib<name>.<ext>] the [.pro] file gets
    the line "LIBS += -L<dir> -l<name>": the directory of the library, and
    its base name without the extension and without the leading "lib". *)
Theorem target_library_flags (project : Project.t) (dir name ext : string) :
  Project.python_target_library project
  = dir +:+ "/" +:+ "lib" +:+ name +:+ "." +:+ ext ->
  dir <> "" -> Py.rstrip_char "/" dir = dir ->
  str_any is_sep name = false -> str_any is_sep ext = false ->
  str_any (fun a => Ascii.eqb a ".") ext = false ->
  In ("LIBS += -L" +:+ dir +:+ " -l" +:+ name +:+ nl)
    (qmake_python_lines project).
Proof.
  intros Hlib Hdir Hstrip Hname Hext Hdot.
  unfold qmake_python_lines. apply in_app_iff. right.
  set (base := "lib" +:+ name +:+ "." +:+ ext).
  assert (Hbase_sep : str_any is_sep base = false).
  { unfold base. rewrite !str_any_app, Hname, Hext. reflexivity. }
  assert (Hsplit : Py.rfind_split "/" (Project.python_target_library project)
                   = Some (dir +:+ "/", base)).
  { rewrite Hlib. fold base. rewrite <- append_assoc.
    rewrite rfind_split_app_nosep by now apply no_sep_rfind.
    now rewrite (rfind_split_app_sep "/" dir). }
  assert (Hne : String.eqb (Project.python_target_library project) "" = false).
  { rewrite Hlib. destruct dir; [now elim Hdir | reflexivity]. }
  rewrite Hne. cbn [negb].
  assert (Hd : OsPath.dirname (Project.python_target_library project) = dir).
  { unfold OsPath.dirname, OsPath.split, Py.split_after_last, OsPath.sep.
    rewrite Hsplit. cbn [fst]. unfold OsPath.strip_head, OsPath.sep.
    rewrite (rstrip_char_app_sep "/" dir), Hstrip.
    destruct dir; [now elim Hdir | reflexivity]. }
  assert (Hb : OsPath.basename (Project.python_target_library project) = base).
  { unfold OsPath.basename, Py.split_after_last, OsPath.sep. now rewrite Hsplit. }
  assert (Hx : fst (OsPath.splitext base) = "lib" +:+ name).
  { unfold OsPath.splitext, Py.split_after_last, OsPath.sep.
    rewrite (no_sep_rfind "/" base Hbase_sep).
    assert (Hr : Py.rfind_split "." base = Some ("lib" +:+ name +:+ ".", ext)).
    { unfold base.
      replace ("lib" +:+ name +:+ "." +:+ ext)
        with (("lib" +:+ name +:+ ".") +:+ ext)
        by (now rewrite !append_assoc).
      rewrite rfind_split_app_nosep by now apply no_sep_rfind.
      replace ("lib" +:+ name +:+ ".") with (("lib" +:+ name) +:+ ".")
        by (now rewrite !append_assoc).
      now rewrite (rfind_split_app_sep "." ("lib" +:+ name)). }
    rewrite Hr.
    replace ("lib" +:+ name +:+ ".") with (("lib" +:+ name) +:+ ".")
      by (now rewrite !append_assoc).
    pose proof (drop_last_append ("lib" +:+ name) ".") as D.
    cbn [String.length] in D. rewrite D. reflexivity. }
  rewrite Hd, Hb, Hx.
  change ("lib" +:+ name) with (String "l" (String "i" (String "b" name))).
  assert (Hp : Py.startswith (String "l" (String "i" (String "b" name))) "lib"
               = true).
  { unfold Py.startswith. apply String.prefix_correct. now destruct name. }
  rewrite Hp. cbn [String.length Nat.sub substring].
  rewrite Nat.sub_0_r, substring_all. now left.
Qed.

Lemma target_library_flags_witness :
  In ("LIBS += -L/usr/lib -lpython3.4" +:+ nl)
    (qmake_python_lines
       (Project.mk false "" "" true QrcPackage.init "" "" "build" [] [] "" ""
          "" "/usr/lib/libpython3.4.so" "" "" [] QrcPackage.init [] "")).
Proof.
  apply (target_library_flags _ "/usr/lib" "python3.4" "so");
    [reflexivity | discriminate | reflexivity | reflexivity | reflexivity
    | reflexivity].
Defined.

(** ** What a computation emits *)

Section Emits.
Context (P : event -> Prop).

Lemma emits_ret {A : Type} (a : A) : emits_only P (mret a : M A).
Proof. intros tr. exists []. cbn. now rewrite app_nil_r. Qed.

Lemma emits_raise {A : Type} (e : exn) : emits_only P (raise e : M A).
Proof. intros tr. exists []. cbn. now rewrite app_nil_r. Qed.

Lemma emits_lift {A : Type} (r : result A) : emits_only P (lift r).
Proof. intros tr. exists []. cbn. now rewrite app_nil_r. Qed.

Lemma emits_ask {A : Type} (q : trace -> A) : emits_only P (ask q).
Proof. intros tr. exists []. cbn. now rewrite app_nil_r. Qed.

Lemma emits_emit (e : event) : P e -> emits_only P (emit e).
Proof. intros H tr. exists [e]. split; [reflexivity | now constructor]. Qed.

Lemma emits_bind_at {A B : Type} (m : M A) (k : A -> M B) (tr : trace) :
  emits P m tr ->
  (forall a tr', m tr = (Ok a, tr') -> emits P (k a) tr') ->
  emits P (m ≫= k) tr.
Proof.
  intros (e1 & E1 & F1) Hk. unfold emits. rewrite run_bind.
  destruct (m tr) as [[a|e] tr1]; cbn [snd] in E1; subst tr1.
  - destruct (Hk a (tr ++ e1) eq_refl) as (e2 & E2 & F2).
    exists (e1 ++ e2). rewrite E2, app_assoc. split; [reflexivity|].
    now apply Forall_app.
  - now exists e1.
Qed.

Lemma emits_bind {A B : Type} (m : M A) (k : A -> M B) :
  emits_only P m -> (forall a, emits_only P (k a)) -> emits_only P (m ≫= k).
Proof.
  intros Hm Hk tr. apply emits_bind_at; [apply Hm|]. intros a tr' _. apply Hk.
Qed.

Lemma emits_for_each {A : Type} (body : A -> M unit) (l : list A) :
  (forall x, emits_only P (body x)) -> emits_only P (for_each body l).
Proof.
  intros H. induction l as [|x l IH]; cbn [for_each].
  - apply emits_ret.
  - apply emits_bind; [apply H | intros _; apply IH].
Qed.
End Emits.

Lemma emits_weaken {A : Type} (P Q : event -> Prop) (m : M A) :
  (forall e, P e -> Q e) -> emits_only P m -> emits_only Q m.
Proof.
  intros H Hm tr. destruct (Hm tr) as (evs & E & F). exists evs.
  split; [exact E|]. eapply Forall_impl; [exact F | exact H].
Qed.

Create HintDb emits.

Ltac emits :=
  repeat first
    [ solve [auto 1 with emits nocore]
    | apply emits_ret | apply emits_raise | apply emits_lift
    | apply emits_ask
    | apply emits_emit; first [exact I | reflexivity]
    | apply emits_for_each; intros ?
    | apply emits_bind; [|intros ?]
    | match goal with
      | |- emits_only _ (if ?c then _ else _) => destruct c
      | |- emits_only _ (match ?x with _ => _ end) => destruct x
      | |- emits_only _ (let '(_, _) := ?x in _) => destruct x
      end ].

(** ** The traversal touches the manifest only *)

Section TraversalFrame.
Context (os : OS) (b : Builder.t) (dst_root_dir src_root_dir freeze f : string).

Let P := traversal_event f.

Lemma enter_directory_emits (stack : list string) :
  emits_only P (enter_directory os dst_root_dir stack).
Proof. unfold enter_directory, _create_directory. emits. Qed.

Lemma write_file_emits (c : dir_context) (name : string) :
  emits_only P (write_file os b src_root_dir freeze f c name).
Proof. unfold write_file, _freeze, _log, f_write. emits. Qed.

Lemma traversal_loop_emits (l : list QrcContent) :
  Forall (fun x => forall c,
              emits_only P
                (write_content os b dst_root_dir src_root_dir freeze f c x)) l ->
  forall stack,
    emits_only P
      (_write_package_contents os b l dst_root_dir src_root_dir stack freeze f).
Proof.
  intros H stack. unfold _write_package_contents.
  apply emits_bind; [apply enter_directory_emits|]. intros c.
  induction H as [|x l Hx _ IH]; cbn [for_each]; [apply emits_ret|].
  apply emits_bind; [apply Hx | intros _; apply IH].
Qed.

Lemma write_content_emits (x : QrcContent) :
  forall c,
    emits_only P (write_content os b dst_root_dir src_root_dir freeze f c x).
Proof.
  induction x as [name included|name included contents IH]
    using QrcContent_tree_ind; intros c.
  - destruct included; [apply write_file_emits | apply emits_ret].
  - destruct included; [|apply emits_ret].
    intros tr. unfold emits. rewrite write_content_directory.
    now apply traversal_loop_emits.
Qed.

Lemma traversal_emits (contents : list QrcContent) (stack : list string) :
  emits_only P
    (_write_package_contents os b contents dst_root_dir src_root_dir stack
       freeze f).
Proof.
  apply traversal_loop_emits, Forall_forall. intros x _.
  apply write_content_emits.
Qed.
End TraversalFrame.

(** X10.  Whatever the package, [_write_package_contents] only makes
    directories, writes lines to the manifest it was given, freezes and
    copies files and logs: it opens and closes no file, writes to no other
    file and removes nothing, also when it raises. *)
Theorem traversal_touches_manifest_only (os : OS) (b : Builder.t)
    (contents : list QrcContent) (dst_root_dir src_root_dir : string)
    (stack : list string) (freeze f : string) (tr : trace) :
  exists evs,
    snd (_write_package_contents os b contents dst_root_dir src_root_dir
           stack freeze f tr) = tr ++ evs
    /\ Forall (traversal_event f) evs.
Proof. apply traversal_emits. Qed.

(** ** The manifest of a resource *)

Lemma not_in_traversal (f : string) (mid : list event) (e : event) :
  Forall (traversal_event f) mid -> ~ traversal_event f e -> ~ In e mid.
Proof.
  intros F Hn Hin. rewrite List.Forall_forall in F. now apply Hn, F.
Qed.

Lemma write_resource_run (os : OS) (b : Builder.t)
    (resources_dir resource : string) (package : QrcPackage.t)
    (src freeze : string) (tr : trace) :
  let f := OsPath.join resources_dir [qrc_file_of resource] in
  let pre :=
    if String.eqb resource "" then []
    else [Makedirs (OsPath.join resources_dir [resource])] in
  let r := _write_resource os b resources_dir resource package src freeze tr in
  exists evs,
    snd r = tr ++ evs
    /\ match fst r with
       | Ok _ =>
           exists mid,
             evs = pre
                   ++ [Open f;
                       Write f ("<!DOCTYPE RCC>" +:+ nl +:+
                                "<RCC version=" +:+ dq +:+ "1.0" +:+ dq +:+ ">"
                                +:+ nl +:+ "    <qresource>" +:+ nl)]
                   ++ mid
                   ++ [Write f ("    </qresource>" +:+ nl +:+ "</RCC>" +:+ nl);
                       Close f]
             /\ Forall (traversal_event f) mid
       | Raise _ => ~ In (Close f) evs
       end.
Proof.
  intros f pre r. subst f pre r. unfold _write_resource, qrc_file_of.
  destruct (String.eqb resource "") eqn:Er.
  - change ("pyqtdeploy" +:+ ".qrc") with "pyqtdeploy.qrc".
    set (f := OsPath.join resources_dir ["pyqtdeploy.qrc"]).
    run. unfold _create_file. fold f. run.
    destruct (open_wt os tr f) as [err|]; run.
    + exists [Open f]. split; [reflexivity|]. cbn. intros [H|[]]. discriminate H.
    + destruct (OsPath.split src) as [src_root_dir src_root].
      rewrite run_bind.
      match goal with
      | |- context [_write_package_contents ?o ?b ?c ?d ?s ?st ?fr ?f ?t] =>
          destruct (traversal_emits o b d s fr f c st t) as (mid & Hm & Fm);
          destruct (_write_package_contents o b c d s st fr f t)
            as [[[]|e] tr1]
      end; cbn [snd] in Hm; subst tr1; run; cbn [fst snd].
      * eexists. split; [rewrite <- !app_assoc; reflexivity|].
        exists mid. split; [reflexivity | exact Fm].
      * eexists. split; [rewrite <- !app_assoc; reflexivity|].
        cbn [app]. intros [H|[H|H]]; try discriminate H.
        revert H. apply (not_in_traversal f mid); [exact Fm|]. cbn. auto.
  - set (f := OsPath.join resources_dir [resource +:+ ".qrc"]).
    set (d := OsPath.join resources_dir [resource]).
    run. unfold _create_directory. run.
    destruct (makedirs os tr d) as [err|]; run.
    + exists [Makedirs d]. split; [reflexivity|]. cbn. intros [H|[]].
      discriminate H.
    + unfold _create_file. fold f. run.
      destruct (open_wt os (tr ++ [Makedirs d]) f) as [err|]; run.
      * exists [Makedirs d; Open f]. split; [now rewrite <- app_assoc|].
        cbn. intros [H|[H|[]]]; discriminate H.
      * destruct (OsPath.split src) as [src_root_dir src_root].
        rewrite run_bind.
        match goal with
        | |- context [_write_package_contents ?o ?b ?c ?d ?s ?st ?fr ?f ?t] =>
            destruct (traversal_emits o b d s fr f c st t) as (mid & Hm & Fm);
            destruct (_write_package_contents o b c d s st fr f t)
              as [[[]|e] tr1]
        end; cbn [snd] in Hm; subst tr1; run; cbn [fst snd].
        -- eexists. split; [rewrite <- !app_assoc; reflexivity|].
           exists mid. split; [reflexivity | exact Fm].
        -- eexists. split; [rewrite <- !app_assoc; reflexivity|].
           cbn [app]. intros [H|[H|[H|H]]]; try discriminate H.
           revert H. apply (not_in_traversal f mid); [exact Fm|]. cbn. auto.
Qed.



(** X8.  The [.pro] file and [_write_resource] agree on the names of the
    resource files: for every resource of the list, the RESOURCES value
    names [resources/<name>.qrc], with pyqtdeploy as the name of the
    application resource, and a call of [_write_resource] that returns has
    created the file of that name in the resources directory. *)
Theorem resource_files_agree (resource : string) (resources : list string) :
  In resource resources ->
  In (" \" +:+ nl +:+ "    resources/" +:+ qrc_file_of resource)
    (qmake_resources_lines resources)
  /\ forall os b resources_dir package src freeze tr,
       fst (_write_resource os b resources_dir resource package src freeze tr)
       = Ok tt ->
       In (Open (OsPath.join resources_dir [qrc_file_of resource]))
         (snd (_write_resource os b resources_dir resource package src freeze
                 tr)).
Proof.
  intros Hin. split.
  - unfold qmake_resources_lines.
    destruct resources as [|r0 rs]; [destruct Hin|]. cbn [length Nat.eqb negb].
    apply in_app_iff. right. apply in_app_iff. left.
    apply in_map_iff. exists resource. split; [|exact Hin]. reflexivity.
  - intros os b resources_dir package src freeze tr E.
    destruct (write_resource_run os b resources_dir resource package src freeze
                tr) as (evs & Hs & H).
    cbv zeta in Hs, H. rewrite E in H. destruct H as (mid & -> & _).
    rewrite Hs. apply in_app_iff. right. apply in_app_iff. right. now left.
Qed.

Lemma resource_files_agree_witness :
  In "" [""; "stdlib"]
  /\ In (" \" +:+ nl +:+ "    resources/pyqtdeploy.qrc")
       (qmake_resources_lines [""; "stdlib"]).
Proof.
  split; [now left|].
  apply (proj1 (resource_files_agree "" [""; "stdlib"] (or_introl eq_refl))).
Defined.

(** ** The temporary copy of freeze.py *)

Lemma traversal_not_remove (os : OS) (b : Builder.t)
    (contents : list QrcContent) (dst_root_dir src_root_dir : string)
    (stack : list string) (freeze f : string) :
  emits_only not_remove
    (_write_package_contents os b contents dst_root_dir src_root_dir stack
       freeze f).
Proof.
  apply (emits_weaken (traversal_event f)); [|apply traversal_emits].
  now intros [].
Qed.
#[local] Hint Resolve traversal_not_remove : emits.

Lemma create_directory_not_remove (os : OS) (d : string) :
  emits_only not_remove (_create_directory os d).
Proof. unfold _create_directory. emits. Qed.
#[local] Hint Resolve create_directory_not_remove : emits.

Lemma create_file_not_remove (os : OS) (d f : string) :
  emits_only not_remove (_create_file os d f).
Proof. unfold _create_file. emits. Qed.
#[local] Hint Resolve create_file_not_remove : emits.

Lemma copy_lib_file_not_remove (os : OS) (f : string) (d : option string) :
  emits_only not_remove (_copy_lib_file os f d).
Proof. unfold _copy_lib_file. emits. Qed.
#[local] Hint Resolve copy_lib_file_not_remove : emits.

Lemma freeze_not_remove os b o p f m a :
  emits_only not_remove (_freeze os b o p f m a).
Proof. unfold _freeze, _log. emits. Qed.
#[local] Hint Resolve freeze_not_remove : emits.

Lemma write_main_c_not_remove (os : OS) (d a : string) (names : list string) :
  emits_only not_remove (_write_main_c os d a names).
Proof.
  unfold _write_main_c, _write_inittab, _write_main_call, f_write, f_close.
  emits.
Qed.
#[local] Hint Resolve write_main_c_not_remove : emits.

Lemma write_qmake_not_remove (os : OS) (b : Builder.t)
    (build_dir freeze : string) :
  emits_only not_remove (_write_qmake os b build_dir freeze).
Proof. unfold _write_qmake, f_write, f_close. cbv zeta. emits. Qed.

Lemma write_resource_not_remove (os : OS) (b : Builder.t)
    (resources_dir resource : string) (package : QrcPackage.t)
    (src freeze : string) :
  emits_only not_remove
    (_write_resource os b resources_dir resource package src freeze).
Proof. unfold _write_resource, f_write, f_close. emits. Qed.

(** X2.  [build] never reaches its last statement, [os.remove(freeze)]: in
    every environment, for every project, no file is removed with
    [os.remove], so the copy of freeze.py made in the temporary directory
    stays there. *)
Theorem build_leaves_freeze_copy (os : OS) (b : Builder.t)
    (build_dir : string) (tr : trace) :
  exists evs,
    snd (build os b build_dir tr) = tr ++ evs
    /\ forall path, ~ In (Remove path) evs.
Proof.
  assert (H : emits not_remove (build os b build_dir) tr).
  { unfold build. cbv zeta.
    apply emits_bind_at; [apply create_directory_not_remove|]. intros [] t1 _.
    apply emits_bind_at; [apply copy_lib_file_not_remove|]. intros freeze t2 _.
    apply emits_bind_at; [apply write_qmake_not_remove|]. intros [] t3 _.
    apply emits_bind_at; [apply create_directory_not_remove|]. intros [] t4 _.
    apply emits_bind_at; [apply emits_lift|]. intros rs t5 Hrs.
    apply emits_bind_at.
    - apply emits_for_each. intros resource.
      destruct (String.eqb resource ""); [apply write_resource_not_remove|].
      destruct (String.eqb resource "stdlib");
        [apply write_resource_not_remove|].
      apply emits_bind; [apply emits_lift|]. intros p.
      apply write_resource_not_remove.
    - intros [] t6 Hloop. exfalso.
      unfold lift in Hrs. injection Hrs as Hrs _.
      rewrite resources_eq in Hrs.
      destruct (length (Project.pyqt_modules (Builder._project b)) =? 0)%nat;
        [discriminate Hrs|].
      injection Hrs as <-.
      apply (for_each_ok_In _ _ "site-packages") in Hloop as (u1 & u2 & H).
      + cbn beta in H.
        change (String.eqb "site-packages" "") with false in H.
        change (String.eqb "site-packages" "stdlib") with false in H.
        cbv iota in H. apply bind_ok in H as (p & u3 & H & _).
        unfold lift, site_packages_to_write, Project.site_packages_package in H.
        discriminate H.
      + apply in_app_iff. right. right. now left. }
  destruct H as (evs & E & F). exists evs. split; [exact E|].
  intros path Hin. rewrite List.Forall_forall in F. exact (F _ Hin).
Qed.

(** ** main.c *)

Lemma writes_ret {A : Type} (f : string) (a : A) :
  writes_lines f (mret a : M A) a [].
Proof. intros tr. cbn [map]. now rewrite app_nil_r. Qed.

Lemma writes_write (f data : string) : writes_lines f (f_write f data) tt [data].
Proof. intros tr. reflexivity. Qed.

Lemma writes_bind {A B : Type} (f : string) (m : M A) (k : A -> M B)
    (a : A) (b : B) (l1 l2 : list string) :
  writes_lines f m a l1 -> writes_lines f (k a) b l2 ->
  writes_lines f (m ≫= k) b (l1 ++ l2).
Proof.
  intros H1 H2 tr. rewrite run_bind, H1, H2.
  now rewrite map_app, app_assoc.
Qed.

Lemma writes_each {A : Type} (f : string) (g : A -> string) (l : list A) :
  writes_lines f (for_each (fun x => f_write f (g x)) l) tt (map g l).
Proof.
  induction l as [|x l IH]; cbn [for_each map]; [apply writes_ret|].
  apply (writes_bind f _ _ tt tt [g x]); [apply writes_write | exact IH].
Qed.

Lemma write_inittab_lines (f : string) (names : list string)
    (inittab : string) (py3 : bool) :
  writes_lines f (_write_inittab f names inittab py3) tt
    (map (fun ext =>
            "    extern " +:+ (if py3 then "PyObject *" else "void ")
            +:+ (if py3 then "PyInit_" else "init")
            +:+ Py.last_component "." ext +:+ "(void);" +:+ nl) names
     ++ [nl +:+ "    static struct _inittab " +:+ inittab +:+ "[] = {" +:+ nl]
     ++ map (fun ext =>
               "        {" +:+ dq +:+ ext +:+ dq +:+ ", "
               +:+ (if py3 then "PyInit_" else "init")
               +:+ Py.last_component "." ext +:+ "}," +:+ nl) names
     ++ ["        {NULL, NULL}" +:+ nl +:+ "    };" +:+ nl]).
Proof.
  unfold _write_inittab. cbv zeta.
  eapply writes_bind; [apply writes_each|].
  eapply writes_bind; [apply writes_write|].
  eapply writes_bind; [apply writes_each|].
  apply writes_write.
Qed.

Lemma writes_then {A B : Type} (f : string) (m : M A) (a : A)
    (l : list string) (k : A -> M B) (tr : trace) (pre : list string) :
  writes_lines f m a l ->
  (m ≫= k) (tr ++ map (Write f) pre) = k a (tr ++ map (Write f) (pre ++ l)).
Proof. intros H. rewrite run_bind, H. now rewrite map_app, app_assoc. Qed.

Ltac find_line :=
  first
    [ assumption
    | apply in_map_iff; eexists; split; [reflexivity | eassumption]
    | apply in_or_app; left; find_line
    | apply in_or_app; right; find_line ].

Lemma main_c_run (os : OS) (build_dir app_name : string)
    (names : list string) (tr : trace) :
  let f := OsPath.join build_dir ["main.c"] in
  match open_wt os tr f with
  | Some e =>
      _write_main_c os build_dir app_name names tr
      = (Raise (UserException ("Unable to create file " +:+ f +:+ ".") e),
         tr ++ [Open f])
  | None =>
      exists lines,
        _write_main_c os build_dir app_name names tr
        = (Ok tt, tr ++ Open f :: map (Write f) lines ++ [Close f])
        /\ forall ext,
             In ext names ->
             In ("        {" +:+ dq +:+ ext +:+ dq +:+ ", PyInit_"
                 +:+ Py.last_component "." ext +:+ "}," +:+ nl) lines
             /\ In ("        {" +:+ dq +:+ ext +:+ dq +:+ ", init"
                    +:+ Py.last_component "." ext +:+ "}," +:+ nl) lines
  end.
Proof.
  intros f. unfold _write_main_c.
  destruct (open_wt os tr f) as [e|] eqn:Hopen.
  { unfold _create_file. fold f. run. rewrite Hopen. now run. }
  assert (Hc : _create_file os build_dir "main.c" tr = (Ok f, tr ++ [Open f])).
  { unfold _create_file. fold f. run. rewrite Hopen. now run. }
  assert (X : exists inittab lines,
             writes_lines f
               (if (0 <? length names)%nat
                then
                  f_write f ("#if PY_MAJOR_VERSION >= 3" +:+ nl);;
                  _write_inittab f names "extension_modules" true;;
                  f_write f ("#else" +:+ nl);;
                  _write_inittab f names "extension_modules" false;;
                  f_write f ("#endif" +:+ nl +:+ nl);;
                  mret "extension_modules"
                else mret "NULL") inittab lines
             /\ forall ext,
                  In ext names ->
                  In ("        {" +:+ dq +:+ ext +:+ dq +:+ ", PyInit_"
                      +:+ Py.last_component "." ext +:+ "}," +:+ nl) lines
                  /\ In ("        {" +:+ dq +:+ ext +:+ dq +:+ ", init"
                         +:+ Py.last_component "." ext +:+ "}," +:+ nl) lines).
  { destruct names as [|n0 ns].
    - exists "NULL", []. split; [apply writes_ret | intros ext []].
    - change (0 <? length (n0 :: ns))%nat with true. cbv iota.
      eexists _, _. split.
      + eapply writes_bind; [apply writes_write|].
        eapply writes_bind; [apply write_inittab_lines|].
        eapply writes_bind; [apply writes_write|].
        eapply writes_bind; [apply write_inittab_lines|].
        eapply writes_bind; [apply writes_write|]. apply writes_ret.
      + intros ext Hin. split; find_line. }
  destruct X as (inittab & lx & X & Hin).
  eexists. split.
  - rewrite run_bind, Hc. rewrite run_bind, run_f_write. cbv beta iota.
    match goal with
    | |- context [(tr ++ [Open f]) ++ [Write f ?h]] =>
        change ((tr ++ [Open f]) ++ [Write f h])
          with ((tr ++ [Open f]) ++ map (Write f) [h])
    end.
    rewrite (writes_then f _ inittab lx _ _ _ X).
    unfold _write_main_call.
    repeat (erewrite writes_then by apply writes_write).
    rewrite run_f_close. rewrite <- !app_assoc. reflexivity.
  - intros ext H. destruct (Hin ext H). split; find_line.
Qed.



(** ** The files of the build descriptor *)

Lemma file_events_app (l1 l2 : trace) :
  file_events (l1 ++ l2) = file_events l1 ++ file_events l2.
Proof. apply List.filter_app. Qed.

Lemma file_events_writes (f : string) (lines : list string) :
  file_events (map (Write f) lines) = [].
Proof. induction lines as [|x l IH]; [reflexivity | exact IH]. Qed.

Lemma handles_ret {A : Type} (a : A) : handles (mret a : M A) (eq a) [].
Proof.
  intros tr a' tr' H. injection H as <- <-. split; [reflexivity|].
  exists []. now rewrite app_nil_r.
Qed.

Lemma handles_raise {A : Type} (e : exn) (Q : A -> Prop) (l : trace) :
  handles (raise e : M A) Q l.
Proof. intros tr a tr' H. discriminate H. Qed.

Lemma handles_any {A : Type} (m : M A) (Q : A -> Prop) (l : trace) :
  handles m Q l -> handles m any l.
Proof.
  intros H tr a tr' E. destruct (H tr a tr' E) as [_ H']. now split.
Qed.

Lemma handles_emit (e : event) :
  file_events [e] = [] -> handles (emit e) any [].
Proof.
  intros He tr a tr' H. injection H as <-. split; [exact I|]. now exists [e].
Qed.

Lemma handles_close (f : string) : handles (f_close f) any [Close f].
Proof.
  intros tr a tr' H. injection H as <-. split; [exact I|]. now exists [Close f].
Qed.

Lemma handles_ask {A : Type} (q : trace -> A) : handles (ask q) any [].
Proof.
  intros tr a tr' H. injection H as _ <-. split; [exact I|].
  exists []. now rewrite app_nil_r.
Qed.

Lemma handles_lift {A : Type} (r : result A) : handles (lift r) any [].
Proof.
  intros tr a tr' H. injection H as _ <-. split; [exact I|].
  exists []. now rewrite app_nil_r.
Qed.

Lemma handles_bind {A B : Type} (m : M A) (k : A -> M B) (Q : A -> Prop)
    (R : B -> Prop) (l1 l2 : trace) :
  handles m Q l1 -> (forall a, Q a -> handles (k a) R l2) ->
  handles (m ≫= k) R (l1 ++ l2).
Proof.
  intros Hm Hk tr b tr' H. apply bind_ok in H as (a & tr1 & H1 & H2).
  destruct (Hm tr a tr1 H1) as (Ha & e1 & -> & F1).
  destruct (Hk a Ha _ b tr' H2) as (Hb & e2 & -> & F2).
  split; [exact Hb|]. exists (e1 ++ e2).
  split; [now rewrite app_assoc|]. now rewrite file_events_app, F1, F2.
Qed.

Lemma handles_write (f data : string) : handles (f_write f data) any [].
Proof. now apply handles_emit. Qed.

Lemma handles_write_lines (f : string) (lines : list string) :
  handles (for_each (f_write f) lines) any [].
Proof.
  intros tr a tr' H. rewrite write_lines in H. inversion H; subst.
  split; [exact I|]. eexists. split; [reflexivity|]. apply file_events_writes.
Qed.

Lemma handles_create_file (os : OS) (d filename : string) :
  handles (_create_file os d filename) (eq (OsPath.join d [filename]))
    [Open (OsPath.join d [filename])].
Proof.
  unfold _create_file. intros tr a tr'. run.
  destruct (open_wt os tr _); run; intros H; [discriminate H|].
  injection H as <- <-. split; [reflexivity|]. now eexists.
Qed.

Lemma handles_copy_lib_file (os : OS) (filename : string)
    (dirname : option string) :
  handles (_copy_lib_file os filename dirname) any [].
Proof.
  unfold _copy_lib_file. intros tr a tr'. run.
  destruct (qfile_copy os _ _ _); run; intros H; [|discriminate H].
  injection H as <- <-. split; [exact I|].
  eexists. split; [rewrite <- app_assoc; reflexivity | reflexivity].
Qed.

Lemma handles_extends {A : Type} (m : M A) :
  (forall tr, exists evs, snd (m tr) = tr ++ evs /\ file_events evs = []) ->
  handles m any [].
Proof.
  intros Hm tr a tr' H. destruct (Hm tr) as (evs & Hs & F).
  rewrite H in Hs. cbn [snd] in Hs. subst tr'. split; [exact I|]. now exists evs.
Qed.

Lemma handles_freeze os b output py freeze main as_data :
  handles (_freeze os b output py freeze main as_data) any [].
Proof.
  apply handles_extends. intros tr.
  assert (H : emits_only (fun e => file_events [e] = [])
                (_freeze os b output py freeze main as_data))
    by (unfold _freeze, _log; emits).
  destruct (H tr) as (evs & Hs & F). exists evs. split; [exact Hs|].
  clear Hs. induction F as [|e l He _ IH]; [reflexivity|].
  change (e :: l) with ([e] ++ l). now rewrite file_events_app, He, IH.
Qed.

Lemma handles_main_c (os : OS) (build_dir app_name : string)
    (names : list string) :
  handles (_write_main_c os build_dir app_name names) any
    [Open (OsPath.join build_dir ["main.c"]);
     Close (OsPath.join build_dir ["main.c"])].
Proof.
  intros tr a tr' H.
  pose proof (main_c_run os build_dir app_name names tr) as R. cbv zeta in R.
  destruct (open_wt os tr _) as [e|].
  - rewrite R in H. discriminate H.
  - destruct R as (lines & R & _). rewrite R in H. inversion H; subst.
    split; [exact I|]. eexists. split; [reflexivity|].
    change (Open ?f :: ?l) with ([Open f] ++ l).
    rewrite !file_events_app, file_events_writes. reflexivity.
Qed.

Lemma write_qmake_handles (os : OS) (b : Builder.t)
    (build_dir freeze : string) :
  exists l,
    handles (_write_qmake os b build_dir freeze) any l
    /\ l = [Open (pro_file b build_dir);
            Open (OsPath.join build_dir ["main.c"]);
            Close (OsPath.join build_dir ["main.c"]);
            Open (OsPath.join build_dir ["__bootstrap__.py"]);
            Close (OsPath.join build_dir ["__bootstrap__.py"]);
            Open (OsPath.join build_dir ["pyqtdeploy_version.h"]);
            Close (OsPath.join build_dir ["pyqtdeploy_version.h"]);
            Close (pro_file b build_dir)].
Proof.
  eexists. split.
  - unfold _write_qmake. cbv zeta.
    eapply handles_bind; [apply handles_create_file|]. intros f <-.
    eapply handles_bind; [apply handles_write|]. intros _ _.
    eapply handles_bind; [apply handles_write|]. intros _ _.
    eapply handles_bind; [apply handles_write|]. intros _ _.
    eapply handles_bind; [apply handles_write_lines|]. intros _ _.
    eapply handles_bind; [apply handles_write_lines|]. intros _ _.
    eapply handles_bind; [apply handles_write|]. intros _ _.
    eapply handles_bind; [apply handles_write_lines|]. intros _ _.
    eapply handles_bind; [apply handles_ask|]. intros r _.
    eapply handles_bind; [now apply handles_emit|]. intros _ _.
    eapply (handles_bind _ _ any).
    { destruct r; [apply handles_raise | eapply handles_any, handles_ret]. }
    intros platforms _.
    eapply handles_bind; [apply handles_write|]. intros _ _.
    eapply handles_bind; [apply handles_write|]. intros _ _.
    eapply handles_bind; [apply handles_lift|]. intros resources _.
    eapply handles_bind; [apply handles_write_lines|]. intros _ _.
    eapply handles_bind; [apply handles_write|]. intros _ _.
    eapply handles_bind; [apply handles_write|]. intros _ _.
    eapply handles_bind; [apply handles_main_c|]. intros _ _.
    eapply handles_bind; [apply handles_copy_lib_file|]. intros _ _.
    eapply handles_bind; [apply handles_copy_lib_file|]. intros _ _.
    eapply handles_bind; [apply handles_write|]. intros _ _.
    eapply handles_bind; [apply handles_create_file|]. intros bootstrap_f <-.
    eapply handles_bind; [apply handles_write|]. intros _ _.
    eapply handles_bind; [apply handles_close|]. intros _ _.
    eapply handles_bind; [apply handles_freeze|]. intros _ _.
    eapply handles_bind; [apply handles_freeze|]. intros _ _.
    eapply handles_bind; [apply handles_create_file|]. intros version_f <-.
    eapply handles_bind; [apply handles_write|]. intros _ _.
    eapply handles_bind; [apply handles_close|]. intros _ _.
    apply handles_close.
  - reflexivity.
Qed.



(** ** Loading: the exceptions *)

Lemma Element_tree_ind (P : Element -> Prop) :
  (forall tag attrib children, Forall P children -> P (Elem tag attrib children)) ->
  forall e, P e.
Proof.
  intros H. fix IH 1. intros [tag attrib children]. apply H.
  induction children as [|x l IHl]; constructor; [apply IH | apply IHl].
Qed.

Section RaisesOnly.
Context (os : OS) (P : exn -> Prop).
Hypothesis user : forall s d, P (UserException s d).
Hypothesis recursion :
  forall text n, recursion_ok os n = false -> P (RecursionError text).

Lemma ro_ok {A : Type} (a : A) : raises_only P (Ok a).
Proof using All.
  intros e H. discriminate H. Qed.

Lemma ro_user {A : Type} (s d : string) :
  raises_only P (Raise (UserException s d) : result A).
Proof using All.
  intros e H. injection H as <-. apply user. Qed.

Lemma ro_bind {A B : Type} (m : result A) (k : A -> result B) :
  raises_only P m -> (forall a, raises_only P (k a)) ->
  raises_only P (m ≫= k).
Proof using All.
  intros Hm Hk e. destruct m as [a|e'].
  - exact (Hk a e).
  - intros H. injection H as <-. now apply (Hm e').
Qed.

Lemma ro_assert (ok : bool) (detail : string) :
  raises_only P (_assert ok detail).
Proof using All.
  unfold _assert. destruct ok; [apply ro_ok | apply ro_user]. Qed.

Lemma ro_get_bool (e : Element) (name context : string) :
  raises_only P (_get_bool e name context).
Proof using All.
  unfold _get_bool. apply ro_bind; [apply ro_assert | intros _; apply ro_ok].
Qed.

Lemma ro_find_required (e : Element) (tag detail : string) :
  raises_only P (find_required e tag detail).
Proof using All.
  unfold find_required. destruct (el_find e tag); [apply ro_ok | apply ro_user].
Qed.

Lemma ro_get_required (e : Element) (name detail : string) :
  raises_only P (get_required e name detail).
Proof using All.
  unfold get_required. destruct (el_get e name); [apply ro_ok | apply ro_user].
Qed.

Lemma ro_enter_nested (depth : nat) : raises_only P (enter_nested os depth).
Proof using All.
  unfold enter_nested. destruct (recursion_ok os depth) eqn:E; [apply ro_ok|].
  intros e H. injection H as <-. now apply (recursion _ depth).
Qed.

Lemma ro_map_result {A B : Type} (f : A -> result B) (l : list A) :
  Forall (fun x => raises_only P (f x)) l -> raises_only P (map_result f l).
Proof using All.
  induction 1 as [|x l Hx _ IH]; cbn [map_result]; [apply ro_ok|].
  apply ro_bind; [exact Hx|]. intros y.
  apply ro_bind; [exact IH|]. intros r. apply ro_ok.
Qed.

Lemma ro_map_result_all {A B : Type} (f : A -> result B) (l : list A) :
  (forall x, raises_only P (f x)) -> raises_only P (map_result f l).
Proof using All.
  intros H. apply ro_map_result, Forall_forall. intros x _. apply H. Qed.

Lemma ro_load_content (e : Element) :
  forall depth, raises_only P (load_content os depth e).
Proof using All.
  induction e as [tag attrib children IH] using Element_tree_ind.
  intros depth. cbn [load_content].
  apply ro_bind; [apply ro_get_bool|]. intros isdir.
  apply ro_bind; [apply ro_assert|]. intros _.
  apply ro_bind; [apply ro_get_bool|]. intros included.
  destruct isdir; [|apply ro_ok].
  apply ro_bind; [apply ro_enter_nested|]. intros _.
  apply ro_bind; [|intros cs; apply ro_ok].
  induction IH as [|x l Hx _ IHl]; [apply ro_ok|].
  destruct (String.eqb (el_tag x) "PackageContent"); [|exact IHl].
  apply ro_bind; [apply Hx|]. intros c.
  apply ro_bind; [exact IHl|]. intros r. apply ro_ok.
Qed.

Lemma ro_load_package (e : Element) : raises_only P (_load_package os e).
Proof using All.
  unfold _load_package, _load_mfs_contents. cbv zeta.
  apply ro_bind; [apply ro_assert|]. intros _.
  apply ro_bind; [apply ro_map_result_all; intros x; apply ro_load_content|].
  intros cs.
  apply ro_bind; [|intros xs; apply ro_ok].
  apply ro_map_result_all. intros x.
  apply ro_bind; [apply ro_assert | intros _; apply ro_ok].
Qed.

Ltac ro :=
  repeat first
    [ apply ro_ok | apply ro_user | apply ro_assert | apply ro_get_bool
    | apply ro_find_required | apply ro_get_required | apply ro_load_package
    | apply ro_map_result_all; intros ?
    | apply ro_bind; [|intros ?]
    | match goal with
      | |- raises_only _ (if ?c then _ else _) => destruct c
      | |- raises_only _ (match ?x with _ => _ end) => destruct x
      | |- raises_only _ (let '(_, _) := ?x in _) => destruct x
      end ].

Lemma ro_load_root (abs_filename : string) (root : Element) :
  raises_only P (load_root os abs_filename root).
Proof using All.
  unfold load_root. cbv zeta. ro. Qed.
End RaisesOnly.

Lemma abspath_ok (os : OS) (filename abs_filename : string) :
  os_path_abspath os filename = Ok abs_filename ->
  abs_filename = abspath os filename.
Proof.
  unfold os_path_abspath. destruct (OsPath.isabs filename).
  - intros H. now injection H.
  - destruct (getcwd_error os); intros H; [discriminate H | now injection H].
Qed.

(** X17.  The exceptions that leave [Project.load]: a [UserException],
    when the file cannot be parsed, when the document is not a project,
    when its version is missing, not a number or too new, and when an
    element or an attribute is missing, empty or not a boolean; the
    [RecursionError] of directories nested deeper than the recursion limit
    allows; and, for a file name that is not absolute, the [OSError] of a
    working directory that is gone.  Nothing else is raised, and the last
    two are not turned into a [UserException]. *)
Theorem load_exceptions (os : OS) (d : disk) (filename : string) (e : exn) :
  load os d filename = Raise e -> load_exception os filename e.
Proof.
  unfold load, os_path_abspath.
  destruct (OsPath.isabs filename) eqn:Ha.
  - cbn. destruct (d !! abspath os filename) as [root|].
    + apply (ro_load_root os (load_exception os filename));
        [intros s t; now left | intros text n H; right; left; eauto].
    + intros H. injection H as <-. now left.
  - destruct (getcwd_error os) as [text|] eqn:Hc.
    + intros H. injection H as <-. right. right. now exists text.
    + cbn. destruct (d !! abspath os filename) as [root|].
      * apply (ro_load_root os (load_exception os filename));
          [intros s t; now left | intros text n H; right; left; eauto].
      * intros H. injection H as <-. now left.
Qed.

(** A document with three directories, one in the other, where the
    recursion limit allows two. *)
Lemma load_exceptions_witness :
  load os_shallow (<["/proj/deep.pdy" := deep_document]> ∅) "/proj/deep.pdy"
  = Raise (RecursionError "maximum recursion depth exceeded")
  /\ load_exception os_shallow "/proj/deep.pdy"
       (RecursionError "maximum recursion depth exceeded").
Proof.
  assert (H : load os_shallow (<["/proj/deep.pdy" := deep_document]> ∅)
                "/proj/deep.pdy"
              = Raise (RecursionError "maximum recursion depth exceeded")).
  { rewrite (load_at os_shallow _ _ "/proj/deep.pdy" deep_document)
      by (reflexivity || apply lookup_insert_eq).
    vm_compute. reflexivity. }
  split; [exact H|].
  exact (load_exceptions os_shallow _ "/proj/deep.pdy" _ H).
Defined.

(** ** Loading: what a loaded project is *)

Lemma result_bind_inv {A B : Type} (m : result A) (k : A -> result B) (y : B) :
  (m ≫= k) = Ok y -> exists a, m = Ok a /\ k a = Ok y.
Proof. destruct m as [a|e]; intros H; [now exists a | discriminate H]. Qed.

Lemma assert_inv (ok : bool) (detail : string) (u : unit) :
  _assert ok detail = Ok u -> ok = true.
Proof. destruct ok; [reflexivity | intros H; discriminate H]. Qed.

Lemma enter_nested_inv (os : OS) (depth : nat) (u : unit) :
  enter_nested os depth = Ok u -> recursion_ok os depth = true.
Proof.
  unfold enter_nested. destruct (recursion_ok os depth);
    [reflexivity | intros H; discriminate H].
Qed.

Lemma map_result_inv {A B : Type} (f : A -> result B) (l : list A)
    (ys : list B) :
  map_result f l = Ok ys -> Forall2 (fun x y => f x = Ok y) l ys.
Proof.
  revert ys. induction l as [|x l IH]; intros ys; cbn [map_result].
  - intros H. injection H as <-. constructor.
  - intros H. apply result_bind_inv in H as (y & Hy & H).
    apply result_bind_inv in H as (r & Hr & H). injection H as <-.
    constructor; [exact Hy | now apply IH].
Qed.

(** What [load] reads has names, and is nested as the limit allows. *)
Lemma load_content_named (os : OS) (e : Element) :
  forall depth c,
    load_content os depth e = Ok c ->
    content_named c = true /\ nesting_ok os depth c = true.
Proof.
  induction e as [tag attrib children IH] using Element_tree_ind.
  intros depth c H. cbn [load_content] in H.
  apply result_bind_inv in H as (isdir & _ & H).
  apply result_bind_inv in H as (u & Hn & H). apply assert_inv in Hn.
  apply result_bind_inv in H as (included & _ & H).
  destruct isdir.
  - apply result_bind_inv in H as (u' & Hr & H). apply enter_nested_inv in Hr.
    apply result_bind_inv in H as (cs & Hcs & H). injection H as <-.
    cbn [content_named content_name nesting_ok]. rewrite Hn, Hr. cbn [andb].
    clear Hn Hr. revert cs Hcs.
    induction IH as [|x l Hx _ IHl]; intros cs Hcs.
    + injection Hcs as <-. now split.
    + destruct (String.eqb (el_tag x) "PackageContent"); [|now apply IHl].
      apply result_bind_inv in Hcs as (c & Hc & Hcs).
      apply result_bind_inv in Hcs as (r & Hr & Hcs). injection Hcs as <-.
      cbn [forallb]. destruct (Hx _ _ Hc) as [-> ->].
      destruct (IHl r Hr) as [-> ->]. now split.
  - injection H as <-. cbn [content_named content_name nesting_ok].
    now rewrite Hn.
Qed.

Lemma forallb_Forall2 {A B : Type} (P : A -> B -> Prop) (q : B -> bool)
    (l : list A) (ys : list B) :
  (forall x y, P x y -> q y = true) -> Forall2 P l ys -> forallb q ys = true.
Proof.
  intros H. induction 1 as [|x y l ys Hxy _ IH]; [reflexivity|].
  cbn [forallb]. now rewrite (H x y Hxy), IH.
Qed.

Lemma load_package_named (os : OS) (e : Element) (p : QrcPackage.t) :
  _load_package os e = Ok p ->
  package_named p = true /\ package_nesting_ok os p = true.
Proof.
  unfold _load_package, _load_mfs_contents. cbv zeta. intros H.
  apply result_bind_inv in H as (u & _ & H).
  apply result_bind_inv in H as (cs & Hcs & H).
  apply result_bind_inv in H as (xs & Hxs & H). injection H as <-.
  unfold package_named, package_nesting_ok.
  cbn [QrcPackage.contents QrcPackage.exclusions].
  apply map_result_inv in Hcs. split; [apply andb_true_iff; split|].
  - revert Hcs. apply forallb_Forall2.
    intros x y Hxy. now apply load_content_named in Hxy.
  - apply map_result_inv in Hxs. revert Hxs. apply forallb_Forall2.
    intros x y Hxy. apply result_bind_inv in Hxy as (u' & Hn & Hxy).
    injection Hxy as <-. apply assert_inv in Hn. exact Hn.
  - revert Hcs. apply forallb_Forall2.
    intros x y Hxy. now apply load_content_named in Hxy.
Qed.

Lemma migrated_named (q : QrcPackage.t -> bool) (n : string)
    (packages : list QrcPackage.t) :
  (forall p, q (QrcPackage.with_name n p) = q p) ->
  forallb q packages = true -> forallb q (migrated n packages) = true.
Proof.
  intros Hq. unfold migrated. destruct packages as [|first rest]; [auto|].
  cbn [forallb]. intros H. apply andb_true_iff in H as [H1 H2].
  destruct (String.eqb _ ""); [|cbn [forallb]; now rewrite H1, H2].
  destruct (_ =? 0)%nat; [exact H2|]. cbn [forallb]. now rewrite Hq, H1, H2.
Qed.

(** What [load] has checked and read when it returns. *)
Lemma load_root_inv (os : OS) (abs_filename : string) (root : Element)
    (p : Project.t) :
  load_root os abs_filename root = Ok p ->
  el_tag root = "Project"
  /\ (exists s v, el_get root "version" = Some s /\ Py.int_of_str s = Some v
                  /\ (v <= Project.version)%Z)
  /\ Project._name p = abs_filename /\ Project._modified p = false
  /\ package_named (Project.application_package p) = true
  /\ package_named (Project.stdlib_package p) = true
  /\ forallb package_named (Project.packages p) = true
  /\ forallb nonempty (Project.pyqt_modules p) = true
  /\ project_nesting_ok os p = true.
Proof.
  unfold load_root. cbv zeta. intros H.
  apply result_bind_inv in H as (u & Htag & H). apply assert_inv in Htag.
  apply String.eqb_eq in Htag.
  apply result_bind_inv in H as (s & Hs & H).
  apply result_bind_inv in H as (v & Hv & H).
  apply result_bind_inv in H as (u' & Hle & H).
  apply result_bind_inv in H as (python & Hpy & H).
  apply result_bind_inv in H as (application & Happ & H).
  apply result_bind_inv in H as (is5 & H5 & H).
  apply result_bind_inv in H as (app_package & Hap & H).
  apply result_bind_inv in H as (application_package & Hlap & H).
  apply result_bind_inv in H as (pyqt_modules & Hmods & H).
  apply result_bind_inv in H as (site_packages & Hsp & H).
  apply result_bind_inv in H as (packages & Hpk & H).
  apply result_bind_inv in H as (stdlib & Hstd & H).
  apply result_bind_inv in H as (stdlib_el & Hsel & H).
  apply result_bind_inv in H as (stdlib_package & Hlsp & H).
  apply result_bind_inv in H as (sems & Hsems & H).
  apply result_bind_inv in H as (ems & Hems & H).
  split; [exact Htag|]. split.
  { unfold get_required in Hs. destruct (el_get root "version") as [s'|];
      [|discriminate Hs]. injection Hs as ->. exists s, v.
    split; [reflexivity|].
    destruct (Py.int_of_str s) as [v'|]; [|discriminate Hv].
    injection Hv as ->. split; [reflexivity|].
    destruct (Z.ltb_spec Project.version v); [discriminate Hle | assumption]. }
  apply map_result_inv in Hpk.
  assert (Hpn : forallb package_named packages = true).
  { revert Hpk. apply forallb_Forall2.
    intros x y Hxy. now apply load_package_named in Hxy. }
  assert (Hpd : forallb (package_nesting_ok os) packages = true).
  { revert Hpk. apply forallb_Forall2.
    intros x y Hxy. now apply load_package_named in Hxy. }
  assert (Hmn : forallb nonempty pyqt_modules = true).
  { apply map_result_inv in Hmods. revert Hmods. apply forallb_Forall2.
    intros x y Hxy. apply result_bind_inv in Hxy as (u'' & Hn & Hxy).
    injection Hxy as <-. apply assert_inv in Hn. exact Hn. }
  apply load_package_named in Hlap as [Hlap Hdap].
  apply load_package_named in Hlsp as [Hlsp Hdsp].
  destruct (el_find root "Others") as [others|]; injection H as <-;
    unfold project_nesting_ok;
    cbn [Project._name Project._modified Project.application_package
         Project.stdlib_package Project.packages Project.pyqt_modules
         Project.build_dir Project.qmake];
    rewrite Hdap, Hdsp; cbn [andb];
    (repeat split; try assumption;
     first [ apply (migrated_named package_named _ packages);
             [reflexivity | assumption]
           | apply (migrated_named (package_nesting_ok os) _ packages);
             [reflexivity | assumption] ]).
Qed.

Lemma load_inv (os : OS) (d : disk) (filename : string) (p : Project.t) :
  load os d filename = Ok p ->
  exists root,
    os_path_abspath os filename = Ok (abspath os filename)
    /\ d !! abspath os filename = Some root
    /\ load_root os (abspath os filename) root = Ok p.
Proof.
  unfold load. destruct (os_path_abspath os filename) as [a|e] eqn:E;
    [|intros H; discriminate H].
  pose proof (abspath_ok _ _ _ E) as ->. cbn.
  destruct (d !! abspath os filename) as [root|]; [|intros H; discriminate H].
  intros H. now exists root.
Qed.

Lemma sample_loaded :
  load os_ok sample_disk "/proj/app.pdy"
  = Ok (set_name "/proj/app.pdy" (set_modified false library_project)).
Proof.
  rewrite (load_at os_ok _ _ "/proj/app.pdy" (save_root library_project))
    by (reflexivity || apply lookup_insert_eq).
  vm_compute. reflexivity.
Qed.

(** X19.  A project that [Project.load] returns has the absolute name of
    the file as its name, is not modified, and has no empty name in it: not
    of a file or directory of the application package, of the stdlib
    package or of another package, at any depth, not of an exclusion
    pattern and not of a PyQt module. *)
Theorem loaded_project_names (os : OS) (d : disk) (filename : string)
    (p : Project.t) :
  load os d filename = Ok p ->
  Project._name p = abspath os filename
  /\ Project._modified p = false
  /\ package_named (Project.application_package p) = true
  /\ package_named (Project.stdlib_package p) = true
  /\ forallb package_named (Project.packages p) = true
  /\ forallb nonempty (Project.pyqt_modules p) = true.
Proof.
  intros H. apply load_inv in H as (root & _ & _ & H).
  apply load_root_inv in H as (_ & _ & H1 & H2 & H3 & H4 & H5 & H6 & _).
  auto 10.
Qed.

Lemma loaded_project_names_witness :
  let p := set_name "/proj/app.pdy" (set_modified false library_project) in
  load os_ok sample_disk "/proj/app.pdy" = Ok p
  /\ Project._name p = "/proj/app.pdy"
  /\ forallb package_named (Project.packages p) = true.
Proof.
  intros p. split; [exact sample_loaded|].
  destruct (loaded_project_names os_ok sample_disk "/proj/app.pdy" p
              sample_loaded) as (H1 & _ & _ & _ & H5 & _).
  split; [exact H1 | exact H5].
Defined.

(** X18.  The version check of [Project.load], for a file that is read and
    whose version attribute is in ASCII.  The document is accepted only
    when its root is a Project element with a version that [int] reads as
    a number that is at most 3, with no lower bound; a version that reads
    as a greater number is refused with the [UserException] that names
    both versions. *)
Theorem load_checks_version (os : OS) (d : disk) (filename : string)
    (root : Element) :
  os_path_abspath os filename = Ok (abspath os filename) ->
  d !! abspath os filename = Some root ->
  (forall p,
      load os d filename = Ok p ->
      el_tag root = "Project"
      /\ exists s,
           el_get root "version" = Some s
           /\ (is_ascii s = true ->
               exists v, Py.int_of_str s = Some v /\ (v <= 3)%Z))
  /\ (forall s v,
         el_tag root = "Project" -> el_get root "version" = Some s ->
         is_ascii s = true -> Py.int_of_str s = Some v -> (3 < v)%Z ->
         load os d filename
         = Raise (UserException
                    ("The project's format is version " +:+ str_of_Z v
                     +:+ " but only version 3 is supported.") "")).
Proof.
  intros Ha Hd. rewrite (load_at os d filename _ root Ha Hd). split.
  - intros p H.
    apply load_root_inv in H as (Ht & (s & v & Hs & Hv & Hle) & _).
    split; [exact Ht|]. exists s. split; [exact Hs|]. intros _. now exists v.
  - intros s v Ht Hs _ Hv Hlt.
    unfold load_root, get_required. rewrite Ht.
    change (String.eqb "Project" "Project") with true.
    cbn [_assert]. rewrite result_bind_Ok, Hs, result_bind_Ok. cbv beta.
    rewrite Hv, result_bind_Ok. cbv beta.
    destruct (Z.ltb_spec Project.version v) as [_|Hge];
      [reflexivity | unfold Project.version in Hge; lia].
Qed.

(** A document of version 4 is refused; one of version 0 is loaded. *)
Lemma load_checks_version_witness :
  load os_ok (<["/proj/new.pdy" := newer_document]> ∅) "/proj/new.pdy"
  = Raise (UserException
             "The project's format is version 4 but only version 3 is supported."
             "")
  /\ exists p,
       load os_ok (<["/proj/old.pdy" := old_document]> ∅) "/proj/old.pdy"
       = Ok p
       /\ el_get old_document "version" = Some "0".
Proof.
  split.
  - destruct (load_checks_version os_ok
                (<["/proj/new.pdy" := newer_document]> ∅) "/proj/new.pdy"
                newer_document) as [_ H];
      [reflexivity | apply lookup_insert_eq |].
    apply (H "4" 4%Z); [reflexivity | reflexivity | reflexivity | reflexivity | lia].
  - eexists. split; [|reflexivity].
    rewrite (load_at os_ok _ _ "/proj/old.pdy" old_document)
      by (reflexivity || apply lookup_insert_eq).
    vm_compute. reflexivity.
Defined.

Lemma loaded_eta (p : Project.t) (n : string) :
  Project._name p = n -> Project._modified p = false ->
  set_name n (set_modified false p) = p.
Proof. destruct p. cbn. now intros -> ->. Qed.

(** X22.  A loaded project is stable: when its first package, if it has
    one, has a name, saving the project that [load] returned and loading
    the same file again gives that project again, in every field. *)
Theorem load_save_load (os : OS) (writable : string -> option string)
    (d : disk) (filename : string) (p : Project.t) :
  load os d filename = Ok p ->
  match Project.packages p with
  | first :: _ => QrcPackage.name first <> ""
  | [] => True
  end ->
  writable (Project._name p) = None ->
  exists d', save writable p d = Ok (p, d') /\ load os d' filename = Ok p.
Proof.
  intros H Hfirst Hw. apply load_inv in H as (root & Ha & _ & H).
  apply load_root_inv in H as (_ & _ & Hn & Hm & H3 & H4 & H5 & H6 & Hd).
  assert (Hr : reloadable p = true).
  { unfold reloadable. rewrite H3, H4, H5, H6. cbn [andb].
    destruct (Project.packages p) as [|first rest]; [reflexivity|].
    unfold nonempty. now destruct (String.eqb_spec (QrcPackage.name first) ""). }
  exists (<[Project._name p := save_root p]> d).
  unfold save, _save_project. rewrite Hw. split.
  - f_equal. f_equal. destruct p. cbn in Hm |- *. now rewrite Hm.
  - rewrite (load_at os _ filename _ (save_root p) Ha)
      by (rewrite <- Hn; apply lookup_insert_eq).
    rewrite (load_root_saved os _ p Hr Hd). f_equal. now apply loaded_eta.
Qed.

Lemma load_save_load_witness :
  let p := set_name "/proj/app.pdy" (set_modified false library_project) in
  load os_ok sample_disk "/proj/app.pdy" = Ok p
  /\ exists d',
       save (fun _ => None) p sample_disk = Ok (p, d')
       /\ load os_ok d' "/proj/app.pdy" = Ok p.
Proof.
  intros p. split; [exact sample_loaded|].
  apply (load_save_load os_ok (fun _ => None) sample_disk "/proj/app.pdy" p
           sample_loaded); [vm_compute; intros E; discriminate E | reflexivity].
Defined.

(** ** Loading: what is ignored *)

Lemma load_root_reads (os : OS) (abs_filename : string)
    (root1 root2 : Element) :
  el_tag root1 = el_tag root2 ->
  el_get root1 "version" = el_get root2 "version" ->
  el_find root1 "Python" = el_find root2 "Python" ->
  el_find root1 "Application" = el_find root2 "Application" ->
  el_find root1 "Others" = el_find root2 "Others" ->
  load_root os abs_filename root1 = load_root os abs_filename root2.
Proof.
  intros Ht Hv Hp Ha Ho. unfold load_root, get_required, find_required.
  now rewrite Ht, Hv, Hp, Ha, Ho.
Qed.

Lemma el_find_other (tag : string) (attrib : dict string)
    (before after : list Element) (extra : Element) (t : string) :
  el_tag extra <> t ->
  el_find (Elem tag attrib (before ++ extra :: after)) t
  = el_find (Elem tag attrib (before ++ after)) t.
Proof.
  intros H. unfold el_find, el_iterfind. cbn [el_children].
  rewrite !List.filter_app. cbn [List.filter].
  now destruct (String.eqb_spec (el_tag extra) t).
Qed.

(** X21.  [Project.load] ignores what it does not know: an element of the
    root of the document whose tag is not Python, Application or Others,
    wherever it stands among the others, changes nothing, neither the
    project that is loaded nor the exception that is raised. *)
Theorem load_ignores_other_elements (os : OS) (d : disk)
    (filename tag : string) (attrib : dict string)
    (before after : list Element) (extra : Element) :
  el_tag extra <> "Python" -> el_tag extra <> "Application" ->
  el_tag extra <> "Others" ->
  load os (<[abspath os filename := Elem tag attrib (before ++ extra :: after)]> d)
    filename
  = load os (<[abspath os filename := Elem tag attrib (before ++ after)]> d)
      filename.
Proof.
  intros Hp Ha Ho. unfold load.
  destruct (os_path_abspath os filename) as [a|e] eqn:E; [|reflexivity].
  pose proof (abspath_ok _ _ _ E) as ->. cbn. rewrite !lookup_insert_eq.
  apply load_root_reads; try reflexivity; now apply el_find_other.
Qed.

Lemma load_ignores_other_elements_witness :
  load os_ok
    (<["/proj/app.pdy" :=
         Elem "Project" [("version", "3")]
           ([application_element library_project;
             python_element library_project]
            ++ Elem "Plugins" [("count", "2")] []
            :: [others_element library_project])]> ∅) "/proj/app.pdy"
  = load os_ok
      (<["/proj/app.pdy" :=
           Elem "Project" [("version", "3")]
             ([application_element library_project;
               python_element library_project]
              ++ [others_element library_project])]> ∅) "/proj/app.pdy".
Proof.
  apply (load_ignores_other_elements os_ok ∅ "/proj/app.pdy" "Project"
           [("version", "3")]); discriminate.
Defined.

(** ** The archive of a package *)

Lemma append_nil_r (s : string) : s +:+ "" = s.
Proof.
  induction s as [|a s IH]; [reflexivity|].
  change (String a s +:+ "") with (String a (s +:+ "")). now rewrite IH.
Qed.

Lemma join2_empty (a b : string) :
  OsPath.join2 (OsPath.join2 a "") b = OsPath.join2 a b.
Proof.
  unfold OsPath.join2.
  change (Py.startswith "" "/") with false. cbv iota.
  destruct (Py.startswith b "/"); [reflexivity|].
  destruct (String.eqb_spec a "") as [->|Ha]; cbn [orb]; [reflexivity|].
  destruct (Py.endswith a "/") eqn:E.
  - rewrite append_nil_r, E.
    destruct (String.eqb_spec a "") as [Ha'|_]; [contradiction|reflexivity].
  - change (a +:+ "/" +:+ "") with (a +:+ "/").
    rewrite (endswith_app a "/"), orb_true_r.
    now rewrite append_assoc.
Qed.

Lemma join_empty (a b : string) : OsPath.join a [""; b] = OsPath.join a [b].
Proof. unfold OsPath.join. cbn [fold_left]. apply join2_empty. Qed.

Lemma join2_named (a b : string) : named a -> named (OsPath.join2 a b).
Proof.
  intros [Ha Hd]. unfold OsPath.join2.
  destruct (Py.startswith b "/") eqn:Hb.
  - destruct b as [|c b]; [discriminate Hb|].
    unfold Py.startswith in Hb. cbn [String.prefix] in Hb.
    destruct (Ascii.ascii_dec "/" c) as [<-|]; [|discriminate Hb].
    split; intros H; [discriminate H|]. injection H as H. discriminate H.
  - destruct a as [|x a]; [contradiction|].
    destruct (String.eqb (String x a) "" || Py.endswith (String x a) "/").
    + change (String x a +:+ b) with (String x (a +:+ b)).
      split; [discriminate|]. intros H. injection H as -> H.
      destruct a; [now elim Hd | discriminate H].
    + change (String x a +:+ "/" +:+ b) with (String x (a +:+ "/" +:+ b)).
      split; [discriminate|]. intros H. injection H as -> H.
      destruct a; discriminate H.
Qed.

Lemma join_named (a : string) (p : list string) :
  named a -> named (OsPath.join a p).
Proof.
  unfold OsPath.join. revert a. induction p as [|b p IH]; intros a H; [exact H|].
  cbn [fold_left]. now apply IH, join2_named.
Qed.

Lemma relative_dir_named (dirs : list string) :
  dirs <> [] -> dirs_ok dirs -> named (relative_dir dirs).
Proof.
  destruct dirs as [|d ds]; [contradiction|]. intros _ H. now apply join_named.
Qed.

Lemma dirs_ok_app (dirs : list string) (name : string) :
  dirs_ok dirs -> named name -> dirs_ok (dirs ++ [name]).
Proof. destruct dirs; cbn; auto. Qed.

Lemma freeze_ok_events os b output py freeze main as_data tr tr' :
  _freeze os b output py freeze main as_data tr = (Ok tt, tr') ->
  tr' = tr ++ (if Builder._verbose b
               then [Print ("Running '" +:+
                            Py.str_join " "
                              (freeze_args b output py freeze main as_data)
                            +:+ "'")]
               else [])
           ++ [CheckOutput (freeze_args b output py freeze main as_data)].
Proof.
  unfold _freeze. run.
  destruct (check_output os _ _) as [code out|text|text|text]; run;
    try (intros H; discriminate H).
  destruct code; run; intros H; try discriminate H.
  injection H as <-. now rewrite <- app_assoc.
Qed.

Section Archive.
Context (os : OS) (b : Builder.t) (dst_root_dir src_root_dir freeze f : string).

Let body := write_content os b dst_root_dir src_root_dir freeze f.

Let resource_prefix : list string :=
  if negb (String.eqb (OsPath.basename dst_root_dir) "resources")
  then [OsPath.basename dst_root_dir] else [].

Let events :=
  archive_events b freeze f src_root_dir dst_root_dir resource_prefix.

Let at_dirs := context_at dst_root_dir resource_prefix.

Lemma enter_at (dirs : list string) (tr : trace) (c : dir_context)
    (tr' : trace) :
  dirs <> [] -> dirs_ok dirs ->
  enter_directory os dst_root_dir dirs tr = (Ok c, tr') ->
  at_dirs dirs c
  /\ tr' = tr ++ [Makedirs (OsPath.join dst_root_dir [relative_dir dirs])].
Proof.
  intros Hne Hok H.
  destruct (relative_dir_named dirs Hne Hok) as [H1 H2].
  apply enter_directory_ok in H as (Hp & Hj & H).
  assert (Ht : dir_tail c = relative_dir dirs).
  { destruct dirs as [|d ds]; [contradiction|]. cbn in Hj. now injection Hj. }
  rewrite Ht in H.
  destruct (String.eqb_spec (relative_dir dirs) "") as [E|_]; [contradiction|].
  destruct (String.eqb_spec (relative_dir dirs) ".") as [E|_]; [contradiction|].
  destruct H as (Hs & Hd & ->). split; [|reflexivity].
  unfold at_dirs, context_at.
  destruct (String.eqb_spec (relative_dir dirs) "") as [E|_]; [contradiction|].
  auto.
Qed.

Lemma write_file_at (dirs : list string) (c : dir_context) (name : string)
    (tr tr' : trace) :
  dirs_ok dirs -> at_dirs dirs c ->
  write_file os b src_root_dir freeze f c name tr = (Ok tt, tr') ->
  tr' = tr ++ events dirs (QrcFile name true).
Proof.
  intros Hok (Ht & Hs & Hd & Hp). unfold write_file, events.
  cbn [archive_events content_included negb].
  change (archived_name name) with (dst_file_of name).
  destruct (dst_file_of name) as [target frozen].
  assert (Hpath : file_entry (file_path_of c target)
                  = manifest_entry (resource_prefix ++ dirs ++ [target])).
  { unfold file_path_of. rewrite Hp, Ht, Hs.
    destruct dirs as [|d ds].
    - reflexivity.
    - destruct (relative_dir_named (d :: ds)) as [H1 _]; [discriminate|exact Hok|].
      destruct (String.eqb_spec (relative_dir (d :: ds)) "") as [E|_];
        [contradiction|].
      cbn [negb]. now rewrite <- app_assoc. }
  assert (Hdst : OsPath.join (dst_dir c) [target]
                 = OsPath.join dst_root_dir [relative_dir dirs; target]).
  { rewrite Hd. destruct (String.eqb_spec (relative_dir dirs) "") as [->|_].
    - now rewrite join_empty.
    - reflexivity. }
  rewrite Ht, Hdst. run. rewrite Hpath.
  destruct frozen; run.
  - match goal with
    | |- context [_freeze ?a1 ?a2 ?a3 ?a4 ?a5 ?a6 ?a7 ?a8] =>
        destruct (_freeze a1 a2 a3 a4 a5 a6 a7 a8) as [[[]|e] tr1] eqn:E
    end; intros H; [|discriminate H].
    injection H as <-. apply freeze_ok_events in E. rewrite E.
    now rewrite <- app_assoc.
  - destruct (copyfile os _ _ _); run; intros H; [discriminate H|].
    injection H as <-. now rewrite <- app_assoc.
Qed.

Let refines (x : QrcContent) : Prop :=
  forall dirs c tr tr',
    dirs_ok dirs -> at_dirs dirs c -> plain_directories x = true ->
    body c x tr = (Ok tt, tr') -> tr' = tr ++ events dirs x.

Lemma for_each_refines (l : list QrcContent) :
  Forall refines l ->
  forall dirs c tr tr',
    dirs_ok dirs -> at_dirs dirs c ->
    forallb plain_directories l = true ->
    for_each (body c) l tr = (Ok tt, tr') ->
    tr' = tr ++ flat_map (events dirs) l.
Proof.
  induction 1 as [|x l Hx _ IH]; intros dirs c tr tr' Hok Hc Hp H.
  - injection H as <-. cbn. now rewrite app_nil_r.
  - cbn [forallb] in Hp. apply andb_true_iff in Hp as [Hpx Hpl].
    cbn [for_each] in H. apply bind_ok in H as ([] & tr1 & H1 & H2).
    apply (Hx dirs c) in H1; [|assumption..]. subst tr1.
    apply (IH dirs c) in H2; [|assumption..]. subst tr'.
    cbn [flat_map]. now rewrite <- app_assoc.
Qed.

Lemma content_refines (x : QrcContent) : refines x.
Proof.
  induction x as [name included|name included contents IH]
    using QrcContent_tree_ind; intros dirs c tr tr' Hok Hc Hp H.
  - destruct included.
    + unfold body in H. rewrite write_content_file in H.
      now apply (write_file_at dirs c name).
    + injection H as <-. cbn. now rewrite app_nil_r.
  - destruct included.
    + unfold body in H. rewrite write_content_directory in H.
      unfold _write_package_contents in H.
      apply bind_ok in H as (c' & tr1 & H1 & H2).
      cbn [plain_directories] in Hp. apply andb_true_iff in Hp as [Hn Hpl].
      apply andb_true_iff in Hn as [Hn1 Hn2].
      assert (Hnamed : named name).
      { split; intros ->; [discriminate Hn1 | discriminate Hn2]. }
      destruct Hc as (Ht & Hs & Hd & Hpre). rewrite Hs in H1.
      apply enter_at in H1 as [Hc' ->];
        [|now destruct dirs | now apply dirs_ok_app].
      apply (for_each_refines contents IH (dirs ++ [name]) c') in H2;
        [|now apply dirs_ok_app | assumption..].
      subst tr'. unfold events. cbn [archive_events content_included negb].
      now rewrite <- app_assoc.
    + injection H as <-. cbn. now rewrite app_nil_r.
Qed.

(** The traversal of a package from its root [src_root]. *)
Lemma package_refines (contents : list QrcContent) (src_root : string)
    (tr tr' : trace) :
  src_root <> "." ->
  forallb plain_directories contents = true ->
  _write_package_contents os b contents dst_root_dir src_root_dir [src_root]
    freeze f tr = (Ok tt, tr') ->
  tr' = tr ++ (if String.eqb src_root "" then []
               else [Makedirs (OsPath.join dst_root_dir [src_root])])
           ++ flat_map (events (if String.eqb src_root "" then []
                                else [src_root]))
                contents.
Proof.
  intros Hdot Hp H. unfold _write_package_contents in H.
  apply bind_ok in H as (c & tr1 & H1 & H2).
  destruct (String.eqb_spec src_root "") as [->|Hne].
  - apply enter_directory_ok in H1 as (Hpre & Hj & H1).
    cbn in Hj. injection Hj as Hj. rewrite <- Hj in H1.
    change (String.eqb "" "") with true in H1. cbv iota in H1.
    destruct H1 as (Hs & Hd & ->).
    apply (for_each_refines contents) with (dirs := []) in H2;
      [exact H2 | | exact I | | exact Hp].
    + apply Forall_forall. intros x _. apply content_refines.
    + unfold at_dirs, context_at. cbn [relative_dir].
      change (String.eqb "" "") with true. cbv iota. auto.
  - apply enter_at in H1 as [Hc ->]; [|discriminate | now split].
    apply (for_each_refines contents) with (dirs := [src_root]) in H2;
      [| | now split | exact Hc | exact Hp].
    + subst tr'. now rewrite <- app_assoc.
    + apply Forall_forall. intros x _. apply content_refines.
Qed.

(** In an environment where the operations succeed the traversal
    returns. *)
Let returns (x : QrcContent) : Prop :=
  forall c tr, exists tr', body c x tr = (Ok tt, tr').

Lemma enter_returns (stack : list string) (tr : trace) :
  archive_succeeds os -> stack <> [] ->
  exists c tr', enter_directory os dst_root_dir stack tr = (Ok c, tr').
Proof.
  intros (Hm & _) Hne. unfold enter_directory.
  destruct stack as [|a p]; [contradiction|]. cbn [join_star]. run.
  destruct (String.eqb (OsPath.join a p) ""); run; [eauto|].
  unfold _create_directory. run. rewrite Hm. run. eauto.
Qed.

Lemma for_each_returns (l : list QrcContent) :
  Forall returns l ->
  forall c tr, exists tr', for_each (body c) l tr = (Ok tt, tr').
Proof.
  induction 1 as [|x l Hx _ IH]; intros c tr; cbn [for_each]; [now exists tr|].
  destruct (Hx c tr) as [tr1 H1]. destruct (IH c tr1) as [tr2 H2].
  exists tr2. now rewrite run_bind, H1.
Qed.

Lemma content_returns (x : QrcContent) : archive_succeeds os -> returns x.
Proof.
  intros Hos.
  induction x as [name included|name included contents IH]
    using QrcContent_tree_ind; intros c tr.
  - destruct included; [|now exists tr].
    unfold body. rewrite write_content_file. unfold write_file.
    destruct (dst_file_of name) as [target frozen]. run.
    destruct Hos as (_ & Hf & Hc). destruct frozen; run.
    + unfold _freeze. run.
      match goal with
      | |- context [check_output os ?t ?a] =>
          destruct (Hf t a) as [out ->]
      end.
      run. eauto.
    + rewrite Hc. run. eauto.
  - destruct included; [|now exists tr].
    unfold body. rewrite write_content_directory.
    unfold _write_package_contents. rewrite run_bind.
    destruct (enter_returns (dir_stack c ++ [name]) tr Hos) as (c' & tr1 & ->);
      [now destruct (dir_stack c)|].
    now apply for_each_returns.
Qed.

Lemma package_returns (contents : list QrcContent) (src_root : string)
    (tr : trace) :
  archive_succeeds os ->
  exists tr',
    _write_package_contents os b contents dst_root_dir src_root_dir [src_root]
      freeze f tr = (Ok tt, tr').
Proof.
  intros Hos. unfold _write_package_contents. rewrite run_bind.
  destruct (enter_returns [src_root] tr Hos) as (c & tr1 & ->); [discriminate|].
  apply for_each_returns, Forall_forall. intros x _. now apply content_returns.
Qed.
End Archive.

Lemma resource_prefix_of (build_dir resource : string) :
  str_any is_sep resource = false -> resource <> "resources" ->
  let resources_dir := OsPath.join build_dir ["resources"] in
  let dst_root_dir :=
    if String.eqb resource "" then resources_dir
    else OsPath.join resources_dir [resource] in
  (if negb (String.eqb (OsPath.basename dst_root_dir) "resources")
   then [OsPath.basename dst_root_dir] else [])
  = if String.eqb resource "" then [] else [resource].
Proof.
  intros Hsep Hne resources_dir dst_root_dir. subst resources_dir dst_root_dir.
  destruct (String.eqb_spec resource "") as [->|Hr].
  - now rewrite basename_join.
  - rewrite basename_join by now apply no_sep_rfind.
    now destruct (String.eqb_spec resource "resources").
Qed.

(** [_write_resource] when it returns: the traversal has returned, between
    the heading and the closing tags. *)
Lemma write_resource_ok (os : OS) (b : Builder.t)
    (resources_dir resource : string) (package : QrcPackage.t)
    (src freeze : string) (tr tr' : trace) :
  let f := OsPath.join resources_dir [qrc_file_of resource] in
  let dst_root_dir :=
    if String.eqb resource "" then resources_dir
    else OsPath.join resources_dir [resource] in
  let tr0 :=
    tr ++ (if String.eqb resource "" then [] else [Makedirs dst_root_dir])
       ++ [Open f;
           Write f ("<!DOCTYPE RCC>" +:+ nl +:+
                    "<RCC version=" +:+ dq +:+ "1.0" +:+ dq +:+ ">"
                    +:+ nl +:+ "    <qresource>" +:+ nl)] in
  _write_resource os b resources_dir resource package src freeze tr
  = (Ok tt, tr') ->
  exists tr1,
    _write_package_contents os b (QrcPackage.contents package) dst_root_dir
      (fst (OsPath.split src)) [snd (OsPath.split src)] freeze f tr0
    = (Ok tt, tr1)
    /\ tr' = tr1 ++ [Write f ("    </qresource>" +:+ nl +:+ "</RCC>" +:+ nl);
                    Close f].
Proof.
  intros f dst_root_dir tr0. subst f dst_root_dir tr0.
  unfold _write_resource, qrc_file_of.
  destruct (String.eqb resource "") eqn:Er.
  - change ("pyqtdeploy" +:+ ".qrc") with "pyqtdeploy.qrc".
    set (f := OsPath.join resources_dir ["pyqtdeploy.qrc"]).
    run. unfold _create_file. fold f. run.
    destruct (open_wt os tr f) as [err|]; run; [intros H; discriminate H|].
    destruct (OsPath.split src) as [src_root_dir src_root]. cbn [fst snd].
    rewrite run_bind. cbn [app]. rewrite <- app_assoc. cbn [app].
    destruct (_write_package_contents _ _ _ _ _ _ _ _ _) as [[[]|e] tr1];
      run; intros H; [|discriminate H].
    injection H as <-. exists tr1. split; [reflexivity|].
    now rewrite <- app_assoc.
  - set (f := OsPath.join resources_dir [resource +:+ ".qrc"]).
    set (d := OsPath.join resources_dir [resource]).
    run. unfold _create_directory. run.
    destruct (makedirs os tr d) as [err|]; run; [intros H; discriminate H|].
    unfold _create_file. fold f. run.
    destruct (open_wt os (tr ++ [Makedirs d]) f) as [err|]; run;
      [intros H; discriminate H|].
    destruct (OsPath.split src) as [src_root_dir src_root]. cbn [fst snd].
    rewrite run_bind. rewrite <- !app_assoc. cbn [app].
    destruct (_write_package_contents _ _ _ _ _ _ _ _ _) as [[[]|e] tr1];
      run; intros H; [|discriminate H].
    injection H as <-. exists tr1. split; [reflexivity|].
    now rewrite <- app_assoc.
Qed.

(** [_write_resource] returns when the directory of the resource can be
    made, the manifest can be created and the traversal returns. *)
Lemma write_resource_returns (os : OS) (b : Builder.t)
    (resources_dir resource : string) (package : QrcPackage.t)
    (src freeze : string) (tr : trace) :
  let f := OsPath.join resources_dir [qrc_file_of resource] in
  let dst_root_dir :=
    if String.eqb resource "" then resources_dir
    else OsPath.join resources_dir [resource] in
  let pre := if String.eqb resource "" then [] else [Makedirs dst_root_dir] in
  archive_succeeds os -> open_wt os (tr ++ pre) f = None ->
  exists tr',
    _write_resource os b resources_dir resource package src freeze tr
    = (Ok tt, tr').
Proof.
  intros f dst_root_dir pre Hos. subst f dst_root_dir pre.
  unfold _write_resource, qrc_file_of.
  destruct (String.eqb resource "") eqn:Er.
  - change ("pyqtdeploy" +:+ ".qrc") with "pyqtdeploy.qrc".
    rewrite app_nil_r. intros Hopen.
    run. unfold _create_file. run. rewrite Hopen. run.
    destruct (OsPath.split src) as [src_root_dir src_root].
    rewrite run_bind.
    match goal with
    | |- context [_write_package_contents ?o ?b ?c ?d ?s [?r] ?fr ?f ?t] =>
        destruct (package_returns o b d s fr f c r t Hos) as [tr1 ->]
    end.
    run. eauto.
  - intros Hopen. run. unfold _create_directory. run.
    rewrite (proj1 Hos). run. unfold _create_file. run. rewrite Hopen. run.
    destruct (OsPath.split src) as [src_root_dir src_root].
    rewrite run_bind.
    match goal with
    | |- context [_write_package_contents ?o ?b ?c ?d ?s [?r] ?fr ?f ?t] =>
        destruct (package_returns o b d s fr f c r t Hos) as [tr1 ->]
    end.
    run. eauto.
Qed.

(** The archive of a resource: what [_write_resource] does when it
    returns. *)
Lemma resource_refines (os : OS) (b : Builder.t)
    (build_dir resource : string) (package : QrcPackage.t)
    (src freeze : string) (tr tr' : trace) :
  let resources_dir := OsPath.join build_dir ["resources"] in
  let f := OsPath.join resources_dir [qrc_file_of resource] in
  let dst_root_dir :=
    if String.eqb resource "" then resources_dir
    else OsPath.join resources_dir [resource] in
  let src_root_dir := fst (OsPath.split src) in
  let src_root := snd (OsPath.split src) in
  str_any is_sep resource = false -> resource <> "resources" ->
  src_root <> "." ->
  forallb plain_directories (QrcPackage.contents package) = true ->
  _write_resource os b resources_dir resource package src freeze tr
  = (Ok tt, tr') ->
  tr' = tr ++ (if String.eqb resource "" then [] else [Makedirs dst_root_dir])
           ++ [Open f;
               Write f ("<!DOCTYPE RCC>" +:+ nl +:+
                        "<RCC version=" +:+ dq +:+ "1.0" +:+ dq +:+ ">"
                        +:+ nl +:+ "    <qresource>" +:+ nl)]
           ++ (if String.eqb src_root "" then []
               else [Makedirs (OsPath.join dst_root_dir [src_root])])
           ++ flat_map
                (archive_events b freeze f src_root_dir dst_root_dir
                   (if String.eqb resource "" then [] else [resource])
                   (if String.eqb src_root "" then [] else [src_root]))
                (QrcPackage.contents package)
           ++ [Write f ("    </qresource>" +:+ nl +:+ "</RCC>" +:+ nl);
               Close f].
Proof.
  intros resources_dir f dst_root_dir src_root_dir src_root.
  subst resources_dir f dst_root_dir src_root_dir src_root.
  intros Hsep Hne Hdot Hp H.
  apply write_resource_ok in H as (tr1 & H & ->).
  apply package_refines in H; [|exact Hdot | exact Hp].
  pose proof (resource_prefix_of build_dir resource Hsep Hne) as Hpre.
  cbv zeta in Hpre. rewrite Hpre in H. rewrite H.
  now rewrite <- !app_assoc.
Qed.


